(** * TaxSaver rules engine: a shallow embedding and its properties

    The development follows the backend services of the repository:

    - [CarryForward]  : class CarryForwardService
    - [TaxComparison] : class TaxComparisonService
    - [Tax]           : class TaxService (with the enriched [Holding] of the
                        portfolio service)
    - [Txn]           : class TransactionService
    - [MultiAsset]    : class MultiAssetService
    - [WashSale]      : class WashSaleService, over the statements of [Sql]
    - [Portfolio]     : class PortfolioService

    Conventions.  A JavaScript [number] holding money, a quantity or a rate
    is an exact rational ([Q]); results are compared with [==].  A [Date] is
    its epoch value in milliseconds ([Z]); the server runs in a zone without
    daylight saving, so that [setDate(getDate() + n)] adds [n] whole days.
    A nullable column or optional field is an [option].  A SQL statement is
    a function on the rows of the table it names; the statements of
    WashSaleService are kept as statements (columns, conditions, order) and
    resolved against the columns of the table ([Sql]). *)

From Stdlib Require Import QArith Qminmax Qabs Qround Lqa Ascii String.
From stdpp Require Import gmap strings list fin_maps pretty.

(** ** JavaScript values *)

Module Js.

Local Open Scope Q_scope.

(** [x < y] and [x > y] on numbers. *)
Definition Qltb (x y : Q) : bool := negb (Qle_bool y x).
Definition Qgtb (x y : Q) : bool := Qltb y x.

(** [x || d] for a possibly missing number: [undefined], [null], [NaN]
    and [0] all select the default. *)
Definition num_or (x : option Q) (d : Q) : Q :=
  match x with
  | Some v => if Qeq_bool v 0 then d else v
  | None => d
  end.

(** [s || d] for a possibly missing string: the empty string is falsy. *)
Definition str_or (x : option string) (d : string) : string :=
  match x with
  | Some EmptyString | None => d
  | Some s => s
  end.

(** Truthiness of a possibly missing string. *)
Definition str_truthy (x : option string) : bool :=
  match x with
  | Some EmptyString | None => false
  | Some _ => true
  end.

(** Decimal digits. *)
Definition digit_of (c : ascii) : option Z :=
  let n := Z.of_N (Ascii.N_of_ascii c) in
  if ((48 <=? n) && (n <=? 57))%Z then Some (n - 48)%Z else None.

Fixpoint leading_digits (s : string) (acc : option Z) : option Z :=
  match s with
  | EmptyString => acc
  | String c rest =>
      match digit_of c with
      | Some d => leading_digits rest (Some (10 * default 0%Z acc + d)%Z)
      | None => acc
      end
  end.

(** [parseInt(s)] on a string that starts with its digits; [None] is
    [NaN].  (Leading blanks, signs and radix prefixes do not occur in
    fiscal-year strings and are read as [NaN].) *)
Definition parseInt (s : string) : option Z := leading_digits s None.

Fixpoint all_digits (s : string) (acc : Z) : option Z :=
  match s with
  | EmptyString => Some acc
  | String c rest =>
      match digit_of c with
      | Some d => all_digits rest (10 * acc + d)%Z
      | None => None
      end
  end.

(** [Number(s)] on a string of digits; the empty string is [0], anything
    else with a non-digit is read as [NaN] ([None]). *)
Definition Number (s : string) : option Z := all_digits s 0%Z.

(** [s.split('-')[0]]. *)
Fixpoint before_dash (s : string) : string :=
  match s with
  | EmptyString => EmptyString
  | String c rest =>
      if Ascii.eqb c "-"%char then EmptyString else String c (before_dash rest)
  end.

(** [s.slice(2)]. *)
Definition slice2 (s : string) : string :=
  match s with
  | String _ (String _ rest) => rest
  | _ => EmptyString
  end.

(** [String(n)] for an integer. *)
Definition String_of (n : Z) : string := pretty n.

(** [Math.ceil(ms / d)] for integers [ms] and [d > 0]. *)
Definition ceil_div (ms d : Z) : Z := (- ((- ms) / d))%Z.

(** [Math.floor(ms / d)] for integers [ms] and [d > 0]. *)
Definition floor_div (ms d : Z) : Z := (ms / d)%Z.

Definition MS_PER_DAY : Z := (1000 * 60 * 60 * 24)%Z.

(** [d.setDate(d.getDate() + n)]. *)
Definition add_days (d : Z) (n : Z) : Z := (d + n * MS_PER_DAY)%Z.

End Js.

(** ** Carry-forward ledger (class CarryForwardService) *)

Module CarryForward.

Import Js.
Local Open Scope Q_scope.

(** The JSON document stored in [tax_reports.report_data]. *)
Record ReportData := {
  sourceYear : option string;
  stCarryForward : option Q;
  ltCarryForward : option Q;
  canOffsetSTGains : option bool;
  canOffsetLTGains : option bool;
  expiresIn : option Q
}.

(** A row of table [tax_reports], restricted to the columns the service
    reads or writes. *)
Record TaxReportRow := {
  user_id : string;
  financial_year : string;
  report_type : string;
  total_short_term_gains : option Q;
  total_long_term_gains : option Q;
  total_short_term_losses : option Q;
  total_long_term_losses : option Q;
  report_data : option ReportData;
  generated_at : Z
}.

(** One element of [details] in the answer of [getAvailableCarryForward]. *)
Record CarryForwardEntry := {
  cf_sourceYear : string;
  stLoss : Q;
  ltLoss : Q;
  generatedAt : Z;
  cf_expiresIn : Q
}.

Record Available := {
  totalSTCarryForward : Q;
  totalLTCarryForward : Q;
  details : list CarryForwardEntry;
  count : nat
}.

Record Applied := {
  originalSTGain : Q;
  originalLTGain : Q;
  adjustedSTGain : Q;
  adjustedLTGain : Q;
  stLossUsed : Q;
  ltLossUsed : Q;
  totalLossUsed : Q;
  taxSaved : Q;
  carryForwardApplied : bool
}.

(** [ORDER BY financial_year DESC]: insertion into a list that is already
    in descending order. *)
Fixpoint insert_desc (r : TaxReportRow) (l : list TaxReportRow) : list TaxReportRow :=
  match l with
  | [] => [r]
  | x :: rest =>
      if String.leb (financial_year x) (financial_year r)
      then r :: x :: rest
      else x :: insert_desc r rest
  end.

Definition order_by_year_desc (l : list TaxReportRow) : list TaxReportRow :=
  foldr insert_desc [] l.

(** The [SELECT] of [getAvailableCarryForward]: the user's carry-forward
    rows filed under a year not after [financialYear] (text comparison),
    latest year first. *)
Definition select_carry_forward (tax_reports : list TaxReportRow)
    (userId financialYear : string) : list TaxReportRow :=
  order_by_year_desc
    (List.filter
       (fun row =>
          String.eqb (user_id row) userId
          && String.eqb (report_type row) "carry_forward"
          && String.leb (financial_year row) financialYear)
       tax_reports).

Definition entry_of_row (row : TaxReportRow) : CarryForwardEntry :=
  let data_sourceYear := report_data row ≫= sourceYear in
  let data_expiresIn := report_data row ≫= expiresIn in
  {| cf_sourceYear := str_or data_sourceYear (financial_year row);
     stLoss := num_or (total_short_term_losses row) 0;
     ltLoss := num_or (total_long_term_losses row) 0;
     generatedAt := generated_at row;
     cf_expiresIn := num_or data_expiresIn 8 |}.

(** [arr.reduce((sum, cf) => sum + f(cf), 0)]. *)
Definition reduce_sum {A} (f : A -> Q) (l : list A) : Q :=
  fold_left (fun sum cf => sum + f cf) l 0.

Definition getAvailableCarryForward (tax_reports : list TaxReportRow)
    (userId financialYear : string) : Available :=
  let carryForwards :=
    List.map entry_of_row (select_carry_forward tax_reports userId financialYear) in
  {| totalSTCarryForward := reduce_sum stLoss carryForwards;
     totalLTCarryForward := reduce_sum ltLoss carryForwards;
     details := carryForwards;
     count := length carryForwards |}.

(** The body of [applyCarryForward] once the available totals are known. *)
Definition apply_totals (totalST totalLT currentSTGain currentLTGain : Q) : Applied :=
  let remainingSTGain := currentSTGain in
  let remainingLTGain := currentLTGain in
  let stLossUsed0 := 0 in
  let ltLossUsed0 := 0 in
  (* Apply ST losses first (can offset both ST and LT gains) *)
  let '(remainingSTGain, remainingLTGain, stLossUsed1) :=
    if Qgtb totalST 0 then
      let stOffset := Qmin remainingSTGain totalST in
      let remainingSTGain := remainingSTGain - stOffset in
      let stLossUsed := stLossUsed0 + stOffset in
      let remainingSTLoss := totalST - stLossUsed in
      if Qgtb remainingSTLoss 0 && Qgtb remainingLTGain 0 then
        let ltOffset := Qmin remainingLTGain remainingSTLoss in
        (remainingSTGain, remainingLTGain - ltOffset, stLossUsed + ltOffset)
      else (remainingSTGain, remainingLTGain, stLossUsed)
    else (remainingSTGain, remainingLTGain, stLossUsed0) in
  (* Apply LT losses to LT gains only *)
  let '(remainingLTGain, ltLossUsed1) :=
    if Qgtb totalLT 0 && Qgtb remainingLTGain 0 then
      let ltOffset := Qmin remainingLTGain totalLT in
      (remainingLTGain - ltOffset, ltLossUsed0 + ltOffset)
    else (remainingLTGain, ltLossUsed0) in
  {| originalSTGain := currentSTGain;
     originalLTGain := currentLTGain;
     adjustedSTGain := remainingSTGain;
     adjustedLTGain := remainingLTGain;
     stLossUsed := stLossUsed1;
     ltLossUsed := ltLossUsed1;
     totalLossUsed := stLossUsed1 + ltLossUsed1;
     taxSaved := stLossUsed1 * 0.15 + ltLossUsed1 * 0.10;
     carryForwardApplied := true |}.

Definition applyCarryForward (tax_reports : list TaxReportRow)
    (userId financialYear : string) (currentSTGain currentLTGain : Q) : Applied :=
  let carryForward := getAvailableCarryForward tax_reports userId financialYear in
  apply_totals (totalSTCarryForward carryForward) (totalLTCarryForward carryForward)
    currentSTGain currentLTGain.

(** [getNextFinancialYear]: a start year that does not parse gives the
    text JavaScript builds from [NaN]. *)
Definition getNextFinancialYear (currentFY : string) : string :=
  match parseInt (before_dash currentFY) with
  | Some startYear =>
      let nextYear := (startYear + 1)%Z in
      String.append (String_of nextYear)
        (String.append "-" (slice2 (String_of (nextYear + 1)%Z)))
  | None => "NaN-N"
  end.

(** [calculateYearsDifference]; [None] is [NaN]. *)
Definition calculateYearsDifference (fromFY toFY : string) : option Z :=
  match Number (before_dash fromFY), Number (before_dash toFY) with
  | Some fromYear, Some toYear => Some (toYear - fromYear)%Z
  | _, _ => None
  end.

(** What [calculateCarryForward] answers. *)
Record YearEnd := {
  ye_stCarryForward : Q;
  ye_ltCarryForward : Q;
  nextYear : option string;
  ye_expiresIn : option Q;
  message : string
}.

(** [ORDER BY generated_at DESC LIMIT 1]. *)
Fixpoint latest (l : list TaxReportRow) : option TaxReportRow :=
  match l with
  | [] => None
  | r :: rest =>
      match latest rest with
      | Some r' => if (generated_at r <? generated_at r')%Z then Some r' else Some r
      | None => Some r
      end
  end.

(** [INSERT ... ON CONFLICT (user_id, financial_year, report_type)
    DO UPDATE SET ...]: the row with that key is rewritten in place, or a
    new row is appended (its gain columns take their default, 0). *)
Fixpoint upsert_carry_forward (l : list TaxReportRow) (userId fy : string)
    (netSTLoss netLTLoss : Q) (data : ReportData) (now : Z) : list TaxReportRow :=
  match l with
  | [] =>
      [ {| user_id := userId; financial_year := fy; report_type := "carry_forward";
           total_short_term_gains := Some 0; total_long_term_gains := Some 0;
           total_short_term_losses := Some netSTLoss;
           total_long_term_losses := Some netLTLoss;
           report_data := Some data; generated_at := now |} ]
  | r :: rest =>
      if String.eqb (user_id r) userId && String.eqb (financial_year r) fy
         && String.eqb (report_type r) "carry_forward"
      then {| user_id := user_id r; financial_year := financial_year r;
              report_type := report_type r;
              total_short_term_gains := total_short_term_gains r;
              total_long_term_gains := total_long_term_gains r;
              total_short_term_losses := Some netSTLoss;
              total_long_term_losses := Some netLTLoss;
              report_data := Some data; generated_at := now |} :: rest
      else r :: upsert_carry_forward rest userId fy netSTLoss netLTLoss data now
  end.

(** [calculateCarryForward] at time [now]: the answer and the table
    afterwards.  A [NULL] amount counts as 0 in the subtraction. *)
Definition calculateCarryForward (tax_reports : list TaxReportRow)
    (userId financialYear : string) (now : Z) : YearEnd * list TaxReportRow :=
  match latest (List.filter
                  (fun r => String.eqb (user_id r) userId
                            && String.eqb (financial_year r) financialYear)
                  tax_reports) with
  | None =>
      ({| ye_stCarryForward := 0; ye_ltCarryForward := 0; nextYear := None;
          ye_expiresIn := None; message := "No tax data found for this year" |},
       tax_reports)
  | Some tax =>
      let amount (x : option Q) := default 0 x in
      let netSTLoss :=
        Qmax 0 (amount (total_short_term_losses tax) - amount (total_short_term_gains tax)) in
      let netLTLoss :=
        Qmax 0 (amount (total_long_term_losses tax) - amount (total_long_term_gains tax)) in
      let store :=
        if Qgtb netSTLoss 0 || Qgtb netLTLoss 0 then
          upsert_carry_forward tax_reports userId (getNextFinancialYear financialYear)
            netSTLoss netLTLoss
            {| sourceYear := Some financialYear;
               stCarryForward := Some netSTLoss;
               ltCarryForward := Some netLTLoss;
               canOffsetSTGains := Some true;
               canOffsetLTGains := Some true;
               expiresIn := Some 8 (* 8 years from date of loss *) |}
            now
        else tax_reports in
      ({| ye_stCarryForward := netSTLoss; ye_ltCarryForward := netLTLoss;
          nextYear := Some (getNextFinancialYear financialYear);
          ye_expiresIn := Some 8;
          message := if Qgtb netSTLoss 0 || Qgtb netLTLoss 0
                     then "Losses will be carried forward to next year"
                     else "No losses to carry forward" |},
       store)
  end.

End CarryForward.

(** ** Regime comparison (class TaxComparisonService) *)

Module TaxComparison.

Import Js.
Local Open Scope Q_scope.

Record Deductions := {
  section80C : Q;
  section80D : Q;
  homeLoanInterest : Q;
  nps : Q;
  other : Q
}.

Record CapitalGains := {
  shortTermEquity : Q;
  longTermEquity : Q;
  shortTermCrypto : Q;
  longTermCrypto : Q
}.

Record TaxRegimeInput := {
  totalIncome : Q;
  deductions : Deductions;
  capitalGains : CapitalGains
}.

(** [effectiveRate] is [None] when the division is by zero (JavaScript
    then gives [NaN] or an infinity). *)
Record RegimeCalculation := {
  incomeTax : Q;
  surcharge : Q;
  cess : Q;
  capitalGainsTax : Q;
  totalTax : Q;
  deductionsUsed : Q;
  effectiveRate : option Q
}.

Inductive Regime := OLD | NEW.

(** Which of the three texts [generateExplanation] builds. *)
Inductive Explanation := OldRegimeIsBetter | NewRegimeIsBetter | BothRegimesSame.

Record TaxComparison := {
  oldRegime : RegimeCalculation;
  newRegime : RegimeCalculation;
  recommendation : Regime;
  savings : Q;
  savingsPercentage : option Q;
  explanation : Explanation
}.

(** A slab; [max = None] is [Infinity]. *)
Record Slab := { min : Q; max : option Q; rate : Q }.

Definition OLD_REGIME_SLABS : list Slab :=
  [ {| min := 0; max := Some 250000; rate := 0 |};
    {| min := 250000; max := Some 500000; rate := 0.05 |};
    {| min := 500000; max := Some 1000000; rate := 0.20 |};
    {| min := 1000000; max := None; rate := 0.30 |} ].

Definition NEW_REGIME_SLABS : list Slab :=
  [ {| min := 0; max := Some 300000; rate := 0 |};
    {| min := 300000; max := Some 600000; rate := 0.05 |};
    {| min := 600000; max := Some 900000; rate := 0.10 |};
    {| min := 900000; max := Some 1200000; rate := 0.15 |};
    {| min := 1200000; max := Some 1500000; rate := 0.20 |};
    {| min := 1500000; max := None; rate := 0.30 |} ].

(** [Math.min(income, slab.max)]. *)
Definition min_with_max (income : Q) (slab_max : option Q) : Q :=
  match slab_max with
  | Some m => Qmin income m
  | None => income
  end.

(** One turn of the loop of [calculateSlabTax]. *)
Definition slab_step (income : Q) (tax : Q) (slab : Slab) : Q :=
  if Qgtb income (min slab) then
    let taxableInSlab := min_with_max income (max slab) - min slab in
    tax + taxableInSlab * rate slab
  else tax.

Definition calculateSlabTax (income : Q) (slabs : list Slab) : Q :=
  fold_left (slab_step income) slabs 0.

Definition calculateCapitalGainsTax (gains : CapitalGains) : Q :=
  let tax := 0 in
  (* Short-term equity: 20% *)
  let tax := tax + shortTermEquity gains * 0.20 in
  (* Long-term equity: 12.5% (after 1L exemption) *)
  let ltEquityTaxable := Qmax 0 (longTermEquity gains - 100000) in
  let tax := tax + ltEquityTaxable * 0.125 in
  (* Crypto: 30% (both ST and LT) *)
  let tax := tax + (shortTermCrypto gains + longTermCrypto gains) * 0.30 in
  tax.

Definition calculateSurcharge (tax totalIncome : Q) : Q :=
  if Qle_bool totalIncome 5000000 then 0
  else if Qle_bool totalIncome 10000000 then tax * 0.10
  else if Qle_bool totalIncome 20000000 then tax * 0.15
  else if Qle_bool totalIncome 50000000 then tax * 0.25
  else tax * 0.37.

Definition getTotalCapitalGains (gains : CapitalGains) : Q :=
  shortTermEquity gains + longTermEquity gains
  + shortTermCrypto gains + longTermCrypto gains.

(** [(x / y) * 100]. *)
Definition percent_of (x y : Q) : option Q :=
  if Qeq_bool y 0 then None else Some ((x / y) * 100).

Definition calculateOldRegime (input : TaxRegimeInput) : RegimeCalculation :=
  let d := deductions input in
  let totalDeductions :=
    Qmin (section80C d + section80D d + homeLoanInterest d + nps d + other d)
         350000 in
  let taxableIncome := Qmax 0 (totalIncome input - totalDeductions) in
  let incomeTax := calculateSlabTax taxableIncome OLD_REGIME_SLABS in
  let capitalGainsTax := calculateCapitalGainsTax (capitalGains input) in
  let totalIncomeWithGains :=
    totalIncome input + getTotalCapitalGains (capitalGains input) in
  let surcharge := calculateSurcharge incomeTax totalIncomeWithGains in
  let cess := (incomeTax + surcharge) * 0.04 in
  let totalTax := incomeTax + surcharge + cess + capitalGainsTax in
  {| incomeTax := incomeTax;
     surcharge := surcharge;
     cess := cess;
     capitalGainsTax := capitalGainsTax;
     totalTax := totalTax;
     deductionsUsed := totalDeductions;
     effectiveRate :=
       percent_of totalTax
         (totalIncome input + getTotalCapitalGains (capitalGains input)) |}.

Definition calculateNewRegime (input : TaxRegimeInput) : RegimeCalculation :=
  let taxableIncome := totalIncome input in
  let incomeTax := calculateSlabTax taxableIncome NEW_REGIME_SLABS in
  let capitalGainsTax := calculateCapitalGainsTax (capitalGains input) in
  let totalIncomeWithGains :=
    totalIncome input + getTotalCapitalGains (capitalGains input) in
  let surcharge := calculateSurcharge incomeTax totalIncomeWithGains in
  let cess := (incomeTax + surcharge) * 0.04 in
  let totalTax := incomeTax + surcharge + cess + capitalGainsTax in
  {| incomeTax := incomeTax;
     surcharge := surcharge;
     cess := cess;
     capitalGainsTax := capitalGainsTax;
     totalTax := totalTax;
     deductionsUsed := 0;
     effectiveRate :=
       percent_of totalTax
         (totalIncome input + getTotalCapitalGains (capitalGains input)) |}.

Definition generateExplanation (savings : Q) : Explanation :=
  if Qgtb savings 0 then OldRegimeIsBetter
  else if Qltb savings 0 then NewRegimeIsBetter
  else BothRegimesSame.

Definition compareRegimes (input : TaxRegimeInput) : TaxComparison :=
  let oldRegime := calculateOldRegime input in
  let newRegime := calculateNewRegime input in
  let savings := totalTax oldRegime - totalTax newRegime in
  let recommendation :=
    if Qltb (totalTax oldRegime) (totalTax newRegime) then OLD else NEW in
  {| oldRegime := oldRegime;
     newRegime := newRegime;
     recommendation := recommendation;
     savings := Qabs savings;
     savingsPercentage :=
       percent_of (Qabs savings) (Qmax (totalTax oldRegime) (totalTax newRegime));
     explanation := generateExplanation savings |}.

Record QuickEstimate := {
  qe_oldRegime : Q;
  qe_newRegime : Q;
  qe_recommendation : Regime
}.

Definition quickEstimate (totalIncome deductions : Q) : QuickEstimate :=
  let input :=
    {| totalIncome := totalIncome;
       deductions := {| section80C := deductions; section80D := 0;
                        homeLoanInterest := 0; nps := 0; other := 0 |};
       capitalGains := {| shortTermEquity := 0; longTermEquity := 0;
                          shortTermCrypto := 0; longTermCrypto := 0 |} |} in
  let comparison := compareRegimes input in
  {| qe_oldRegime := totalTax (oldRegime comparison);
     qe_newRegime := totalTax (newRegime comparison);
     qe_recommendation := recommendation comparison |}.

End TaxComparison.

(** ** The tables of the database

    Each table is a finite map from its primary key (a UUID, kept as text)
    to the columns the services read or write. *)

Module Db.

Inductive AssetType := stock | crypto.
Inductive TransactionType := buy | sell.
Inductive Status := pending | accepted | rejected | expired.

Definition Status_eqb (a b : Status) : bool :=
  match a, b with
  | pending, pending | accepted, accepted
  | rejected, rejected | expired, expired => true
  | _, _ => false
  end.

(** A calendar date [(year, month, day)]. *)
Definition CalendarDate : Type := Z * Z * Z.

Module Holding.
Record row := {
  user_id : string;
  asset_type : AssetType;
  asset_symbol : string;
  quantity : Q;
  average_buy_price : Q;
  current_price : option Q;
  purchase_date : Z;
  platform : option string;
  created_at : Z;
  updated_at : Z
}.
End Holding.

Module Transaction.
Record row := {
  user_id : string;
  holding_id : option string;
  asset_type : AssetType;
  asset_symbol : string;
  transaction_type : TransactionType;
  quantity : Q;
  price : Q;
  transaction_date : Z;
  fees : Q;
  platform : option string;
  notes : option string
}.
End Transaction.

Module Recommendation.
Record row := {
  user_id : string;
  holding_id : option string;
  asset_symbol : string;
  recommendation_type : string;
  current_price : option Q;
  purchase_price : option Q;
  quantity : option Q;
  potential_loss : option Q;
  tax_savings : option Q;
  priority_score : option Z;
  deadline : option CalendarDate;
  status : Status;
  notes : option string;
  executed_at : option Z;
  updated_at : Z
}.
End Recommendation.

Record Database := {
  holdings : gmap string Holding.row;
  transactions : gmap string Transaction.row;
  tax_recommendations : gmap string Recommendation.row
}.

(** Functional updates of a row. *)
Definition set_quantity (q : Q) (now : Z) (h : Holding.row) : Holding.row :=
  {| Holding.user_id := Holding.user_id h;
     Holding.asset_type := Holding.asset_type h;
     Holding.asset_symbol := Holding.asset_symbol h;
     Holding.quantity := q;
     Holding.average_buy_price := Holding.average_buy_price h;
     Holding.current_price := Holding.current_price h;
     Holding.purchase_date := Holding.purchase_date h;
     Holding.platform := Holding.platform h;
     Holding.created_at := Holding.created_at h;
     Holding.updated_at := now |}.

Definition set_status (s : Status) (executed : option Z) (updated : Z)
    (r : Recommendation.row) : Recommendation.row :=
  {| Recommendation.user_id := Recommendation.user_id r;
     Recommendation.holding_id := Recommendation.holding_id r;
     Recommendation.asset_symbol := Recommendation.asset_symbol r;
     Recommendation.recommendation_type := Recommendation.recommendation_type r;
     Recommendation.current_price := Recommendation.current_price r;
     Recommendation.purchase_price := Recommendation.purchase_price r;
     Recommendation.quantity := Recommendation.quantity r;
     Recommendation.potential_loss := Recommendation.potential_loss r;
     Recommendation.tax_savings := Recommendation.tax_savings r;
     Recommendation.priority_score := Recommendation.priority_score r;
     Recommendation.deadline := Recommendation.deadline r;
     Recommendation.status := s;
     Recommendation.notes := Recommendation.notes r;
     Recommendation.executed_at := executed;
     Recommendation.updated_at := updated |}.

Definition set_notes (n : option string) (t : Transaction.row) : Transaction.row :=
  {| Transaction.user_id := Transaction.user_id t;
     Transaction.holding_id := Transaction.holding_id t;
     Transaction.asset_type := Transaction.asset_type t;
     Transaction.asset_symbol := Transaction.asset_symbol t;
     Transaction.transaction_type := Transaction.transaction_type t;
     Transaction.quantity := Transaction.quantity t;
     Transaction.price := Transaction.price t;
     Transaction.transaction_date := Transaction.transaction_date t;
     Transaction.fees := Transaction.fees t;
     Transaction.platform := Transaction.platform t;
     Transaction.notes := n |}.

Definition unlink_transaction (holdingId : string) (t : Transaction.row)
    : Transaction.row :=
  if decide (Transaction.holding_id t = Some holdingId)
  then {| Transaction.user_id := Transaction.user_id t;
          Transaction.holding_id := None;
          Transaction.asset_type := Transaction.asset_type t;
          Transaction.asset_symbol := Transaction.asset_symbol t;
          Transaction.transaction_type := Transaction.transaction_type t;
          Transaction.quantity := Transaction.quantity t;
          Transaction.price := Transaction.price t;
          Transaction.transaction_date := Transaction.transaction_date t;
          Transaction.fees := Transaction.fees t;
          Transaction.platform := Transaction.platform t;
          Transaction.notes := Transaction.notes t |}
  else t.

Definition unlink_recommendation (holdingId : string) (r : Recommendation.row)
    : Recommendation.row :=
  if decide (Recommendation.holding_id r = Some holdingId)
  then {| Recommendation.user_id := Recommendation.user_id r;
          Recommendation.holding_id := None;
          Recommendation.asset_symbol := Recommendation.asset_symbol r;
          Recommendation.recommendation_type := Recommendation.recommendation_type r;
          Recommendation.current_price := Recommendation.current_price r;
          Recommendation.purchase_price := Recommendation.purchase_price r;
          Recommendation.quantity := Recommendation.quantity r;
          Recommendation.potential_loss := Recommendation.potential_loss r;
          Recommendation.tax_savings := Recommendation.tax_savings r;
          Recommendation.priority_score := Recommendation.priority_score r;
          Recommendation.deadline := Recommendation.deadline r;
          Recommendation.status := Recommendation.status r;
          Recommendation.notes := Recommendation.notes r;
          Recommendation.executed_at := Recommendation.executed_at r;
          Recommendation.updated_at := Recommendation.updated_at r |}
  else r.

(** [DELETE FROM holdings WHERE holding_id = $1]; the references to the
    holding from [transactions] and [tax_recommendations] are declared
    [ON DELETE SET NULL]. *)
Definition delete_holding (holdingId : string) (db : Database) : Database :=
  {| holdings := delete holdingId (holdings db);
     transactions := unlink_transaction holdingId <$> transactions db;
     tax_recommendations :=
       unlink_recommendation holdingId <$> tax_recommendations db |}.

Definition with_holdings (f : gmap string Holding.row -> gmap string Holding.row)
    (db : Database) : Database :=
  {| holdings := f (holdings db);
     transactions := transactions db;
     tax_recommendations := tax_recommendations db |}.

Definition with_transactions
    (f : gmap string Transaction.row -> gmap string Transaction.row)
    (db : Database) : Database :=
  {| holdings := holdings db;
     transactions := f (transactions db);
     tax_recommendations := tax_recommendations db |}.

Definition with_recommendations
    (f : gmap string Recommendation.row -> gmap string Recommendation.row)
    (db : Database) : Database :=
  {| holdings := holdings db;
     transactions := transactions db;
     tax_recommendations := f (tax_recommendations db) |}.

End Db.

(** ** Recommendation execution (class TransactionService) *)

Module Txn.

Import Js Db.
Local Open Scope Q_scope.

(** What a call gives back: a value, or the message of the [Error] thrown. *)
Inductive Result (A : Type) : Type :=
| Ok (value : A)
| Err (message : string).
Arguments Ok {A} value.
Arguments Err {A} message.

(** Statements issued on one client between [BEGIN] and [COMMIT]. *)
Definition Tx (A : Type) : Type := Database -> Result A * Database.

Definition ret {A} (a : A) : Tx A := fun db => (Ok a, db).

Definition throw {A} (message : string) : Tx A := fun db => (Err message, db).

Definition bind {A B} (m : Tx A) (k : A -> Tx B) : Tx B :=
  fun db =>
    match m db with
    | (Ok a, db') => k a db'
    | (Err e, db') => (Err e, db')
    end.

Definition query {A} (f : Database -> A) : Tx A := fun db => (Ok (f db), db).

Definition exec (f : Database -> Database) : Tx unit := fun db => (Ok tt, f db).

Notation "x <- m ;; k" := (bind m (fun x => k))
  (at level 100, m at next level, right associativity).
Notation "m ;;; k" := (bind m (fun _ => k))
  (at level 100, right associativity).

(** [BEGIN]; the statements; [COMMIT] -- and [ROLLBACK] in the [catch],
    which then throws the error again. *)
Definition atomically {A} (m : Tx A) (db : Database) : Result A * Database :=
  match m db with
  | (Ok a, db') => (Ok a, db')
  | (Err e, _) => (Err e, db)
  end.

(** [SELECT * FROM tax_recommendations WHERE recommendation_id = $1
    AND user_id = $2 AND status = 'pending']. *)
Definition select_pending (recommendationId userId : string) (db : Database)
    : option Recommendation.row :=
  match tax_recommendations db !! recommendationId with
  | Some r =>
      if String.eqb (Recommendation.user_id r) userId
         && Status_eqb (Recommendation.status r) pending
      then Some r else None
  | None => None
  end.

(** [SELECT * FROM holdings WHERE holding_id = $1 AND user_id = $2]; a
    [NULL] id matches no row. *)
Definition select_holding (holdingId : option string) (userId : string)
    (db : Database) : option (string * Holding.row) :=
  match holdingId with
  | Some id =>
      match holdings db !! id with
      | Some h => if String.eqb (Holding.user_id h) userId then Some (id, h) else None
      | None => None
      end
  | None => None
  end.

(** [INSERT INTO transactions ... RETURNING *]: [quantity] and [price] are
    [NOT NULL] and the generated key [newId] must be new. *)
Definition insert_sell (newId userId holdingId : string) (h : Holding.row)
    (r : Recommendation.row) (now : Z) : Tx (string * Transaction.row) :=
  match Recommendation.quantity r, Recommendation.current_price r with
  | Some quantity, Some price =>
      let row :=
        {| Transaction.user_id := userId;
           Transaction.holding_id := Some holdingId;
           Transaction.asset_type := Holding.asset_type h;
           Transaction.asset_symbol := Holding.asset_symbol h;
           Transaction.transaction_type := sell;
           Transaction.quantity := quantity;
           Transaction.price := price;
           Transaction.transaction_date := now;
           Transaction.fees := 0;
           Transaction.platform := Some "tlh_execution";
           Transaction.notes :=
             Some (String.append "Tax loss harvesting: "
                     (str_or (Recommendation.notes r) "Executed via TaxSaver")) |} in
      fun db =>
        match transactions db !! newId with
        | Some _ => (Err "duplicate key value violates unique constraint", db)
        | None => (Ok (newId, row), with_transactions (insert newId row) db)
        end
  | _, _ => throw "null value violates not-null constraint"
  end.

Record HoldingOutcome := {
  ho_asset_symbol : string;
  remaining_quantity : Q;
  fully_sold : bool
}.

Record Execution := {
  ex_transaction : string * Transaction.row;
  ex_recommendation : Recommendation.row;
  ex_holding : HoldingOutcome
}.

(** [executeRecommendation] called at time [now]; [newId] is the key the
    database generates for the inserted transaction. *)
Definition executeRecommendation (userId recommendationId : string)
    (now : Z) (newId : string) : Database -> Result Execution * Database :=
  atomically (
    (* Get recommendation details *)
    recResult <- query (select_pending recommendationId userId) ;;
    match recResult with
    | None => throw "Recommendation not found or already executed"
    | Some recommendation =>
        (* Get holding details *)
        holdingResult <-
          query (select_holding (Recommendation.holding_id recommendation) userId) ;;
        match holdingResult with
        | None => throw "Holding not found"
        | Some (holdingId, holding) =>
            (* Create sell transaction *)
            transactionResult <-
              insert_sell newId userId holdingId holding recommendation now ;;
            (* Update holding quantity *)
            let newQuantity :=
              Holding.quantity holding
              - default 0 (Recommendation.quantity recommendation) in
            (if Qle_bool newQuantity 0
             then (* Delete holding if fully sold *)
               exec (delete_holding holdingId)
             else
               exec (with_holdings (alter (set_quantity newQuantity now) holdingId))) ;;;
            (* Mark recommendation as executed *)
            exec (with_recommendations
                    (alter (set_status accepted (Some now) now) recommendationId)) ;;;
            ret {| ex_transaction := transactionResult;
                   ex_recommendation :=
                     set_status accepted (Some now)
                       (Recommendation.updated_at recommendation) recommendation;
                   ex_holding :=
                     {| ho_asset_symbol := Holding.asset_symbol holding;
                        remaining_quantity := newQuantity;
                        fully_sold := Qle_bool newQuantity 0 |} |}
        end
    end).

(** [CONCAT(notes, ' [REVERSED]')]: a [NULL] argument counts as empty. *)
Definition mark_reversed (t : Transaction.row) : Transaction.row :=
  set_notes (Some (String.append (default EmptyString (Transaction.notes t)) " [REVERSED]")) t.

Definition add_quantity (q : Q) (now : Z) (h : Holding.row) : Holding.row :=
  set_quantity (Holding.quantity h + q) now h.

Definition subtract_quantity (q : Q) (now : Z) (h : Holding.row) : Holding.row :=
  set_quantity (Holding.quantity h - q) now h.

(** The linked holding of a transaction, when [transaction.holding_id] is
    truthy. *)
Definition linked_holding (t : Transaction.row) : option string :=
  if str_truthy (Transaction.holding_id t) then Transaction.holding_id t else None.

Record Reversal := { success : bool; message : string }.

(** [reverseTransaction] called at time [now]. *)
Definition reverseTransaction (userId transactionId : string) (now : Z)
    : Database -> Result Reversal * Database :=
  atomically (
    (* Get transaction details *)
    txnResult <-
      query (fun db =>
               match transactions db !! transactionId with
               | Some t => if String.eqb (Transaction.user_id t) userId
                           then Some t else None
               | None => None
               end) ;;
    match txnResult with
    | None => throw "Transaction not found"
    | Some transaction =>
        (* If it's a sell transaction, restore the holding *)
        (match Transaction.transaction_type transaction, linked_holding transaction with
         | sell, Some holdingId =>
             (* Check if holding still exists *)
             holdingExists <- query (fun db => holdings db !! holdingId) ;;
             match holdingExists with
             | Some _ =>
                 (* Add back the quantity *)
                 exec (with_holdings
                         (alter (add_quantity (Transaction.quantity transaction) now)
                                holdingId))
             | None =>
                 (* Recreate the holding *)
                 exec (with_holdings
                         (insert holdingId
                            {| Holding.user_id := userId;
                               Holding.asset_type := Transaction.asset_type transaction;
                               Holding.asset_symbol := Transaction.asset_symbol transaction;
                               Holding.quantity := Transaction.quantity transaction;
                               Holding.average_buy_price := Transaction.price transaction;
                               Holding.current_price := Some (Transaction.price transaction);
                               Holding.purchase_date :=
                                 Transaction.transaction_date transaction;
                               Holding.platform := Transaction.platform transaction;
                               Holding.created_at := now;
                               Holding.updated_at := now |}))
             end
         | _, _ => ret tt
         end) ;;;
        (* If it's a buy transaction, we need to reduce the holding quantity *)
        (match Transaction.transaction_type transaction, linked_holding transaction with
         | buy, Some holdingId =>
             exec (with_holdings
                     (alter (subtract_quantity (Transaction.quantity transaction) now)
                            holdingId))
         | _, _ => ret tt
         end) ;;;
        (* Mark transaction as reversed (soft delete) *)
        exec (with_transactions (alter mark_reversed transactionId)) ;;;
        ret {| success := true; message := "Transaction reversed successfully" |}
    end).

End Txn.

(** ** Tax calculator and recommendation engine (class TaxService) *)

Module Tax.

Import Js Db.
Local Open Scope Q_scope.

(** Rates are percentages. *)
Record TaxConfig := {
  financialYear : string;
  shortTermEquityRate : Q;
  longTermEquityRate : Q;
  longTermEquityExemption : Q;
  cryptoShortTermRate : Q;
  cryptoLongTermRate : Q;
  surchargeThreshold : Q;
  surchargeRate : Q;
  cessRate : Q
}.

(** A holding as the portfolio service hands it over ([interface Holding]);
    the fields it declares optional are options. *)
Record Holding := {
  holdingId : string;
  userId : string;
  assetType : AssetType;
  assetSymbol : string;
  quantity : Q;
  averageBuyPrice : Q;
  currentPrice : option Q;
  purchaseDate : Z;
  profitLoss : option Q;
  profitLossPercentage : option Q;
  holdingPeriodDays : option Z;
  isShortTerm : option bool
}.

Record TaxCalculation := {
  holding : Holding;
  gainLoss : Q;
  calc_isShortTerm : bool;
  taxRate : Q;
  taxableAmount : Q;
  taxLiability : Q;
  calc_assetType : AssetType
}.

Record TaxSummary := {
  summary_userId : string;
  summary_financialYear : string;
  totalShortTermGains : Q;
  totalLongTermGains : Q;
  totalShortTermLosses : Q;
  totalLongTermLosses : Q;
  netShortTermGains : Q;
  netLongTermGains : Q;
  totalTaxLiability : Q;
  totalTaxWithSurchargeAndCess : Q;
  calculations : list TaxCalculation
}.

Record TaxRecommendation := {
  rec_userId : string;
  rec_holdingId : string;
  rec_assetSymbol : string;
  recommendationType : string;
  rec_currentPrice : Q;
  purchasePrice : Q;
  rec_quantity : Q;
  potentialLoss : Q;
  taxSavings : Q;
  priorityScore : Z;
  deadline : option CalendarDate;
  notes : string;
  status : Status
}.

(** [getTaxConfig]: the row of [tax_config] for the year, or the default. *)
Definition getTaxConfig (tax_config : gmap string TaxConfig) (fy : string) : TaxConfig :=
  match tax_config !! fy with
  | Some row => row
  | None =>
      {| financialYear := fy;
         shortTermEquityRate := 15.0;
         longTermEquityRate := 10.0;
         longTermEquityExemption := 100000.0;
         cryptoShortTermRate := 30.0;
         cryptoLongTermRate := 20.0;
         surchargeThreshold := 5000000.0;
         surchargeRate := 10.0;
         cessRate := 4.0 |}
  end.

(** [enrichHolding] of the portfolio service, at time [today]. *)
Definition enrichHolding (today : Z) (id : string) (row : Db.Holding.row) : Holding :=
  let quantity := Db.Holding.quantity row in
  let averageBuyPrice := Db.Holding.average_buy_price row in
  let currentPrice := default averageBuyPrice (Db.Holding.current_price row) in
  let invested := quantity * averageBuyPrice in
  let currentValue := quantity * currentPrice in
  let profitLoss := currentValue - invested in
  let profitLossPercentage :=
    if Qgtb invested 0 then (profitLoss / invested) * 100 else 0 in
  let purchaseDate := Db.Holding.purchase_date row in
  let holdingPeriodDays := floor_div (today - purchaseDate) MS_PER_DAY in
  (* Short-term: <365 days for stocks, <1095 days (3 years) for crypto *)
  let isShortTerm :=
    match Db.Holding.asset_type row with
    | stock => (holdingPeriodDays <? 365)%Z
    | crypto => (holdingPeriodDays <? 1095)%Z
    end in
  {| holdingId := id;
     userId := Db.Holding.user_id row;
     assetType := Db.Holding.asset_type row;
     assetSymbol := Db.Holding.asset_symbol row;
     quantity := quantity;
     averageBuyPrice := averageBuyPrice;
     currentPrice := Some currentPrice;
     purchaseDate := purchaseDate;
     profitLoss := Some profitLoss;
     profitLossPercentage := Some profitLossPercentage;
     holdingPeriodDays := Some holdingPeriodDays;
     isShortTerm := Some isShortTerm |}.

(** Calculate tax for a single holding. *)
Definition calculateHoldingTax (holding : Holding) (config : TaxConfig) : TaxCalculation :=
  let gainLoss := num_or (profitLoss holding) 0 in
  let isShortTerm := default false (isShortTerm holding) in
  let assetType := assetType holding in
  let '(taxRate, taxableAmount, taxLiability) :=
    (* Only tax gains, not losses *)
    if Qgtb gainLoss 0 then
      let '(taxRate, taxableAmount) :=
        match assetType with
        | stock =>
            if isShortTerm
            then (shortTermEquityRate config, gainLoss)
            else
              (* Apply exemption for long-term equity *)
              (longTermEquityRate config,
               Qmax 0 (gainLoss - longTermEquityExemption config))
        | crypto =>
            (if isShortTerm then cryptoShortTermRate config
             else cryptoLongTermRate config,
             gainLoss)
        end in
      (taxRate, taxableAmount, (taxableAmount * taxRate) / 100)
    else (0, gainLoss, 0) in
  {| holding := holding;
     gainLoss := gainLoss;
     calc_isShortTerm := isShortTerm;
     taxRate := taxRate;
     taxableAmount := taxableAmount;
     taxLiability := taxLiability;
     calc_assetType := assetType |}.

(** The running totals of the loop of [calculateTax]. *)
Record Totals := {
  acc_calculations : list TaxCalculation;
  acc_shortTermGains : Q;
  acc_longTermGains : Q;
  acc_shortTermLosses : Q;
  acc_longTermLosses : Q
}.

Definition calculateTax_step (config : TaxConfig) (acc : Totals) (holding : Holding)
    : Totals :=
  let calculation := calculateHoldingTax holding config in
  let calculations := acc_calculations acc ++ [calculation] in
  let g := gainLoss calculation in
  if calc_isShortTerm calculation then
    if Qgtb g 0 then
      {| acc_calculations := calculations;
         acc_shortTermGains := acc_shortTermGains acc + g;
         acc_longTermGains := acc_longTermGains acc;
         acc_shortTermLosses := acc_shortTermLosses acc;
         acc_longTermLosses := acc_longTermLosses acc |}
    else
      {| acc_calculations := calculations;
         acc_shortTermGains := acc_shortTermGains acc;
         acc_longTermGains := acc_longTermGains acc;
         acc_shortTermLosses := acc_shortTermLosses acc + Qabs g;
         acc_longTermLosses := acc_longTermLosses acc |}
  else
    if Qgtb g 0 then
      {| acc_calculations := calculations;
         acc_shortTermGains := acc_shortTermGains acc;
         acc_longTermGains := acc_longTermGains acc + g;
         acc_shortTermLosses := acc_shortTermLosses acc;
         acc_longTermLosses := acc_longTermLosses acc |}
    else
      {| acc_calculations := calculations;
         acc_shortTermGains := acc_shortTermGains acc;
         acc_longTermGains := acc_longTermGains acc;
         acc_shortTermLosses := acc_shortTermLosses acc;
         acc_longTermLosses := acc_longTermLosses acc + Qabs g |}.

(** [calculateTax] once the holdings of the user and the configuration of
    the year are read. *)
Definition calculateTax (userId financialYear : string)
    (holdings : list Holding) (taxConfig : TaxConfig) : TaxSummary :=
  let acc :=
    fold_left (calculateTax_step taxConfig) holdings
      {| acc_calculations := []; acc_shortTermGains := 0; acc_longTermGains := 0;
         acc_shortTermLosses := 0; acc_longTermLosses := 0 |} in
  let totalShortTermGains := acc_shortTermGains acc in
  let totalLongTermGains := acc_longTermGains acc in
  let totalShortTermLosses := acc_shortTermLosses acc in
  let totalLongTermLosses := acc_longTermLosses acc in
  (* Net gains after set-off *)
  let netShortTermGains := Qmax 0 (totalShortTermGains - totalShortTermLosses) in
  let netLongTermGains := Qmax 0 (totalLongTermGains - totalLongTermLosses) in
  (* Calculate tax liability *)
  let totalTaxLiability :=
    fold_left (fun sum calc => sum + taxLiability calc) (acc_calculations acc) 0 in
  (* Apply surcharge if income exceeds threshold *)
  let taxWithSurcharge :=
    if Qgtb (totalShortTermGains + totalLongTermGains) (surchargeThreshold taxConfig)
    then totalTaxLiability + totalTaxLiability * (surchargeRate taxConfig / 100)
    else totalTaxLiability in
  (* Apply cess *)
  let totalTaxWithSurchargeAndCess :=
    taxWithSurcharge + taxWithSurcharge * (cessRate taxConfig / 100) in
  {| summary_userId := userId;
     summary_financialYear := financialYear;
     totalShortTermGains := totalShortTermGains;
     totalLongTermGains := totalLongTermGains;
     totalShortTermLosses := totalShortTermLosses;
     totalLongTermLosses := totalLongTermLosses;
     netShortTermGains := netShortTermGains;
     netLongTermGains := netLongTermGains;
     totalTaxLiability := totalTaxLiability;
     totalTaxWithSurchargeAndCess := totalTaxWithSurchargeAndCess;
     calculations := acc_calculations acc |}.

(** [recommendations.sort((a, b) => b.priorityScore - a.priorityScore)]:
    highest score first, equal scores in their order of creation. *)
Fixpoint insert_by_priority (r : TaxRecommendation) (l : list TaxRecommendation)
    : list TaxRecommendation :=
  match l with
  | [] => [r]
  | x :: rest =>
      if (priorityScore x <=? priorityScore r)%Z
      then r :: x :: rest
      else x :: insert_by_priority r rest
  end.

Definition sort_by_priority (l : list TaxRecommendation) : list TaxRecommendation :=
  foldr insert_by_priority [] l.

Section Recommendations.

(** The text of [notes]: the loss and the saving, each with two decimals,
    in a fixed sentence. *)
Variable notes_text : Q -> Q -> string.

(** The body of the loop of [generateRecommendations]. *)
Definition recommend (userId financialYear : string) (taxSummary : TaxSummary)
    (calc : TaxCalculation) : TaxRecommendation :=
  let holding := holding calc in
  let potentialLoss := Qabs (gainLoss calc) in
  (* Calculate tax savings if this loss is harvested *)
  (* Loss can offset gains in the same category (ST or LT) *)
  let taxSavings :=
    if calc_isShortTerm calc && Qgtb (netShortTermGains taxSummary) 0 then
      let offsetAmount := Qmin potentialLoss (netShortTermGains taxSummary) in
      (offsetAmount * taxRate calc) / 100
    else if negb (calc_isShortTerm calc) && Qgtb (netLongTermGains taxSummary) 0 then
      let offsetAmount := Qmin potentialLoss (netLongTermGains taxSummary) in
      (offsetAmount * taxRate calc) / 100
    else 0 in
  (* Calculate priority score (higher loss and savings = higher priority) *)
  let lossPercentage := Qabs (num_or (profitLossPercentage holding) 0) in
  let priorityScore :=
    Z.min 10 (Qfloor (lossPercentage / 5) + (if Qgtb taxSavings 0 then 3 else 0))%Z in
  (* Set deadline to end of financial year (March 31) *)
  let deadline :=
    match parseInt (before_dash financialYear) with
    | Some startYear => Some ((startYear + 1)%Z, 3%Z, 31%Z)
    | None => None
    end in
  {| rec_userId := userId;
     rec_holdingId := holdingId holding;
     rec_assetSymbol := assetSymbol holding;
     recommendationType := "harvest_loss";
     rec_currentPrice := num_or (currentPrice holding) (averageBuyPrice holding);
     purchasePrice := averageBuyPrice holding;
     rec_quantity := quantity holding;
     potentialLoss := potentialLoss;
     taxSavings := taxSavings;
     priorityScore := priorityScore;
     deadline := deadline;
     notes := notes_text potentialLoss taxSavings;
     status := pending |}.

(** [saveRecommendation]: the row inserted for a recommendation. *)
Definition row_of (now : Z) (r : TaxRecommendation) : Recommendation.row :=
  {| Recommendation.user_id := rec_userId r;
     Recommendation.holding_id := Some (rec_holdingId r);
     Recommendation.asset_symbol := rec_assetSymbol r;
     Recommendation.recommendation_type := recommendationType r;
     Recommendation.current_price := Some (rec_currentPrice r);
     Recommendation.purchase_price := Some (purchasePrice r);
     Recommendation.quantity := Some (rec_quantity r);
     Recommendation.potential_loss := Some (potentialLoss r);
     Recommendation.tax_savings := Some (taxSavings r);
     Recommendation.priority_score := Some (priorityScore r);
     Recommendation.deadline := deadline r;
     Recommendation.status := status r;
     Recommendation.notes := Some (notes r);
     Recommendation.executed_at := None;
     Recommendation.updated_at := now |}.

(** The recommendations [generateRecommendations] builds and sorts, from
    the holdings of the user and the configuration of the year. *)
Definition build_recommendations (userId financialYear : string)
    (holdings : list Holding) (taxConfig : TaxConfig) : list TaxRecommendation :=
  let taxSummary := calculateTax userId financialYear holdings taxConfig in
  (* Find all loss-making holdings *)
  let lossHoldings :=
    List.filter (fun calc => Qltb (gainLoss calc) 0) (calculations taxSummary) in
  let recommendations :=
    List.map (recommend userId financialYear taxSummary) lossHoldings in
  (* Sort by priority score (highest first) *)
  sort_by_priority recommendations.

(** The loop that saves them: recommendation number [n] goes under the key
    [fresh n] the database generates for it, a key not yet in the table. *)
Fixpoint save_all (now : Z) (fresh : nat -> string) (n : nat)
    (recs : list TaxRecommendation)
    (table : gmap string Recommendation.row) : gmap string Recommendation.row :=
  match recs with
  | [] => table
  | r :: rest => save_all now fresh (S n) rest (<[fresh n := row_of now r]> table)
  end.

(** [generateRecommendations] at time [now]: what it returns and the
    database afterwards. *)
Definition generateRecommendations (userId financialYear : string)
    (holdings : list Holding) (taxConfig : TaxConfig)
    (now : Z) (fresh : nat -> string) (db : Database)
    : list TaxRecommendation * Database :=
  let recommendations :=
    build_recommendations userId financialYear holdings taxConfig in
  (recommendations,
   with_recommendations (save_all now fresh 0 recommendations) db).

End Recommendations.

Record ApiError := { statusCode : Z; api_message : string }.

(** [updateRecommendationStatus]: [UPDATE tax_recommendations SET status = $1
    WHERE recommendation_id = $2 AND user_id = $3]; no row updated is a 404. *)
Definition updateRecommendationStatus (recommendationId userId : string)
    (newStatus : Status) (db : Database) : option ApiError * Database :=
  match tax_recommendations db !! recommendationId with
  | Some r =>
      if String.eqb (Recommendation.user_id r) userId
      then (None,
            with_recommendations
              (alter (fun r => set_status newStatus (Recommendation.executed_at r)
                                 (Recommendation.updated_at r) r)
                     recommendationId) db)
      else (Some {| statusCode := 404; api_message := "Recommendation not found" |}, db)
  | None => (Some {| statusCode := 404; api_message := "Recommendation not found" |}, db)
  end.

End Tax.

(** ** Tax by asset category (class MultiAssetService) *)

Module MultiAsset.

Import Js.
Local Open Scope Q_scope.

Inductive AssetCategory :=
  equity | crypto | mutual_fund | gold_etf | bond | debt_mf.

Inductive GainType := SHORT_TERM | LONG_TERM.

Record CategoryTax := {
  taxRate : Q;
  tax : Q;
  gainType : GainType;
  exemption : Q
}.

(** [x >= y] on numbers. *)
Definition Qgeb (x y : Q) : bool := Qle_bool y x.

(** Calculate tax based on asset category.  The [default] branch of the
    [switch] is outside the type [AssetCategory]. *)
Definition calculateTaxByAssetCategory (gain : Q) (category : AssetCategory)
    (holdingPeriodDays : Q) : CategoryTax :=
  match category with
  | equity =>
      if Qgeb holdingPeriodDays 365 then
        (* Long-term equity *)
        let exemption := 100000 in
        let taxableGain := Qmax 0 (gain - exemption) in
        let taxRate := 0.125 in
        {| taxRate := taxRate; tax := taxableGain * taxRate;
           gainType := LONG_TERM; exemption := exemption |}
      else
        (* Short-term equity *)
        let taxRate := 0.20 in
        {| taxRate := taxRate; tax := gain * taxRate;
           gainType := SHORT_TERM; exemption := 0 |}
  | crypto =>
      (* Crypto: Flat 30%, no LTCG benefit *)
      {| taxRate := 0.30; tax := gain * 0.30;
         gainType := SHORT_TERM; exemption := 0 |}
  | mutual_fund =>
      (* Equity MF (>65% equity): Same as equity *)
      if Qgeb holdingPeriodDays 365 then
        let exemption := 100000 in
        let taxableGain := Qmax 0 (gain - exemption) in
        let taxRate := 0.125 in
        {| taxRate := taxRate; tax := taxableGain * taxRate;
           gainType := LONG_TERM; exemption := exemption |}
      else
        let taxRate := 0.20 in
        {| taxRate := taxRate; tax := gain * taxRate;
           gainType := SHORT_TERM; exemption := 0 |}
  | debt_mf =>
      (* Debt MF: LTCG after 3 years *)
      if Qgeb holdingPeriodDays 1095 then
        let taxRate := 0.125 in
        {| taxRate := taxRate; tax := gain * taxRate;
           gainType := LONG_TERM; exemption := 0 |}
      else
        let taxRate := 0.30 in
        {| taxRate := taxRate; tax := gain * taxRate;
           gainType := SHORT_TERM; exemption := 0 |}
  | gold_etf | bond =>
      (* Gold/Bonds: LTCG after 3 years *)
      if Qgeb holdingPeriodDays 1095 then
        let taxRate := 0.125 in
        {| taxRate := taxRate; tax := gain * taxRate;
           gainType := LONG_TERM; exemption := 0 |}
      else
        let taxRate := 0.30 in
        {| taxRate := taxRate; tax := gain * taxRate;
           gainType := SHORT_TERM; exemption := 0 |}
  end.

(** Holding period required for LTCG, in days; [None] is [Infinity]. *)
Definition getLTCGHoldingPeriod (category : AssetCategory) : option Q :=
  match category with
  | equity | mutual_fund => Some 365
  | crypto => None
  | debt_mf | gold_etf | bond => Some 1095
  end.

End MultiAsset.

(** ** SQL statements kept as text

    The statements of WashSaleService, as the server resolves them against
    table [transactions] of the schema. *)

Module Sql.

Import Js Db Txn.

(** The columns of table [transactions] (schema.sql). *)
Definition transactions_columns : list string :=
  [ "transaction_id"; "user_id"; "holding_id"; "asset_type"; "asset_symbol";
    "transaction_type"; "quantity"; "price"; "transaction_date"; "fees";
    "platform"; "notes"; "created_at" ].

Definition is_column (name : string) : bool :=
  existsb (String.eqb name) transactions_columns.

Inductive Value :=
| Null
| Text (s : string)
| Number (q : Q)
| Day (d : Z)          (* a DATE: days since the epoch *)
| Instant (ms : Z).    (* a TIMESTAMP: milliseconds since the epoch *)

(** The day a [Date] falls on: what a DATE column keeps of it, and what a
    [Date] parameter compared with a DATE column is read as. *)
Definition day_of (ms : Z) : Z := floor_div ms MS_PER_DAY.

Definition as_date (ms : Z) : Value := Day (day_of ms).

(** The [Date] the driver returns for a DATE column: midnight of the day. *)
Definition date_column (ms : Z) : Z := (day_of ms * MS_PER_DAY)%Z.

Definition nullable (x : option string) : Value :=
  match x with
  | Some s => Text s
  | None => Null
  end.

(** The value of a column in the row under key [fst r]; [created_at] is not
    kept in the rows. *)
Definition value_of (name : string) (r : string * Transaction.row) : Value :=
  let t := snd r in
  if String.eqb name "transaction_id" then Text (fst r)
  else if String.eqb name "user_id" then Text (Transaction.user_id t)
  else if String.eqb name "holding_id" then nullable (Transaction.holding_id t)
  else if String.eqb name "asset_type" then
    Text (match Transaction.asset_type t with stock => "stock" | crypto => "crypto" end)
  else if String.eqb name "asset_symbol" then Text (Transaction.asset_symbol t)
  else if String.eqb name "transaction_type" then
    Text (match Transaction.transaction_type t with buy => "buy" | sell => "sell" end)
  else if String.eqb name "quantity" then Number (Transaction.quantity t)
  else if String.eqb name "price" then Number (Transaction.price t)
  else if String.eqb name "transaction_date" then
    as_date (Transaction.transaction_date t)
  else if String.eqb name "fees" then Number (Transaction.fees t)
  else if String.eqb name "platform" then nullable (Transaction.platform t)
  else if String.eqb name "notes" then nullable (Transaction.notes t)
  else Null.

(** Comparison of two values; [None] when one is [NULL] or the two do not
    compare.  A date compares with a timestamp as its midnight. *)
Definition compare_values (a b : Value) : option comparison :=
  match a, b with
  | Text s, Text t => Some (String.compare s t)
  | Number x, Number y => Some (x ?= y)%Q
  | Day d, Day e => Some (d ?= e)%Z
  | Day d, Instant t => Some (d * MS_PER_DAY ?= t)%Z
  | Instant t, Day d => Some (t ?= d * MS_PER_DAY)%Z
  | Instant t, Instant u => Some (t ?= u)%Z
  | _, _ => None
  end.

Inductive Operator := equal | at_least | above | at_most | below.

Definition holds (op : Operator) (a b : Value) : bool :=
  match compare_values a b, op with
  | Some Eq, (equal | at_least | at_most) => true
  | Some Gt, (at_least | above) => true
  | Some Lt, (at_most | below) => true
  | _, _ => false
  end.

(** One conjunct of a [WHERE] clause: [column op value]. *)
Record Condition := {
  column : string;
  operator : Operator;
  value : Value
}.

Inductive Direction := ASC | DESC.

(** [SELECT selected FROM transactions WHERE ... ORDER BY ... LIMIT ...];
    an empty [selected] is [SELECT *]. *)
Record Select := {
  selected : list string;
  conditions : list Condition;
  order_by : option (string * Direction);
  limit : option nat
}.

(** The column names a statement mentions. *)
Definition names (q : Select) : list string :=
  selected q ++ List.map column (conditions q)
  ++ match order_by q with
     | Some (name, _) => [name]
     | None => []
     end.

Definition satisfies (q : Select) (r : string * Transaction.row) : bool :=
  forallb (fun c => holds (operator c) (value_of (column c) r) (value c))
    (conditions q).

(** [a] does not come after [b] in the direction asked for. *)
Definition before (direction : Direction) (a b : Value) : bool :=
  match direction with
  | ASC => negb (holds above a b)
  | DESC => negb (holds below a b)
  end.

Fixpoint insert_ordered (name : string) (direction : Direction)
    (r : string * Transaction.row) (l : list (string * Transaction.row))
    : list (string * Transaction.row) :=
  match l with
  | [] => [r]
  | x :: rest =>
      if before direction (value_of name r) (value_of name x)
      then r :: x :: rest
      else x :: insert_ordered name direction r rest
  end.

Definition ordered (order : option (string * Direction))
    (l : list (string * Transaction.row)) : list (string * Transaction.row) :=
  match order with
  | Some (name, direction) => foldr (insert_ordered name direction) [] l
  | None => l
  end.

Definition limited {A} (n : option nat) (l : list A) : list A :=
  match n with
  | Some n => take n l
  | None => l
  end.

(** [db.query] of a statement: a name that is no column of the table makes
    the server reject the statement, whatever the rows; otherwise the rows
    that satisfy the conditions come back, ordered and cut. *)
Definition query (q : Select) (table : gmap string Transaction.row)
    : Result (list (string * Transaction.row)) :=
  match List.find (fun name => negb (is_column name)) (names q) with
  | Some name => Err (String.append "column does not exist: " name)
  | None =>
      Ok (limited (limit q)
            (ordered (order_by q)
               (List.filter (satisfies q) (map_to_list table))))
  end.

End Sql.

(** ** Wash-sale guard (class WashSaleService) *)

Module WashSale.

Import Js Db Txn Sql.

(** The warning text names the asset, the day of the sale and the number of
    days to wait. *)
Record Warning := {
  warned_symbol : string;
  sold_on : Z;
  wait_days : Z
}.

Record WashSaleCheck := {
  isWashSale : bool;
  recentSellDate : option Z;
  canBuyBackAfter : option Z;
  daysRemaining : Z;
  sellPrice : option Q;
  warning : option Warning
}.

Definition WASH_SALE_DAYS : Z := 30.

(** The statement of [checkWashSale]. *)
Definition recent_sells (userId assetSymbol : string) (thirtyDaysBefore buyDate : Z)
    : Select :=
  {| selected := [];
     conditions :=
       [ {| column := "user_id"; operator := equal; value := Text userId |};
         {| column := "asset_symbol"; operator := equal; value := Text assetSymbol |};
         {| column := "type"; operator := equal; value := Text "sell" |};
         {| column := "transaction_date"; operator := at_least;
            value := as_date thirtyDaysBefore |};
         {| column := "transaction_date"; operator := at_most;
            value := as_date buyDate |} ];
     order_by := Some ("transaction_date", DESC);
     limit := None |}.

(** [checkWashSale] called at time [now] on table [transactions]; an error
    of the statement is caught and thrown again under the service's own
    message. *)
Definition checkWashSale (transactions : gmap string Transaction.row)
    (userId assetSymbol : string) (proposedBuyDate : option Z) (now : Z)
    : Result WashSaleCheck :=
  let buyDate := default now proposedBuyDate in
  let thirtyDaysBefore := add_days buyDate (- WASH_SALE_DAYS) in
  (* Check for recent sell transactions *)
  match query (recent_sells userId assetSymbol thirtyDaysBefore buyDate)
          transactions with
  | Err _ => Err "Failed to check wash sale"
  | Ok [] =>
      Ok {| isWashSale := false;
            recentSellDate := None;
            canBuyBackAfter := None;
            daysRemaining := 0;
            sellPrice := None;
            warning := None |}
  | Ok (mostRecentSell :: _) =>
      (* Found recent sell - calculate wash sale details *)
      let sellDate :=
        date_column (Transaction.transaction_date (snd mostRecentSell)) in
      let canBuyBackAfter := add_days sellDate WASH_SALE_DAYS in
      let daysRemaining := ceil_div (canBuyBackAfter - buyDate) MS_PER_DAY in
      let isWashSale := (0 <? daysRemaining)%Z in
      Ok {| isWashSale := isWashSale;
            recentSellDate := Some sellDate;
            canBuyBackAfter := Some canBuyBackAfter;
            daysRemaining := Z.max 0 daysRemaining;
            sellPrice := Some (Transaction.price (snd mostRecentSell));
            warning :=
              if isWashSale
              then Some {| warned_symbol := assetSymbol;
                           sold_on := sellDate;
                           wait_days := daysRemaining |}
              else None |}
  end.

(** The warning of the reverse check names the asset, the days since the
    purchase and the days to wait. *)
Record ReverseWarning := {
  bought_symbol : string;
  days_since_buy : Z;
  more_days : Z
}.

(** A [WashSaleCheck] as [checkReverseWashSale] fills it: [recentSellDate]
    holds the day of the purchase and [sellPrice] its price. *)
Record ReverseCheck := {
  rc_isWashSale : bool;
  rc_recentSellDate : option Z;
  rc_canBuyBackAfter : option Z;
  rc_daysRemaining : Z;
  rc_sellPrice : option Q;
  rc_warning : option ReverseWarning
}.

(** The statement of [checkReverseWashSale]. *)
Definition recent_buys (userId assetSymbol : string) (thirtyDaysBefore sellDate : Z)
    : Select :=
  {| selected := [];
     conditions :=
       [ {| column := "user_id"; operator := equal; value := Text userId |};
         {| column := "asset_symbol"; operator := equal; value := Text assetSymbol |};
         {| column := "type"; operator := equal; value := Text "buy" |};
         {| column := "transaction_date"; operator := at_least;
            value := as_date thirtyDaysBefore |};
         {| column := "transaction_date"; operator := below;
            value := as_date sellDate |} ];
     order_by := Some ("transaction_date", DESC);
     limit := None |}.

(** [checkReverseWashSale] called at time [now]. *)
Definition checkReverseWashSale (transactions : gmap string Transaction.row)
    (userId assetSymbol : string) (proposedSellDate : option Z) (now : Z)
    : Result ReverseCheck :=
  let sellDate := default now proposedSellDate in
  let thirtyDaysAfter := add_days sellDate WASH_SALE_DAYS in
  (* Check for recent buy transactions (within 30 days before sell) *)
  let thirtyDaysBefore := add_days sellDate (- WASH_SALE_DAYS) in
  match query (recent_buys userId assetSymbol thirtyDaysBefore sellDate)
          transactions with
  | Err _ => Err "Failed to check reverse wash sale"
  | Ok (mostRecentBuy :: _) =>
      let buyDate :=
        date_column (Transaction.transaction_date (snd mostRecentBuy)) in
      let daysSinceBuy := ceil_div (sellDate - buyDate) MS_PER_DAY in
      Ok {| rc_isWashSale := true;
            rc_recentSellDate := Some buyDate;
            rc_canBuyBackAfter := Some thirtyDaysAfter;
            rc_daysRemaining := (WASH_SALE_DAYS - daysSinceBuy)%Z;
            rc_sellPrice := Some (Transaction.price (snd mostRecentBuy));
            rc_warning :=
              Some {| bought_symbol := assetSymbol;
                      days_since_buy := daysSinceBuy;
                      more_days := (WASH_SALE_DAYS - daysSinceBuy)%Z |} |}
  | Ok [] =>
      Ok {| rc_isWashSale := false;
            rc_recentSellDate := None;
            rc_canBuyBackAfter := None;
            rc_daysRemaining := 0;
            rc_sellPrice := None;
            rc_warning := None |}
  end.

(** [SELECT DISTINCT asset_symbol]: each symbol once, in order of first
    appearance. *)
Fixpoint distinct (l : list string) : list string :=
  match l with
  | [] => []
  | s :: rest => s :: List.filter (fun s' => negb (String.eqb s' s)) (distinct rest)
  end.

(** The statement of [getAllWashSaleWarnings], issued at time [now]. *)
Definition sold_lately (userId : string) (now : Z) : Select :=
  {| selected := ["asset_symbol"];
     conditions :=
       [ {| column := "user_id"; operator := equal; value := Text userId |};
         {| column := "type"; operator := equal; value := Text "sell" |};
         {| column := "transaction_date"; operator := at_least;
            value := Instant (now - 30 * MS_PER_DAY) |} ];
     order_by := None;
     limit := None |}.

(** The loop of [getAllWashSaleWarnings]; a check that throws ends it. *)
Fixpoint check_each (transactions : gmap string Transaction.row)
    (userId : string) (now : Z) (symbols : list string)
    : Result (list (string * WashSaleCheck)) :=
  match symbols with
  | [] => Ok []
  | symbol :: rest =>
      match checkWashSale transactions userId symbol None now with
      | Err e => Err e
      | Ok check =>
          match check_each transactions userId now rest with
          | Err e => Err e
          | Ok warnings =>
              Ok (if isWashSale check then (symbol, check) :: warnings
                  else warnings)
          end
      end
  end.

(** [getAllWashSaleWarnings] called at time [now]; whatever is thrown
    inside is caught and an empty list returned. *)
Definition getAllWashSaleWarnings (transactions : gmap string Transaction.row)
    (userId : string) (now : Z) : list (string * WashSaleCheck) :=
  (* Get all unique symbols user has sold in last 30 days *)
  match query (sold_lately userId now) transactions with
  | Err _ => []
  | Ok recentSells =>
      let symbols :=
        distinct (List.map (fun r => Transaction.asset_symbol (snd r)) recentSells) in
      match check_each transactions userId now symbols with
      | Err _ => []
      | Ok warnings => warnings
      end
  end.

Record WashSalePair := {
  assetSymbol : string;
  sellDate : Z;
  wsp_sellPrice : Q;
  sellQuantity : Q;
  repurchaseDate : Z;
  repurchasePrice : Q;
  repurchaseQuantity : Q;
  daysBetween : Z;
  lossDisallowed : Q
}.

(** The first statement of [getWashSaleHistory]. *)
Definition sells_of_year (userId : string) (fyStart fyEnd : Z) : Select :=
  {| selected := [];
     conditions :=
       [ {| column := "user_id"; operator := equal; value := Text userId |};
         {| column := "type"; operator := equal; value := Text "sell" |};
         {| column := "transaction_date"; operator := at_least;
            value := as_date fyStart |};
         {| column := "transaction_date"; operator := at_most;
            value := as_date fyEnd |} ];
     order_by := Some ("transaction_date", ASC);
     limit := None |}.

(** Its second statement, for one sale. *)
Definition repurchase (userId assetSymbol : string) (soldOn thirtyDaysAfter : Z)
    : Select :=
  {| selected := [];
     conditions :=
       [ {| column := "user_id"; operator := equal; value := Text userId |};
         {| column := "asset_symbol"; operator := equal; value := Text assetSymbol |};
         {| column := "type"; operator := equal; value := Text "buy" |};
         {| column := "transaction_date"; operator := above;
            value := as_date soldOn |};
         {| column := "transaction_date"; operator := at_most;
            value := as_date thirtyDaysAfter |} ];
     order_by := Some ("transaction_date", ASC);
     limit := Some 1%nat |}.

(** The loop of [getWashSaleHistory]. *)
Fixpoint pair_each (transactions : gmap string Transaction.row)
    (userId : string) (sells : list (string * Transaction.row))
    : Result (list WashSalePair) :=
  match sells with
  | [] => Ok []
  | sale :: rest =>
      let soldOn := date_column (Transaction.transaction_date (snd sale)) in
      let thirtyDaysAfter := add_days soldOn WASH_SALE_DAYS in
      (* Check if repurchased within 30 days *)
      match query (repurchase userId (Transaction.asset_symbol (snd sale))
                     soldOn thirtyDaysAfter) transactions with
      | Err e => Err e
      | Ok found =>
          match pair_each transactions userId rest with
          | Err e => Err e
          | Ok washSales =>
              match found with
              | buyback :: _ =>
                  let boughtOn :=
                    date_column (Transaction.transaction_date (snd buyback)) in
                  let daysBetween := ceil_div (boughtOn - soldOn) MS_PER_DAY in
                  Ok ({| assetSymbol := Transaction.asset_symbol (snd sale);
                         sellDate := soldOn;
                         wsp_sellPrice := Transaction.price (snd sale);
                         sellQuantity := Transaction.quantity (snd sale);
                         repurchaseDate := boughtOn;
                         repurchasePrice := Transaction.price (snd buyback);
                         repurchaseQuantity := Transaction.quantity (snd buyback);
                         daysBetween := daysBetween;
                         lossDisallowed :=
                           ((Transaction.price (snd sale)
                             - Transaction.price (snd buyback))
                            * Qmin (Transaction.quantity (snd sale))
                                (Transaction.quantity (snd buyback)))%Q |}
                      :: washSales)
              | [] => Ok washSales
              end
          end
      end
  end.

(** [getWashSaleHistory] for a fiscal year that runs from [fyStart] to
    [fyEnd], the two dates it builds from the text of the year; whatever is
    thrown inside is caught and an empty list returned. *)
Definition getWashSaleHistory (transactions : gmap string Transaction.row)
    (userId : string) (fyStart fyEnd : Z) : list WashSalePair :=
  (* Find all sells *)
  match query (sells_of_year userId fyStart fyEnd) transactions with
  | Err _ => []
  | Ok sells =>
      match pair_each transactions userId sells with
      | Err _ => []
      | Ok washSales => washSales
      end
  end.

End WashSale.

(** ** The current fiscal year (class TaxService) *)

Module FiscalYear.

Import Js.

(** [getCurrentFinancialYear] on a day of calendar year [year] and month
    [month] (1 to 12): the year starts on 1 April. *)
Definition getCurrentFinancialYear (year month : Z) : string :=
  if (4 <=? month)%Z
  then String.append (String_of year)
         (String.append "-" (slice2 (String_of (year + 1)%Z)))
  else String.append (String_of (year - 1)%Z)
         (String.append "-" (slice2 (String_of year))).

End FiscalYear.

(** ** Portfolio (class PortfolioService) *)

Module Portfolio.

Import Js Db Tax.
Local Open Scope Q_scope.

(** [ORDER BY created_at DESC]: insertion into a list that is already in
    descending order.  The order among rows created at the same instant is
    not fixed by the query; here it is the one of the enumeration. *)
Fixpoint insert_by_created_desc (x : string * Holding.row)
    (l : list (string * Holding.row)) : list (string * Holding.row) :=
  match l with
  | [] => [x]
  | y :: rest =>
      if (Holding.created_at (snd y) <=? Holding.created_at (snd x))%Z
      then x :: y :: rest
      else y :: insert_by_created_desc x rest
  end.

(** [SELECT ... FROM holdings h WHERE h.user_id = $1
    ORDER BY h.created_at DESC]. *)
Definition select_user_holdings (userId : string) (db : Database)
    : list (string * Holding.row) :=
  foldr insert_by_created_desc []
    (List.filter (fun kr => String.eqb (Holding.user_id (snd kr)) userId)
       (map_to_list (holdings db))).

(** Get all holdings for a user with P&L calculations, at time [today]. *)
Definition getUserHoldings (today : Z) (userId : string) (db : Database)
    : list Holding :=
  List.map (fun kr => enrichHolding today (fst kr) (snd kr))
    (select_user_holdings userId db).

(** Get single holding by ID; [None] is [null]. *)
Definition getHoldingById (today : Z) (holdingId userId : string) (db : Database)
    : option Holding :=
  match holdings db !! holdingId with
  | Some row =>
      if String.eqb (Holding.user_id row) userId
      then Some (enrichHolding today holdingId row)
      else None
  | None => None
  end.

(** The fields of an update; [None] is [undefined]. *)
Record HoldingUpdate := {
  upd_quantity : option Q;
  upd_averageBuyPrice : option Q;
  upd_currentPrice : option Q
}.

(** Rounding to the nearest integer, halves away from zero. *)
Definition round_half_away (x : Q) : Z :=
  if Qle_bool 0 x then Qfloor (x + (1 # 2)) else (- Qfloor (- x + (1 # 2)))%Z.

(** A number written to a column [DECIMAL(precision, scale)] is rounded to
    [scale] decimals; [units] is the rounded value in units of the last
    decimal. *)
Definition units (scale : Z) (x : Q) : Z :=
  round_half_away (x * inject_Z (10 ^ scale)).

Definition decimal (scale : Z) (x : Q) : Q :=
  inject_Z (units scale x) / inject_Z (10 ^ scale).

(** It fits when the rounded value has no more than [precision] digits;
    otherwise the server raises 'numeric field overflow'. *)
Definition fits (precision scale : Z) (x : option Q) : bool :=
  match x with
  | Some x => (Z.abs (units scale x) <? 10 ^ precision)%Z
  | None => true
  end.

(** [UPDATE holdings SET ...] on one row: [quantity] is [DECIMAL(20, 8)],
    the two prices are [DECIMAL(20, 2)]; the trigger of the table sets
    [updated_at]. *)
Definition apply_update (data : HoldingUpdate) (now : Z) (h : Holding.row)
    : Holding.row :=
  {| Holding.user_id := Holding.user_id h;
     Holding.asset_type := Holding.asset_type h;
     Holding.asset_symbol := Holding.asset_symbol h;
     Holding.quantity :=
       match upd_quantity data with
       | Some q => decimal 8 q
       | None => Holding.quantity h
       end;
     Holding.average_buy_price :=
       match upd_averageBuyPrice data with
       | Some p => decimal 2 p
       | None => Holding.average_buy_price h
       end;
     Holding.current_price :=
       match upd_currentPrice data with
       | Some p => Some (decimal 2 p)
       | None => Holding.current_price h
       end;
     Holding.purchase_date := Holding.purchase_date h;
     Holding.platform := Holding.platform h;
     Holding.created_at := Holding.created_at h;
     Holding.updated_at := now |}.

Definition not_found : ApiError :=
  {| statusCode := 404; api_message := "Holding not found" |}.

(** What a call of [updateHolding] comes to: the holding it returns, an
    [ApiError] it throws, or an error of the database, which it lets
    through. *)
Inductive Updated :=
| updated (h : Holding)
| refused (e : ApiError)
| failed (message : string).

(** Update holding, at time [now].  The values given are bound to the
    statement before any row is looked up: one that does not fit its
    column fails the statement, whether or not the holding exists. *)
Definition updateHolding (now : Z) (holdingId userId : string)
    (data : HoldingUpdate) (db : Database) : Updated * Database :=
  match upd_quantity data, upd_averageBuyPrice data, upd_currentPrice data with
  | None, None, None =>
      (refused {| statusCode := 400;
                  api_message := "No valid update fields provided" |},
       db)
  | _, _, _ =>
      if fits 20 8 (upd_quantity data)
         && fits 20 2 (upd_averageBuyPrice data)
         && fits 20 2 (upd_currentPrice data)
      then
        match holdings db !! holdingId with
        | Some h =>
            if String.eqb (Holding.user_id h) userId
            then
              let row := apply_update data now h in
              (updated (enrichHolding now holdingId row),
               with_holdings (insert holdingId row) db)
            else (refused not_found, db)
        | None => (refused not_found, db)
        end
      else (failed "numeric field overflow", db)
  end.

(** Delete holding; [None] is the normal return. *)
Definition deleteHolding (holdingId userId : string) (db : Database)
    : option ApiError * Database :=
  match holdings db !! holdingId with
  | Some h =>
      if String.eqb (Holding.user_id h) userId
      then (None, delete_holding holdingId db)
      else (Some not_found, db)
  | None => (Some not_found, db)
  end.

Record PortfolioSummary := {
  totalValue : Q;
  totalInvested : Q;
  totalProfitLoss : Q;
  totalProfitLossPercentage : Q;
  totalHoldings : nat;
  stocksCount : nat;
  cryptoCount : nat;
  gainersCount : nat;
  losersCount : nat
}.

(** The counters of the loop of [getPortfolioSummary]. *)
Record Tally := {
  t_totalValue : Q;
  t_totalInvested : Q;
  t_stocksCount : nat;
  t_cryptoCount : nat;
  t_gainersCount : nat;
  t_losersCount : nat
}.

Definition tally_step (acc : Tally) (holding : Holding) : Tally :=
  let invested := quantity holding * averageBuyPrice holding in
  let current :=
    quantity holding * num_or (currentPrice holding) (averageBuyPrice holding) in
  {| t_totalInvested := t_totalInvested acc + invested;
     t_totalValue := t_totalValue acc + current;
     t_stocksCount :=
       match assetType holding with
       | stock => S (t_stocksCount acc)
       | crypto => t_stocksCount acc
       end;
     t_cryptoCount :=
       match assetType holding with
       | crypto => S (t_cryptoCount acc)
       | stock => t_cryptoCount acc
       end;
     t_gainersCount :=
       if Qgtb (num_or (profitLoss holding) 0) 0
       then S (t_gainersCount acc) else t_gainersCount acc;
     t_losersCount :=
       if Qltb (num_or (profitLoss holding) 0) 0
       then S (t_losersCount acc) else t_losersCount acc |}.

(** The summary of a list of holdings. *)
Definition summarise (holdings : list Holding) : PortfolioSummary :=
  let acc :=
    fold_left tally_step holdings
      {| t_totalValue := 0; t_totalInvested := 0; t_stocksCount := 0;
         t_cryptoCount := 0; t_gainersCount := 0; t_losersCount := 0 |} in
  let totalProfitLoss := t_totalValue acc - t_totalInvested acc in
  let totalProfitLossPercentage :=
    if Qgtb (t_totalInvested acc) 0
    then (totalProfitLoss / t_totalInvested acc) * 100 else 0 in
  {| totalValue := t_totalValue acc;
     totalInvested := t_totalInvested acc;
     totalProfitLoss := totalProfitLoss;
     totalProfitLossPercentage := totalProfitLossPercentage;
     totalHoldings := length holdings;
     stocksCount := t_stocksCount acc;
     cryptoCount := t_cryptoCount acc;
     gainersCount := t_gainersCount acc;
     losersCount := t_losersCount acc |}.

(** Get portfolio summary, at time [today]. *)
Definition getPortfolioSummary (today : Z) (userId : string) (db : Database)
    : PortfolioSummary :=
  summarise (getUserHoldings today userId db).

End Portfolio.

(** * Terms of the properties and sample data *)

(** ** Carry-forward ledger *)

Module CarryForwardTerms.

Import Js CarryForward.
Local Open Scope Q_scope.

(** The expiry rule the ledger documents ([expiresIn: 8], "8 years from
    date of loss"; the expiry warning of [getCarryForwardInsights] counts
    [8 - yearsOld]): an entry is expired in [currentFY] once that many
    years separate it from its source year. *)
Definition expired (e : CarryForwardEntry) (currentFY : string) : bool :=
  match calculateYearsDifference (cf_sourceYear e) currentFY with
  | Some yearsOld => Qle_bool (cf_expiresIn e) (inject_Z yearsOld)
  | None => false
  end.

(** A ledger with 40,000 of short-term and 10,000 of long-term loss carried
    into 2025-26. *)
Definition ledger_2025 : list TaxReportRow :=
  [ {| user_id := "u1"; financial_year := "2025-26"; report_type := "carry_forward";
       total_short_term_gains := Some 0; total_long_term_gains := Some 0;
       total_short_term_losses := Some 40000; total_long_term_losses := Some 10000;
       report_data := Some {| sourceYear := Some "2024-25";
                              stCarryForward := Some 40000;
                              ltCarryForward := Some 10000;
                              canOffsetSTGains := Some true;
                              canOffsetLTGains := Some true;
                              expiresIn := Some 8 |};
       generated_at := 0 |} ].

(** A tax report for 2015-16 that closes with 40,000 of short-term and
    20,000 of long-term net loss. *)
Definition reports_2015 : list TaxReportRow :=
  [ {| user_id := "u1"; financial_year := "2015-16"; report_type := "capital_gains";
       total_short_term_gains := Some 10000; total_long_term_gains := Some 0;
       total_short_term_losses := Some 50000; total_long_term_losses := Some 20000;
       report_data := None; generated_at := 0 |} ].

End CarryForwardTerms.

(** ** Regime comparison *)

Module TaxComparisonTerms.

Import Js TaxComparison.
Local Open Scope Q_scope.

(** The input of the repository's first regime test: income 1,000,000 and
    deductions of 150,000 + 25,000, no capital gains. *)
Definition high_deductions : TaxRegimeInput :=
  {| totalIncome := 1000000;
     deductions := {| section80C := 150000; section80D := 25000;
                      homeLoanInterest := 0; nps := 0; other := 0 |};
     capitalGains := {| shortTermEquity := 0; longTermEquity := 0;
                        shortTermCrypto := 0; longTermCrypto := 0 |} |}.

(** A slab table is well formed when no rate is negative and no slab ends
    before it starts. *)
Definition slab_ok (slab : Slab) : Prop :=
  0 <= rate slab /\ match max slab with Some m => min slab <= m | None => True end.

End TaxComparisonTerms.

(** ** Tax calculator and recommendation engine *)

Module TaxTerms.

Import Js Db Tax.
Local Open Scope Q_scope.

(** A long-term stock holding with a gain. *)
Definition long_term_stock_gain (h : Holding) (g : Q) : Prop :=
  assetType h = stock
  /\ default false (isShortTerm h) = false
  /\ profitLoss h = Some g
  /\ 0 < g.

(** The sum of the taxable amounts of a summary. *)
Definition total_taxable (s : TaxSummary) : Q :=
  fold_left (fun sum calc => sum + taxableAmount calc) (calculations s) 0.

(** Two long-term lots of stock, each with a gain of 150,000. *)
Definition lot (id : string) : Holding :=
  {| holdingId := id; userId := "u1"; assetType := stock; assetSymbol := "RELIANCE";
     quantity := 100; averageBuyPrice := 1000; currentPrice := Some 2500;
     purchaseDate := 0; profitLoss := Some 150000;
     profitLossPercentage := Some 150; holdingPeriodDays := Some 400%Z;
     isShortTerm := Some false |}.

(** The net gain of the bucket a calculation falls in. *)
Definition bucket (s : TaxSummary) (calc : TaxCalculation) : Q :=
  if calc_isShortTerm calc then netShortTermGains s else netLongTermGains s.

(** The holding's own rate, in the words of the specification: the rate of
    the category the holding falls in, by asset and term. *)
Definition own_rate (cfg : TaxConfig) (calc : TaxCalculation) : Q :=
  match calc_assetType calc, calc_isShortTerm calc with
  | stock, true => shortTermEquityRate cfg
  | stock, false => longTermEquityRate cfg
  | crypto, true => cryptoShortTermRate cfg
  | crypto, false => cryptoLongTermRate cfg
  end.

(** The estimate, in the words of the specification: the smaller of the
    loss and the net gain of the matching bucket, at the holding's own
    rate. *)
Definition taxSavings_at_own_rate (cfg : TaxConfig) (s : TaxSummary)
    (calc : TaxCalculation) : Q :=
  Qmin (Qabs (gainLoss calc)) (bucket s calc) * own_rate cfg calc / 100.

(** A short-term stock position with the given profit or loss. *)
Definition short_term_stock (id : string) (pl pct : Q) : Holding :=
  {| holdingId := id; userId := "u1"; assetType := stock; assetSymbol := id;
     quantity := 10; averageBuyPrice := 2500; currentPrice := Some 2300;
     purchaseDate := 0; profitLoss := Some pl;
     profitLossPercentage := Some pct; holdingPeriodDays := Some 200%Z;
     isShortTerm := Some true |}.

(** One gain of 5,000 and two losses, of 2,000 and of 1,000: the short-term
    bucket nets 2,000. *)
Definition mixed_portfolio : list Holding :=
  [ short_term_stock "TCS" 5000 10;
    short_term_stock "RELIANCE" (-2000) (-8);
    short_term_stock "INFY" (-1000) (-20) ].

End TaxTerms.

(** ** Recommendation lifecycle and execution *)

Module ExecutorTerms.

Import Js Db Txn.
Local Open Scope Q_scope.

(** The database after a successful execution, statement by statement. *)
Definition executed (recommendationId holdingId newId : string) (now : Z)
    (h : Holding.row) (q : Q) (sale : Transaction.row) (db : Database) : Database :=
  let db1 := with_transactions (insert newId sale) db in
  let newQuantity := Holding.quantity h - q in
  let db2 :=
    if Qle_bool newQuantity 0
    then delete_holding holdingId db1
    else with_holdings (alter (set_quantity newQuantity now) holdingId) db1 in
  with_recommendations
    (alter (set_status accepted (Some now) now) recommendationId) db2.

(** No recommendation under the id is pending. *)
Definition not_pending (recommendationId : string) (db : Database) : Prop :=
  forall r, tax_recommendations db !! recommendationId = Some r ->
            Recommendation.status r <> pending.

(** A user holding 10 RELIANCE bought at 2,500, a purchase of 10 linked to
    the holding, and a pending recommendation to sell the 10 at 2,300. *)
Definition reliance : Holding.row :=
  {| Holding.user_id := "u1"; Holding.asset_type := stock;
     Holding.asset_symbol := "RELIANCE"; Holding.quantity := 10;
     Holding.average_buy_price := 2500; Holding.current_price := Some 2300;
     Holding.purchase_date := 0; Holding.platform := Some "manual";
     Holding.created_at := 0; Holding.updated_at := 0 |}.

Definition purchase (q : Q) : Transaction.row :=
  {| Transaction.user_id := "u1"; Transaction.holding_id := Some "h1";
     Transaction.asset_type := stock; Transaction.asset_symbol := "RELIANCE";
     Transaction.transaction_type := buy; Transaction.quantity := q;
     Transaction.price := 2500; Transaction.transaction_date := 0;
     Transaction.fees := 0; Transaction.platform := Some "manual";
     Transaction.notes := None |}.

Definition harvest (q loss : Q) : Recommendation.row :=
  {| Recommendation.user_id := "u1"; Recommendation.holding_id := Some "h1";
     Recommendation.asset_symbol := "RELIANCE";
     Recommendation.recommendation_type := "harvest_loss";
     Recommendation.current_price := Some 2300;
     Recommendation.purchase_price := Some 2500;
     Recommendation.quantity := Some q;
     Recommendation.potential_loss := Some loss;
     Recommendation.tax_savings := Some 0;
     Recommendation.priority_score := Some 1%Z;
     Recommendation.deadline := Some (2026, 3, 31)%Z;
     Recommendation.status := pending;
     Recommendation.notes := None;
     Recommendation.executed_at := None;
     Recommendation.updated_at := 0 |}.

Definition portfolio : Database :=
  {| holdings := {[ "h1" := reliance ]};
     transactions := {[ "t0" := purchase 10 ]};
     tax_recommendations := {[ "r1" := harvest 10 2000 ]} |}.

(** The same user with a pending recommendation to sell 4 of the 10. *)
Definition partial_harvest : Database :=
  {| holdings := {[ "h1" := reliance ]};
     transactions := {[ "t0" := purchase 10 ]};
     tax_recommendations := {[ "r1" := harvest 4 800 ]} |}.

(** No holding is stored with a negative quantity. *)
Definition quantities_nonneg (db : Database) : Prop :=
  map_Forall (fun _ h => 0 <= Holding.quantity h) (holdings db).

End ExecutorTerms.

(** * Terms and sample data of the further properties *)

Module WashSaleTerms.

Import Js Db Sql WashSale.
Local Open Scope Z_scope.

(** Midnight of 1 January 2025 (UTC). *)
Definition day0 : Z := 1735689600000.

(** A sale of TCS on that day, the only transaction of the user in TCS. *)
Definition tcs_sale : Transaction.row :=
  {| Transaction.user_id := "user123"; Transaction.holding_id := None;
     Transaction.asset_type := stock; Transaction.asset_symbol := "TCS";
     Transaction.transaction_type := sell; Transaction.quantity := 10;
     Transaction.price := 3500; Transaction.transaction_date := day0;
     Transaction.fees := 0; Transaction.platform := Some "manual";
     Transaction.notes := None |}.

Definition tcs_history : gmap string Transaction.row := {[ "tx1" := tcs_sale ]}.

(** The statement names a column the table does not have. *)
Definition names_unknown_column (q : Select) : Prop :=
  exists name, In name (names q) /\ is_column name = false.

End WashSaleTerms.

Module RegimeTerms.

Import Js TaxComparison.
Local Open Scope Q_scope.

(** The sum of the deductions claimed. *)
Definition claimed (d : Deductions) : Q :=
  section80C d + section80D d + homeLoanInterest d + nps d + other d.

(** Capital gains that are not negative. *)
Definition gains_nonneg (g : CapitalGains) : Prop :=
  0 <= shortTermEquity g /\ 0 <= longTermEquity g
  /\ 0 <= shortTermCrypto g /\ 0 <= longTermCrypto g.

End RegimeTerms.

Module FiscalYearTerms.

Import Js CarryForward FiscalYear.
Local Open Scope Z_scope.

(** The fiscal year that starts in April of [start], written out. *)
Definition fiscal_year (start : Z) : string := getCurrentFinancialYear start 4.

(** What is checked of the text of one fiscal year. *)
Definition fiscal_year_ok (start : Z) : bool :=
  bool_decide (parseInt (before_dash (fiscal_year start)) = Some start)
  && bool_decide (Number (before_dash (fiscal_year start)) = Some start)
  && String.eqb (getNextFinancialYear (fiscal_year start)) (fiscal_year (start + 1))
  && String.eqb (getCurrentFinancialYear (start + 1) 3) (fiscal_year start)
  && String.leb (fiscal_year start) (fiscal_year (start + 1))
  && negb (String.eqb (fiscal_year start) (fiscal_year (start + 1))).

End FiscalYearTerms.

Module LedgerTerms.

Import Js CarryForward.
Local Open Scope Q_scope.



End LedgerTerms.

Module SummaryTerms.

Import Js Db Tax.
Local Open Scope Q_scope.

(** [f] summed over a list. *)
Definition sumQ {A} (f : A -> Q) (l : list A) : Q :=
  fold_right (fun x s => f x + s) 0 l.

(** The gain of a holding when it is a gain of the given term, else 0. *)
Definition gain_in (short : bool) (cfg : TaxConfig) (h : Holding) : Q :=
  let calc := calculateHoldingTax h cfg in
  if Bool.eqb (calc_isShortTerm calc) short && Qgtb (gainLoss calc) 0
  then gainLoss calc else 0.

(** The size of the loss of a holding when it is no gain and of the given
    term, else 0. *)
Definition loss_in (short : bool) (cfg : TaxConfig) (h : Holding) : Q :=
  let calc := calculateHoldingTax h cfg in
  if Bool.eqb (calc_isShortTerm calc) short && negb (Qgtb (gainLoss calc) 0)
  then Qabs (gainLoss calc) else 0.

Definition liability (cfg : TaxConfig) (h : Holding) : Q :=
  taxLiability (calculateHoldingTax h cfg).

(** The holding shows a gain. *)
Definition has_gain (h : Holding) : bool := Qgtb (num_or (profitLoss h) 0) 0.

(** No rate of the configuration is negative. *)
Definition rates_nonneg (cfg : TaxConfig) : Prop :=
  0 <= shortTermEquityRate cfg /\ 0 <= longTermEquityRate cfg
  /\ 0 <= cryptoShortTermRate cfg /\ 0 <= cryptoLongTermRate cfg
  /\ 0 <= surchargeRate cfg /\ 0 <= cessRate cfg.

(** The holding shows a loss. *)
Definition at_loss (h : Holding) : bool := Qltb (num_or (profitLoss h) 0) 0.

(** Highest priority first. *)
Fixpoint by_priority (l : list TaxRecommendation) : Prop :=
  match l with
  | [] => True
  | r :: rest =>
      Forall (fun r' => (priorityScore r' <= priorityScore r)%Z) rest
      /\ by_priority rest
  end.

End SummaryTerms.

Module HoldingTerms.

Import Js Db.
Local Open Scope Q_scope.

(** Half a bitcoin bought at 2,000,000 and now at 3,000,000. *)
Definition bitcoin : Holding.row :=
  {| Holding.user_id := "u1"; Holding.asset_type := crypto;
     Holding.asset_symbol := "BTC"; Holding.quantity := 0.5;
     Holding.average_buy_price := 2000000; Holding.current_price := Some 3000000;
     Holding.purchase_date := 0; Holding.platform := Some "manual";
     Holding.created_at := 0; Holding.updated_at := 0 |}.

End HoldingTerms.

Module WorkflowTerms.

Import Js Db Txn.
Local Open Scope Q_scope.

(** The row of the sale an execution inserts. *)
Definition sale_of (userId holdingId : string) (h : Holding.row)
    (r : Recommendation.row) (q p : Q) (now : Z) : Transaction.row :=
  {| Transaction.user_id := userId;
     Transaction.holding_id := Some holdingId;
     Transaction.asset_type := Holding.asset_type h;
     Transaction.asset_symbol := Holding.asset_symbol h;
     Transaction.transaction_type := sell;
     Transaction.quantity := q;
     Transaction.price := p;
     Transaction.transaction_date := now;
     Transaction.fees := 0;
     Transaction.platform := Some "tlh_execution";
     Transaction.notes :=
       Some (String.append "Tax loss harvesting: "
               (str_or (Recommendation.notes r) "Executed via TaxSaver")) |}.

(** What a call of [executeRecommendation] needs to go through: a pending
    recommendation of the user with a quantity and a price, on a holding of
    the user, and a key for the sale that is not taken. *)
Definition executable (userId recommendationId newId : string) (db : Database)
    (r : Recommendation.row) (holdingId : string) (h : Holding.row) (q p : Q)
    : Prop :=
  tax_recommendations db !! recommendationId = Some r
  /\ Recommendation.user_id r = userId
  /\ Recommendation.status r = pending
  /\ Recommendation.holding_id r = Some holdingId
  /\ holdings db !! holdingId = Some h
  /\ Holding.user_id h = userId
  /\ Recommendation.quantity r = Some q
  /\ Recommendation.current_price r = Some p
  /\ transactions db !! newId = None.

(** Every reference to a holding, from a transaction or a recommendation,
    is to a holding of the table (the foreign keys of the schema). *)
Definition references_valid (db : Database) : Prop :=
  (forall k t id, transactions db !! k = Some t ->
                  Transaction.holding_id t = Some id ->
                  is_Some (holdings db !! id))
  /\ (forall k r id, tax_recommendations db !! k = Some r ->
                     Recommendation.holding_id r = Some id ->
                     is_Some (holdings db !! id)).

End WorkflowTerms.

Module PortfolioTerms.

Import Js Db Tax Portfolio.
Local Open Scope Q_scope.

(** The price the summary values a row at: the stored price, or the
    purchase price when none is stored or the stored one is 0. *)
Definition summary_price (row : Holding.row) : Q :=
  num_or (Holding.current_price row) (Holding.average_buy_price row).

Definition invested (row : Holding.row) : Q :=
  Holding.quantity row * Holding.average_buy_price row.

(** A position bought for something and now priced at 0. *)
Definition worthless (row : Holding.row) : Prop :=
  0 < Holding.quantity row
  /\ 0 < Holding.average_buy_price row
  /\ exists p, Holding.current_price row = Some p /\ p == 0.

(** A user with one position, priced at 0. *)
Definition delisted : Holding.row :=
  {| Holding.user_id := "u1"; Holding.asset_type := stock;
     Holding.asset_symbol := "DHFL"; Holding.quantity := 100;
     Holding.average_buy_price := 50; Holding.current_price := Some 0;
     Holding.purchase_date := 0; Holding.platform := Some "manual";
     Holding.created_at := 0; Holding.updated_at := 0 |}.

Definition written_off : Database :=
  {| holdings := {[ "h9" := delisted ]};
     transactions := ∅;
     tax_recommendations := ∅ |}.

End PortfolioTerms.

(** * Properties *)

(** ** Comparisons on numbers *)

Module JsFacts.

Import Js.
Local Open Scope Q_scope.

Lemma Qltb_lt (x y : Q) : Qltb x y = true <-> x < y.
Proof.
  unfold Qltb. rewrite negb_true_iff.
  destruct (Qle_bool y x) eqn:E.
  - apply Qle_bool_iff in E. split; [discriminate | lra].
  - split; [intros _ | reflexivity].
    destruct (Qlt_le_dec x y) as [H | H]; [exact H |].
    apply Qle_bool_iff in H. congruence.
Qed.

Lemma Qltb_ge (x y : Q) : Qltb x y = false <-> y <= x.
Proof.
  unfold Qltb. rewrite negb_false_iff. apply Qle_bool_iff.
Qed.

Lemma Qgtb_gt (x y : Q) : Qgtb x y = true <-> y < x.
Proof. apply Qltb_lt. Qed.

Lemma Qgtb_le (x y : Q) : Qgtb x y = false <-> x <= y.
Proof. apply Qltb_ge. Qed.

Lemma Qle_bool_gt (x y : Q) : Qle_bool x y = false -> y < x.
Proof.
  intros E. destruct (Qlt_le_dec y x) as [H | H]; [exact H |].
  apply Qle_bool_iff in H. congruence.
Qed.

(** [Math.min] and [Math.max] return one of their arguments. *)
Lemma Qmin_cases (x y : Q) : (x <= y /\ Qmin x y = x) \/ (y < x /\ Qmin x y = y).
Proof.
  unfold Qmin, GenericMinMax.gmin.
  destruct (x ?= y) eqn:E.
  - left. split; [apply Qeq_alt in E; lra | reflexivity].
  - left. split; [apply Qlt_alt in E; lra | reflexivity].
  - right. split; [apply Qgt_alt in E; lra | reflexivity].
Qed.

Lemma Qmax_cases (x y : Q) : (x < y /\ Qmax x y = y) \/ (y <= x /\ Qmax x y = x).
Proof.
  unfold Qmax, GenericMinMax.gmax.
  destruct (x ?= y) eqn:E.
  - right. split; [apply Qeq_alt in E; lra | reflexivity].
  - left. split; [apply Qlt_alt in E; lra | reflexivity].
  - right. split; [apply Qgt_alt in E; lra | reflexivity].
Qed.

(** Case analysis on every comparison, [Math.min] and [Math.max] of the
    goal, leaving the order facts in context. *)
Ltac split_order :=
  repeat match goal with
    | |- context [Qgtb ?x ?y] =>
        let E := fresh "E" in
        destruct (Qgtb x y) eqn:E;
        [ apply Qgtb_gt in E | apply Qgtb_le in E ];
        cbv beta iota zeta delta [andb orb]
    | |- context [Qltb ?x ?y] =>
        let E := fresh "E" in
        destruct (Qltb x y) eqn:E;
        [ apply Qltb_lt in E | apply Qltb_ge in E ];
        cbv beta iota zeta delta [andb orb]
    | |- context [Qle_bool ?x ?y] =>
        let E := fresh "E" in
        destruct (Qle_bool x y) eqn:E;
        [ apply Qle_bool_iff in E | apply Qle_bool_gt in E ];
        cbv beta iota zeta delta [andb orb]
    | |- context [Qmin ?x ?y] =>
        let H := fresh "H" in
        let Hm := fresh "Hm" in
        destruct (Qmin_cases x y) as [[H Hm] | [H Hm]]; rewrite ?Hm in *; clear Hm
    | |- context [Qmax ?x ?y] =>
        let H := fresh "H" in
        let Hm := fresh "Hm" in
        destruct (Qmax_cases x y) as [[H Hm] | [H Hm]]; rewrite ?Hm in *; clear Hm
    | _ : context [Qmin ?x ?y] |- _ =>
        let H := fresh "H" in
        let Hm := fresh "Hm" in
        destruct (Qmin_cases x y) as [[H Hm] | [H Hm]]; rewrite ?Hm in *; clear Hm
    | _ : context [Qmax ?x ?y] |- _ =>
        let H := fresh "H" in
        let Hm := fresh "Hm" in
        destruct (Qmax_cases x y) as [[H Hm] | [H Hm]]; rewrite ?Hm in *; clear Hm
    end.

End JsFacts.

(** ** Carry-forward ledger *)

Module CarryForwardProps.

Import Js JsFacts CarryForward CarryForwardTerms.
Local Open Scope Q_scope.

Ltac run_apply_totals :=
  cbv beta iota zeta delta
    [apply_totals adjustedSTGain adjustedLTGain stLossUsed ltLossUsed taxSaved];
  split_order;
  cbv beta iota zeta delta
    [apply_totals adjustedSTGain adjustedLTGain stLossUsed ltLossUsed taxSaved].

Section ApplyTotals.

Variables st lt cST cLT : Q.
Hypothesis cST_nonneg : 0 <= cST.
Hypothesis cLT_nonneg : 0 <= cLT.

(** The offsets of the ordering: short-term carry-forward against the
    short-term gain, what is left of it against the long-term gain, then
    long-term carry-forward against what is left of the long-term gain.
    A total that is not positive is not applied. *)
Let stCF := Qmax 0 st.
Let ltCF := Qmax 0 lt.
Let stOnST := Qmin cST stCF.
Let stOnLT := Qmin cLT (stCF - stOnST).
Let ltOnLT := Qmin (cLT - stOnLT) ltCF.

Lemma apply_totals_adjustedST :
  adjustedSTGain (apply_totals st lt cST cLT) == cST - stOnST.
Proof using cST_nonneg.
  subst stOnST stCF. run_apply_totals; lra.
Qed.

Lemma apply_totals_adjustedLT :
  adjustedLTGain (apply_totals st lt cST cLT) == cLT - stOnLT - ltOnLT.
Proof using cST_nonneg cLT_nonneg.
  subst ltOnLT stOnLT stOnST stCF ltCF. run_apply_totals; lra.
Qed.

Lemma apply_totals_stLossUsed :
  stLossUsed (apply_totals st lt cST cLT) == stOnST + stOnLT.
Proof using cST_nonneg cLT_nonneg.
  subst stOnLT stOnST stCF. run_apply_totals; lra.
Qed.

Lemma apply_totals_ltLossUsed :
  ltLossUsed (apply_totals st lt cST cLT) == ltOnLT.
Proof using cST_nonneg cLT_nonneg.
  subst ltOnLT stOnLT stOnST stCF ltCF. run_apply_totals; lra.
Qed.

Lemma apply_totals_nonneg :
  0 <= adjustedSTGain (apply_totals st lt cST cLT)
  /\ 0 <= adjustedLTGain (apply_totals st lt cST cLT).
Proof using cST_nonneg cLT_nonneg.
  split; run_apply_totals; lra.
Qed.

Lemma apply_totals_taxSaved :
  taxSaved (apply_totals st lt cST cLT)
  == stLossUsed (apply_totals st lt cST cLT) * 0.15
     + ltLossUsed (apply_totals st lt cST cLT) * 0.10.
Proof using Type.
  run_apply_totals; reflexivity.
Qed.

(** The long-term total has no part in the adjusted short-term gain. *)
Lemma apply_totals_st_ignores_lt (lt' : Q) :
  adjustedSTGain (apply_totals st lt' cST cLT)
  = adjustedSTGain (apply_totals st lt cST cLT).
Proof using Type.
  run_apply_totals; reflexivity.
Qed.

End ApplyTotals.

(** C6.  For non-negative current gains, [applyCarryForward] offsets in
    this order: the short-term carry-forward first reduces the short-term
    gain, what is left of it then reduces the long-term gain, and the
    long-term carry-forward reduces only what is left of the long-term gain.
    The adjusted gains are the residues of that ordering and are never
    negative, the long-term carry-forward never changes the adjusted
    short-term gain, and [taxSaved] is 15% of the short-term loss used plus
    10% of the long-term loss used. *)
Theorem applyCarryForward_offsets_in_order
    (tax_reports : list TaxReportRow) (userId financialYear : string)
    (currentSTGain currentLTGain : Q) :
  0 <= currentSTGain ->
  0 <= currentLTGain ->
  let available := getAvailableCarryForward tax_reports userId financialYear in
  let r := applyCarryForward tax_reports userId financialYear
             currentSTGain currentLTGain in
  let stCF := Qmax 0 (totalSTCarryForward available) in
  let ltCF := Qmax 0 (totalLTCarryForward available) in
  let stOnST := Qmin currentSTGain stCF in
  let stOnLT := Qmin currentLTGain (stCF - stOnST) in
  let ltOnLT := Qmin (currentLTGain - stOnLT) ltCF in
  adjustedSTGain r == currentSTGain - stOnST
  /\ adjustedLTGain r == currentLTGain - stOnLT - ltOnLT
  /\ stLossUsed r == stOnST + stOnLT
  /\ ltLossUsed r == ltOnLT
  /\ 0 <= adjustedSTGain r
  /\ 0 <= adjustedLTGain r
  /\ taxSaved r == stLossUsed r * 0.15 + ltLossUsed r * 0.10
  /\ (forall totalLT' : Q,
        adjustedSTGain
          (apply_totals (totalSTCarryForward available) totalLT'
             currentSTGain currentLTGain)
        = adjustedSTGain r).
Proof.
  intros HS HL available r. subst r. unfold applyCarryForward.
  fold available.
  pose proof (apply_totals_nonneg (totalSTCarryForward available)
                (totalLTCarryForward available) _ _ HS HL) as [H0S H0L].
  cbv zeta. repeat apply conj.
  - apply apply_totals_adjustedST; assumption.
  - apply apply_totals_adjustedLT; assumption.
  - apply apply_totals_stLossUsed; assumption.
  - apply apply_totals_ltLossUsed; assumption.
  - exact H0S.
  - exact H0L.
  - apply apply_totals_taxSaved.
  - intros lt'. apply apply_totals_st_ignores_lt.
Qed.

Lemma applyCarryForward_offsets_in_order_witness :
  let r := applyCarryForward ledger_2025 "u1" "2025-26" 30000 50000 in
  adjustedSTGain r == 0 /\ adjustedLTGain r == 30000
  /\ stLossUsed r == 40000 /\ ltLossUsed r == 10000 /\ taxSaved r == 7000.
Proof.
  pose proof (applyCarryForward_offsets_in_order ledger_2025 "u1" "2025-26"
                30000 50000 ltac:(lra) ltac:(lra)) as H.
  cbv zeta in H. destruct H as (H1 & H2 & H3 & H4 & _ & _ & H7 & _).
  cbv zeta. repeat apply conj.
  - rewrite H1. vm_compute. reflexivity.
  - rewrite H2. vm_compute. reflexivity.
  - rewrite H3. vm_compute. reflexivity.
  - rewrite H4. vm_compute. reflexivity.
  - rewrite H7, H3, H4. vm_compute. reflexivity.
Defined.

(** C4, on the code.  The losses of 2015-16 are recorded by
    [calculateCarryForward] with [expiresIn = 8]; ten years later, in 2025-26,
    [getAvailableCarryForward] still counts them in both totals: it reads
    [expiresIn] into the details and never compares it with the age of the
    entry. *)
Theorem getAvailableCarryForward_counts_expired :
  let ledger := snd (calculateCarryForward reports_2015 "u1" "2015-16" 1) in
  let available := getAvailableCarryForward ledger "u1" "2025-26" in
  calculateYearsDifference "2015-16" "2025-26" = Some 10%Z
  /\ List.map cf_sourceYear (details available) = ["2015-16"]
  /\ List.map (fun e => expired e "2025-26") (details available) = [true]
  /\ totalSTCarryForward available == 40000
  /\ totalLTCarryForward available == 20000.
Proof.
  cbv zeta. repeat apply conj; vm_compute; reflexivity.
Qed.

End CarryForwardProps.

(** ** Regime comparison *)

Module TaxComparisonProps.

Import Js JsFacts TaxComparison TaxComparisonTerms.
Local Open Scope Q_scope.

(** C7, on the code.  For income 1,000,000 with deductions of 175,000 and no
    capital gains the old regime costs 80,600 and the new regime 62,400, so
    [compareRegimes] recommends [NEW]; the old-regime tax is not below the
    new-regime tax. *)
Theorem compareRegimes_high_deductions :
  let c := compareRegimes high_deductions in
  deductionsUsed (oldRegime c) == 175000
  /\ totalTax (oldRegime c) == 80600
  /\ totalTax (newRegime c) == 62400
  /\ ~ totalTax (oldRegime c) < totalTax (newRegime c)
  /\ recommendation c = NEW.
Proof.
  cbv zeta. repeat apply conj; try (vm_compute; reflexivity).
  vm_compute. discriminate.
Qed.

Lemma OLD_REGIME_SLABS_ok : Forall slab_ok OLD_REGIME_SLABS.
Proof.
  unfold OLD_REGIME_SLABS. repeat constructor; vm_compute; discriminate.
Qed.

Lemma NEW_REGIME_SLABS_ok : Forall slab_ok NEW_REGIME_SLABS.
Proof.
  unfold NEW_REGIME_SLABS. repeat constructor; vm_compute; discriminate.
Qed.

(** One slab never asks less of a higher income. *)
Lemma slab_step_mono (slab : Slab) (a b ta tb : Q) :
  slab_ok slab -> a <= b -> ta <= tb ->
  slab_step a ta slab <= slab_step b tb slab.
Proof.
  intros [Hrate Hmax] Hab Ht. unfold slab_step, min_with_max.
  destruct (max slab) as [m |]; split_order; nra.
Qed.

Lemma fold_slab_step_mono (slabs : list Slab) :
  Forall slab_ok slabs ->
  forall a b ta tb : Q, a <= b -> ta <= tb ->
  fold_left (slab_step a) slabs ta <= fold_left (slab_step b) slabs tb.
Proof.
  induction 1 as [| slab slabs Hslab _ IH]; intros a b ta tb Hab Ht; cbn [fold_left].
  - exact Ht.
  - apply IH; [exact Hab |]. apply slab_step_mono; assumption.
Qed.

Lemma calculateSlabTax_mono (slabs : list Slab) (a b : Q) :
  Forall slab_ok slabs -> a <= b ->
  calculateSlabTax a slabs <= calculateSlabTax b slabs.
Proof.
  intros Hok Hab. unfold calculateSlabTax.
  apply fold_slab_step_mono; [exact Hok | exact Hab | lra].
Qed.

Lemma slab_step_nonneg (slab : Slab) (x t : Q) :
  slab_ok slab -> 0 <= t -> 0 <= slab_step x t slab.
Proof.
  intros [Hrate Hmax] Ht. unfold slab_step, min_with_max.
  destruct (max slab) as [m |]; split_order; nra.
Qed.

Lemma fold_slab_step_nonneg (slabs : list Slab) (x : Q) :
  Forall slab_ok slabs ->
  forall t : Q, 0 <= t -> 0 <= fold_left (slab_step x) slabs t.
Proof.
  induction 1 as [| slab slabs Hslab _ IH]; intros t Ht; cbn [fold_left].
  - exact Ht.
  - apply IH. apply slab_step_nonneg; assumption.
Qed.

Lemma calculateSlabTax_nonneg (slabs : list Slab) (x : Q) :
  Forall slab_ok slabs -> 0 <= calculateSlabTax x slabs.
Proof.
  intros Hok. unfold calculateSlabTax.
  apply fold_slab_step_nonneg; [exact Hok | lra].
Qed.

(** The surcharge grows with the tax and with the income that selects its
    rate. *)
Lemma calculateSurcharge_mono (t1 t2 i1 i2 : Q) :
  0 <= t1 -> t1 <= t2 -> i1 <= i2 ->
  calculateSurcharge t1 i1 <= calculateSurcharge t2 i2.
Proof.
  intros H0 Ht Hi. unfold calculateSurcharge. split_order; lra.
Qed.

(** Income tax, surcharge and cess together, with a fixed capital-gains
    tax [c] added after the cess. *)
Lemma total_mono (t1 t2 i1 i2 c : Q) :
  0 <= t1 -> t1 <= t2 -> i1 <= i2 ->
  t1 + calculateSurcharge t1 i1 + (t1 + calculateSurcharge t1 i1) * 0.04 + c
  <= t2 + calculateSurcharge t2 i2 + (t2 + calculateSurcharge t2 i2) * 0.04 + c.
Proof.
  intros H0 Ht Hi.
  pose proof (calculateSurcharge_mono t1 t2 i1 i2 H0 Ht Hi). lra.
Qed.

(** C10.  On each of the two slab tables the slab-wise income tax never
    decreases when the income grows, and so neither figure reported by
    [quickEstimate] is higher for a lower income (same deductions). *)
Theorem calculateSlabTax_monotone (a b : Q) :
  0 <= a -> a <= b ->
  calculateSlabTax a OLD_REGIME_SLABS <= calculateSlabTax b OLD_REGIME_SLABS
  /\ calculateSlabTax a NEW_REGIME_SLABS <= calculateSlabTax b NEW_REGIME_SLABS
  /\ (forall deductions : Q,
        qe_oldRegime (quickEstimate a deductions)
        <= qe_oldRegime (quickEstimate b deductions)
        /\ qe_newRegime (quickEstimate a deductions)
           <= qe_newRegime (quickEstimate b deductions)).
Proof.
  intros Ha Hab. repeat apply conj.
  - apply calculateSlabTax_mono; [apply OLD_REGIME_SLABS_ok | exact Hab].
  - apply calculateSlabTax_mono; [apply NEW_REGIME_SLABS_ok | exact Hab].
  - intros d.
    cbv beta iota zeta delta
      [quickEstimate compareRegimes calculateOldRegime calculateNewRegime
       qe_oldRegime qe_newRegime oldRegime newRegime totalTax totalIncome
       deductions capitalGains section80C section80D homeLoanInterest nps other].
    split.
    + apply total_mono.
      * apply calculateSlabTax_nonneg, OLD_REGIME_SLABS_ok.
      * apply calculateSlabTax_mono; [apply OLD_REGIME_SLABS_ok |].
        split_order; lra.
      * lra.
    + apply total_mono.
      * apply calculateSlabTax_nonneg, NEW_REGIME_SLABS_ok.
      * apply calculateSlabTax_mono; [apply NEW_REGIME_SLABS_ok | exact Hab].
      * lra.
Qed.

Lemma calculateSlabTax_monotone_witness :
  calculateSlabTax 825000 OLD_REGIME_SLABS <= calculateSlabTax 1000000 OLD_REGIME_SLABS
  /\ calculateSlabTax 825000 NEW_REGIME_SLABS <= calculateSlabTax 1000000 NEW_REGIME_SLABS
  /\ qe_oldRegime (quickEstimate 825000 150000)
     <= qe_oldRegime (quickEstimate 1000000 150000)
  /\ qe_newRegime (quickEstimate 825000 150000)
     <= qe_newRegime (quickEstimate 1000000 150000).
Proof.
  pose proof (calculateSlabTax_monotone 825000 1000000 ltac:(lra) ltac:(lra))
    as (Hold & Hnew & Hquick).
  destruct (Hquick 150000) as (Hqo & Hqn).
  repeat apply conj; assumption.
Defined.

End TaxComparisonProps.

(** ** Tax calculator and recommendation engine *)

Module TaxProps.

Import Js JsFacts Db Tax TaxTerms.
Local Open Scope Q_scope.

(** The loop of [calculateTax] pushes one calculation per holding, in
    order. *)
Lemma step_calculations (cfg : TaxConfig) (acc : Totals) (h : Holding) :
  acc_calculations (calculateTax_step cfg acc h)
  = acc_calculations acc ++ [calculateHoldingTax h cfg].
Proof.
  unfold calculateTax_step.
  destruct (calc_isShortTerm _), (Qgtb _ 0); reflexivity.
Qed.

Lemma fold_step_calculations (cfg : TaxConfig) (hs : list Holding) (acc : Totals) :
  acc_calculations (fold_left (calculateTax_step cfg) hs acc)
  = acc_calculations acc ++ List.map (fun h => calculateHoldingTax h cfg) hs.
Proof.
  revert acc. induction hs as [| h hs IH]; intros acc; cbn [fold_left List.map].
  - rewrite app_nil_r. reflexivity.
  - rewrite IH, step_calculations, <- app_assoc. reflexivity.
Qed.

Lemma calculations_map (u fy : string) (hs : list Holding) (cfg : TaxConfig) :
  calculations (calculateTax u fy hs cfg)
  = List.map (fun h => calculateHoldingTax h cfg) hs.
Proof.
  unfold calculateTax. cbn [calculations].
  rewrite fold_step_calculations. reflexivity.
Qed.

Lemma holding_calculateHoldingTax (h : Holding) (cfg : TaxConfig) :
  holding (calculateHoldingTax h cfg) = h.
Proof.
  unfold calculateHoldingTax.
  destruct (Qgtb _ 0); [destruct (assetType h), (default false (isShortTerm h)) |];
    reflexivity.
Qed.

(** A holding without a gain is recorded with rate 0 and liability 0. *)
Lemma no_gain_no_rate (h : Holding) (cfg : TaxConfig) :
  gainLoss (calculateHoldingTax h cfg) <= 0 ->
  taxRate (calculateHoldingTax h cfg) = 0
  /\ taxLiability (calculateHoldingTax h cfg) = 0.
Proof.
  unfold calculateHoldingTax.
  destruct (Qgtb (num_or (profitLoss h) 0) 0) eqn:E.
  - apply Qgtb_gt in E.
    destruct (assetType h), (default false (isShortTerm h));
      cbn [gainLoss]; intros H; lra.
  - intros _. split; reflexivity.
Qed.

Lemma calculateHoldingTax_long_term_stock (h : Holding) (cfg : TaxConfig) (g : Q) :
  long_term_stock_gain h g ->
  gainLoss (calculateHoldingTax h cfg) = g
  /\ taxRate (calculateHoldingTax h cfg) = longTermEquityRate cfg
  /\ taxableAmount (calculateHoldingTax h cfg)
     = Qmax 0 (g - longTermEquityExemption cfg)
  /\ taxLiability (calculateHoldingTax h cfg)
     = (Qmax 0 (g - longTermEquityExemption cfg) * longTermEquityRate cfg) / 100.
Proof.
  intros (Hstock & Hlong & Hgain & Hpos).
  unfold calculateHoldingTax. rewrite Hstock, Hlong, Hgain.
  unfold num_or.
  assert (Hne : Qeq_bool g 0 = false).
  { destruct (Qeq_bool g 0) eqn:E; [| reflexivity].
    apply Qeq_bool_iff in E. lra. }
  rewrite Hne.
  assert (Hgt : Qgtb g 0 = true) by (apply Qgtb_gt; exact Hpos).
  rewrite Hgt. cbn. repeat apply conj; reflexivity.
Qed.

(** C5.  For a stock holding classified long-term with a gain [g > 0] the
    calculator's taxable amount is [max(0, g - exemption)], the exemption
    being taken from that holding's own gain; with two such holdings of gain
    [g] the taxable amounts add up to [2 * max(0, g - exemption)] -- which is
    less than one exemption taken from the aggregate [2 * g] would leave,
    as soon as that aggregate exceeds a positive exemption. *)
Theorem exemption_applies_per_holding
    (u fy : string) (cfg : TaxConfig) (h1 h2 : Holding) (g : Q) :
  long_term_stock_gain h1 g ->
  long_term_stock_gain h2 g ->
  let exemption := longTermEquityExemption cfg in
  let summary := calculateTax u fy [h1; h2] cfg in
  taxableAmount (calculateHoldingTax h1 cfg) == Qmax 0 (g - exemption)
  /\ total_taxable summary == 2 * Qmax 0 (g - exemption)
  /\ totalTaxLiability summary
     == 2 * (Qmax 0 (g - exemption) * longTermEquityRate cfg / 100)
  /\ (0 < exemption -> exemption < 2 * g ->
      total_taxable summary < Qmax 0 (2 * g - exemption)).
Proof.
  intros H1 H2 exemption summary.
  destruct (calculateHoldingTax_long_term_stock h1 cfg g H1) as (_ & _ & Ht1 & Hl1).
  destruct (calculateHoldingTax_long_term_stock h2 cfg g H2) as (_ & _ & Ht2 & Hl2).
  assert (Htotal : total_taxable summary == 2 * Qmax 0 (g - exemption)).
  { unfold total_taxable. subst summary. rewrite calculations_map.
    cbn [List.map fold_left]. rewrite Ht1, Ht2. fold exemption. ring. }
  repeat apply conj.
  - rewrite Ht1. reflexivity.
  - exact Htotal.
  - subst summary. unfold calculateTax. cbn [totalTaxLiability].
    rewrite fold_step_calculations. cbn [acc_calculations app List.map fold_left].
    rewrite Hl1, Hl2. fold exemption. field.
  - intros Hex Hagg. rewrite Htotal.
    destruct H1 as (_ & _ & _ & Hpos). split_order; lra.
Qed.

Lemma exemption_applies_per_holding_witness :
  let summary :=
    calculateTax "u1" "2025-26" [lot "h1"; lot "h2"] (getTaxConfig ∅ "2025-26") in
  long_term_stock_gain (lot "h1") 150000
  /\ total_taxable summary == 100000
  /\ total_taxable summary < 200000.
Proof.
  intros summary.
  assert (H : forall id, long_term_stock_gain (lot id) 150000).
  { intros id. repeat apply conj; reflexivity. }
  destruct (exemption_applies_per_holding "u1" "2025-26"
              (getTaxConfig ∅ "2025-26") (lot "h1") (lot "h2") 150000
              (H "h1") (H "h2")) as (_ & Htotal & _ & Hless).
  fold summary in Htotal, Hless.
  split; [apply H | split].
  - eapply Qeq_trans; [exact Htotal | vm_compute; reflexivity].
  - eapply Qlt_le_trans.
    + apply Hless; vm_compute; reflexivity.
    + vm_compute. discriminate.
Defined.

(** *** Recommendations *)

Lemma insert_by_priority_perm (r : TaxRecommendation) (l : list TaxRecommendation) :
  Permutation (insert_by_priority r l) (r :: l).
Proof.
  induction l as [| x l IH]; cbn [insert_by_priority]; [reflexivity |].
  destruct (priorityScore x <=? priorityScore r)%Z; [reflexivity |].
  rewrite IH. apply perm_swap.
Qed.

Lemma sort_by_priority_perm (l : list TaxRecommendation) :
  Permutation (sort_by_priority l) l.
Proof.
  induction l as [| r l IH]; cbn [sort_by_priority foldr]; [reflexivity |].
  rewrite insert_by_priority_perm. constructor. exact IH.
Qed.

Lemma bucket_nonneg (u fy : string) (hs : list Holding) (cfg : TaxConfig)
    (calc : TaxCalculation) :
  0 <= bucket (calculateTax u fy hs cfg) calc.
Proof.
  unfold bucket, calculateTax. cbn [netShortTermGains netLongTermGains].
  destruct (calc_isShortTerm calc); split_order; lra.
Qed.

Lemma scale_eq (a b r : Q) : a == b -> a * r / 100 == b * r / 100.
Proof. intros H. rewrite H. reflexivity. Qed.

Lemma scale_zero (b r : Q) : b == 0 -> 0 == b * r / 100.
Proof. intros H. rewrite H. unfold Qdiv. ring. Qed.

Section Savings.

Variable notes_text : Q -> Q -> string.
Variables u fy : string.

(** The estimate of the loop body, for any summary whose net gains are not
    negative. *)
Lemma recommend_taxSavings (s : TaxSummary) (calc : TaxCalculation) :
  0 <= bucket s calc ->
  gainLoss calc < 0 ->
  potentialLoss (recommend notes_text u fy s calc) == - gainLoss calc
  /\ taxSavings (recommend notes_text u fy s calc)
     == Qmin (potentialLoss (recommend notes_text u fy s calc)) (bucket s calc)
        * taxRate calc / 100
  /\ (bucket s calc == 0 -> taxSavings (recommend notes_text u fy s calc) == 0).
Proof using Type.
  intros Hb Hloss. unfold recommend, bucket in *.
  cbn [potentialLoss taxSavings].
  assert (Habs : Qabs (gainLoss calc) == - gainLoss calc)
    by (apply Qabs_neg; lra).
  revert Habs. generalize (Qabs (gainLoss calc)). intros loss Habs.
  destruct (calc_isShortTerm calc); cbn [andb negb].
  - repeat apply conj; [exact Habs | |].
    + split_order; try lra;
        first [apply scale_eq; lra | apply scale_zero; lra].
    + intros Hz. split_order; lra.
  - repeat apply conj; [exact Habs | |].
    + split_order; try lra;
        first [apply scale_eq; lra | apply scale_zero; lra].
    + intros Hz. split_order; lra.
Qed.

(** Every loss-making calculation of the summary gets its recommendation. *)
Lemma build_recommendations_In (hs : list Holding) (cfg : TaxConfig)
    (calc : TaxCalculation) :
  In calc (calculations (calculateTax u fy hs cfg)) ->
  gainLoss calc < 0 ->
  In (recommend notes_text u fy (calculateTax u fy hs cfg) calc)
     (build_recommendations notes_text u fy hs cfg).
Proof using Type.
  intros Hin Hloss. unfold build_recommendations.
  apply (Permutation_in _ (Permutation_sym (sort_by_priority_perm _))).
  apply in_map. apply filter_In. split; [exact Hin |].
  apply Qltb_lt. exact Hloss.
Qed.

(** What the rate recorded for a loss-making holding is: 0, since
    [calculateHoldingTax] selects a rate only under [gainLoss > 0].  Every
    estimate of the run is therefore 0. *)
Lemma taxSavings_of_loss_is_zero
    (hs : list Holding) (cfg : TaxConfig) (calc : TaxCalculation) :
  In calc (calculations (calculateTax u fy hs cfg)) ->
  gainLoss calc < 0 ->
  taxRate calc = 0
  /\ taxSavings (recommend notes_text u fy (calculateTax u fy hs cfg) calc) == 0.
Proof using Type.
  intros Hin Hloss.
  destruct (recommend_taxSavings (calculateTax u fy hs cfg) calc
              (bucket_nonneg u fy hs cfg calc) Hloss) as (_ & Hs & _).
  assert (Hrate : taxRate calc = 0).
  { rewrite calculations_map in Hin. apply in_map_iff in Hin.
    destruct Hin as (h & <- & _). apply no_gain_no_rate. lra. }
  split; [exact Hrate |].
  rewrite Hs, Hrate. unfold Qdiv. ring.
Qed.

End Savings.

(** C9, on the code.  The portfolio of the worked example: 10 RELIANCE
    bought at 2,500 and now at 2,300, a loss of 2,000, next to a loss of
    1,000 and a gain of 5,000, all short-term stock, so that the short-term
    bucket nets 2,000.  At the holding's own rate, 15% for short-term
    equity, the estimate for RELIANCE is min(2,000, 2,000) x 15% = 300.
    The code multiplies by the rate recorded in the holding's calculation,
    which [calculateHoldingTax] leaves at 0 for a holding without a gain:
    the estimate is 0, as it is for every recommendation of the run. *)
Theorem taxSavings_not_at_own_rate :
  forall notes_text : Q -> Q -> string,
  let cfg := getTaxConfig ∅ "2025-26" in
  let loss := short_term_stock "RELIANCE" (-2000) (-8) in
  let calc := calculateHoldingTax loss cfg in
  let summary := calculateTax "u1" "2025-26" mixed_portfolio cfg in
  let recommendations :=
    build_recommendations notes_text "u1" "2025-26" mixed_portfolio cfg in
  let r := recommend notes_text "u1" "2025-26" summary calc in
  In r recommendations
  /\ potentialLoss r == 2000
  /\ bucket summary calc == 2000
  /\ own_rate cfg calc == 15
  /\ taxSavings_at_own_rate cfg summary calc == 300
  /\ taxRate calc == 0
  /\ taxSavings r == 0
  /\ Forall (fun r' => taxSavings r' == 0) recommendations.
Proof.
  intros notes_text. cbv zeta.
  assert (Hin : In (calculateHoldingTax (short_term_stock "RELIANCE" (-2000) (-8))
                      (getTaxConfig ∅ "2025-26"))
                   (calculations
                      (calculateTax "u1" "2025-26" mixed_portfolio
                         (getTaxConfig ∅ "2025-26")))).
  { rewrite calculations_map. cbn [List.map mixed_portfolio In].
    right. left. reflexivity. }
  split; [| split; [| split; [| split; [| split; [| split; [| split]]]]]].
  - apply build_recommendations_In; [exact Hin | vm_compute; reflexivity].
  - vm_compute. reflexivity.
  - vm_compute. reflexivity.
  - vm_compute. reflexivity.
  - vm_compute. reflexivity.
  - vm_compute. reflexivity.
  - vm_compute. reflexivity.
  - apply Forall_forall. intros r' Hr'. apply list_elem_of_In in Hr'.
    unfold build_recommendations in Hr'.
    apply (Permutation_in _ (sort_by_priority_perm _)) in Hr'.
    apply in_map_iff in Hr'. destruct Hr' as (calc' & <- & Hcalc').
    apply filter_In in Hcalc'. destruct Hcalc' as [Hcalc' Hloss'].
    apply Qltb_lt in Hloss'.
    apply (taxSavings_of_loss_is_zero notes_text "u1" "2025-26" mixed_portfolio
             (getTaxConfig ∅ "2025-26") calc' Hcalc' Hloss').
Qed.

(** The holding of the worked example: 10 RELIANCE bought at 2,500 two
    hundred days ago, now at 2,300.  It is short-term with a loss of 2,000,
    it is not taxed, and the loss is what a recommendation would realise. *)
Example reliance_200_days :
  let row :=
    {| Db.Holding.user_id := "u1"; Db.Holding.asset_type := stock;
       Db.Holding.asset_symbol := "RELIANCE"; Db.Holding.quantity := 10;
       Db.Holding.average_buy_price := 2500;
       Db.Holding.current_price := Some 2300;
       Db.Holding.purchase_date := 0; Db.Holding.platform := None;
       Db.Holding.created_at := 0; Db.Holding.updated_at := 0 |} in
  let h := enrichHolding (200 * MS_PER_DAY) "h1" row in
  let cfg := getTaxConfig ∅ "2025-26" in
  let calc := calculateHoldingTax h cfg in
  let r := recommend (fun _ _ => EmptyString) "u1" "2025-26"
             (calculateTax "u1" "2025-26" [h] cfg) calc in
  isShortTerm h = Some true
  /\ gainLoss calc == -2000
  /\ taxLiability calc == 0
  /\ potentialLoss r == 2000
  /\ priorityScore r = 1%Z
  /\ deadline r = Some (2026, 3, 31)%Z.
Proof.
  cbv zeta. repeat apply conj; vm_compute; reflexivity.
Qed.

End TaxProps.

(** ** Recommendation lifecycle and execution *)

Module ExecutorProps.

Import Js JsFacts Db Txn ExecutorTerms.
Local Open Scope Q_scope.

(** Unfolds the statements of a unit of work. *)
Ltac unfold_tx :=
  unfold atomically, bind, query, exec, ret, throw in *.

Lemma executeRecommendation_Ok (userId recommendationId : string) (now : Z)
    (newId : string) (db db' : Database) (x : Execution) :
  executeRecommendation userId recommendationId now newId db = (Ok x, db') ->
  exists r holdingId h q sale,
    select_pending recommendationId userId db = Some r
    /\ select_holding (Recommendation.holding_id r) userId db = Some (holdingId, h)
    /\ Recommendation.quantity r = Some q
    /\ transactions db !! newId = None
    /\ db' = executed recommendationId holdingId newId now h q sale db.
Proof.
  unfold executeRecommendation. unfold_tx.
  destruct (select_pending recommendationId userId db) as [r |] eqn:Hr;
    [| discriminate].
  destruct (select_holding (Recommendation.holding_id r) userId db)
    as [[holdingId h] |] eqn:Hh; [| discriminate].
  unfold insert_sell. unfold_tx.
  destruct (Recommendation.quantity r) as [q |] eqn:Hq; [| discriminate].
  destruct (Recommendation.current_price r) as [p |] eqn:Hp; [| discriminate].
  destruct (transactions db !! newId) eqn:Hnew; [discriminate |].
  cbn [default from_option id].
  intros H. exists r, holdingId, h, q.
  eexists. repeat apply conj; try assumption; try reflexivity.
  unfold executed.
  destruct (Qle_bool (Holding.quantity h - q) 0); injection H as _ <-; reflexivity.
Qed.

Lemma select_pending_None (recommendationId userId : string) (db : Database) :
  not_pending recommendationId db ->
  select_pending recommendationId userId db = None.
Proof.
  intros Hnp. unfold select_pending.
  destruct (tax_recommendations db !! recommendationId) as [r |] eqn:Hr;
    [| reflexivity].
  specialize (Hnp r Hr).
  destruct (Recommendation.status r); try congruence;
    rewrite andb_false_r; reflexivity.
Qed.

(** Without a pending row the first statement finds nothing, and the call
    throws before it has changed anything. *)
Lemma execute_without_pending (userId recommendationId : string) (now : Z)
    (newId : string) (db : Database) :
  select_pending recommendationId userId db = None ->
  executeRecommendation userId recommendationId now newId db
  = (Err "Recommendation not found or already executed", db).
Proof.
  intros Hnone. unfold executeRecommendation. unfold_tx.
  rewrite Hnone. reflexivity.
Qed.

(** Whatever fails inside the unit of work, the database is as before. *)
Lemma atomically_rolls_back {A} (m : Tx A) (db db' : Database) (e : string) :
  atomically m db = (Err e, db') -> db' = db.
Proof.
  unfold atomically. destruct (m db) as [[a | e'] db1]; intros H.
  - discriminate.
  - injection H as _ <-. reflexivity.
Qed.

(** A failed execution leaves no trace. *)
Lemma executeRecommendation_failure_rolls_back (userId recommendationId : string)
    (now : Z) (newId : string) (db db' : Database) (e : string) :
  executeRecommendation userId recommendationId now newId db = (Err e, db') ->
  db' = db.
Proof.
  unfold executeRecommendation. apply atomically_rolls_back.
Qed.

Lemma reverseTransaction_failure_rolls_back (userId transactionId : string)
    (now : Z) (db db' : Database) (e : string) :
  reverseTransaction userId transactionId now db = (Err e, db') ->
  db' = db.
Proof.
  unfold reverseTransaction. apply atomically_rolls_back.
Qed.

Lemma unlink_recommendation_status (holdingId : string) (r : Recommendation.row) :
  Recommendation.status (unlink_recommendation holdingId r) = Recommendation.status r.
Proof.
  unfold unlink_recommendation. case_decide; reflexivity.
Qed.

(** A successful execution leaves the recommendation accepted. *)
Lemma executed_accepted (recommendationId holdingId newId : string) (now : Z)
    (h : Holding.row) (q : Q) (sale : Transaction.row) (db : Database) :
  forall r', tax_recommendations
               (executed recommendationId holdingId newId now h q sale db)
             !! recommendationId = Some r' ->
             Recommendation.status r' = accepted.
Proof.
  intros r'. unfold executed. cbn [with_recommendations tax_recommendations].
  rewrite lookup_alter_eq.
  destruct (Qle_bool (Holding.quantity h - q) 0);
    cbn [delete_holding with_holdings with_transactions tax_recommendations];
    rewrite ?lookup_fmap;
    destruct (tax_recommendations db !! recommendationId) as [r |];
    cbn; intros H; try discriminate; injection H as <-; reflexivity.
Qed.

Lemma executeRecommendation_accepts (userId recommendationId : string) (now : Z)
    (newId : string) (db db' : Database) (x : Execution) :
  executeRecommendation userId recommendationId now newId db = (Ok x, db') ->
  not_pending recommendationId db'.
Proof.
  intros H. apply executeRecommendation_Ok in H.
  destruct H as (r & holdingId & h & q & sale & _ & _ & _ & _ & ->).
  intros r' Hr'. apply executed_accepted in Hr'. congruence.
Qed.

(** C1.  When the recommendation under the id is no longer pending -- in
    particular when the database is the one a successful execution of that
    id left -- a call of [executeRecommendation] for the id returns the
    error 'Recommendation not found or already executed' and the database is
    exactly as before: no transaction inserted, no holding changed or
    deleted. *)
Theorem executeRecommendation_second_call
    (userId recommendationId : string) (now : Z) (newId : string) (db : Database) :
  (not_pending recommendationId db
   \/ exists db0 now0 newId0 x,
        executeRecommendation userId recommendationId now0 newId0 db0 = (Ok x, db)) ->
  let '(result, db') :=
    executeRecommendation userId recommendationId now newId db in
  result = Err "Recommendation not found or already executed"
  /\ holdings db' = holdings db
  /\ transactions db' = transactions db
  /\ db' = db.
Proof.
  intros H.
  assert (Hnp : not_pending recommendationId db).
  { destruct H as [Hnp | (db0 & now0 & newId0 & x & Hex)]; [exact Hnp |].
    eapply executeRecommendation_accepts. exact Hex. }
  rewrite (execute_without_pending userId recommendationId now newId db
             (select_pending_None _ _ _ Hnp)).
  repeat apply conj; reflexivity.
Qed.

Lemma executeRecommendation_second_call_witness :
  let db1 := snd (executeRecommendation "u1" "r1" 1000 "t1" portfolio) in
  holdings db1 !! "h1" = None
  /\ executeRecommendation "u1" "r1" 2000 "t2" db1
     = (Err "Recommendation not found or already executed", db1).
Proof.
  intros db1. split; [vm_compute; reflexivity |].
  destruct (executeRecommendation "u1" "r1" 1000 "t1" portfolio)
    as [[x | e] d] eqn:E.
  - assert (Hd : db1 = d) by reflexivity.
    pose proof (executeRecommendation_second_call "u1" "r1" 2000 "t2" d
                  (or_intror (ex_intro _ portfolio
                     (ex_intro _ 1000%Z (ex_intro _ "t1" (ex_intro _ x E))))))
      as H.
    rewrite Hd.
    destruct (executeRecommendation "u1" "r1" 2000 "t2" d) as [result d'].
    destruct H as (-> & _ & _ & ->). reflexivity.
  - vm_compute in E. discriminate E.
Defined.

(** *** Quantities of holdings *)

Lemma executed_nonneg (recommendationId holdingId newId : string) (now : Z)
    (h : Holding.row) (q : Q) (sale : Transaction.row) (db : Database) :
  quantities_nonneg db ->
  quantities_nonneg (executed recommendationId holdingId newId now h q sale db).
Proof.
  unfold quantities_nonneg, executed. intros Hdb.
  cbn [with_recommendations holdings].
  destruct (Qle_bool (Holding.quantity h - q) 0) eqn:E;
    cbn [delete_holding with_holdings with_transactions holdings].
  - apply map_Forall_delete. exact Hdb.
  - apply Qle_bool_gt in E.
    intros k h' Hk. rewrite lookup_alter in Hk. case_decide.
    + destruct (holdings db !! holdingId) as [h0 |]; cbn in Hk; [| discriminate].
      injection Hk as <-. cbn. lra.
    + exact (Hdb k h' Hk).
Qed.

(** [executeRecommendation] keeps the quantities non-negative: a holding
    that would reach 0 or less is deleted. *)
Lemma executeRecommendation_nonneg (userId recommendationId : string) (now : Z)
    (newId : string) (db : Database) :
  quantities_nonneg db ->
  quantities_nonneg (snd (executeRecommendation userId recommendationId now newId db)).
Proof.
  intros Hdb.
  destruct (executeRecommendation userId recommendationId now newId db)
    as [[x | e] db'] eqn:E; cbn [snd].
  - apply executeRecommendation_Ok in E.
    destruct E as (r & holdingId & h & q & sale & _ & _ & _ & _ & ->).
    apply executed_nonneg. exact Hdb.
  - unfold executeRecommendation in E. apply atomically_rolls_back in E.
    subst db'. exact Hdb.
Qed.

(** Reversing a sell adds the quantity sold back, or recreates the holding
    with it: the quantities stay non-negative when the quantity sold was. *)
Lemma reverse_sell_nonneg (userId transactionId : string) (now : Z)
    (db : Database) (t : Transaction.row) :
  transactions db !! transactionId = Some t ->
  Transaction.transaction_type t = sell ->
  0 <= Transaction.quantity t ->
  quantities_nonneg db ->
  quantities_nonneg (snd (reverseTransaction userId transactionId now db)).
Proof.
  intros Ht Hsell Hq Hdb.
  unfold reverseTransaction. unfold_tx. rewrite Ht.
  destruct (String.eqb (Transaction.user_id t) userId); [| exact Hdb].
  rewrite Hsell.
  destruct (linked_holding t) as [holdingId |]; [| exact Hdb].
  destruct (holdings db !! holdingId) as [h |] eqn:Hh;
    cbn [snd with_holdings with_transactions holdings];
    unfold quantities_nonneg; cbn [holdings].
  - intros k h' Hk.
    cbn [with_holdings with_transactions holdings] in Hk.
    rewrite lookup_alter in Hk. case_decide.
    + rewrite Hh in Hk. cbn in Hk. injection Hk as <-. cbn.
      pose proof (Hdb holdingId h Hh) as H0. cbn in H0. lra.
    + exact (Hdb k h' Hk).
  - cbn [with_holdings with_transactions holdings].
    apply map_Forall_insert_2; [exact Hq | exact Hdb].
Qed.

Lemma negative_quantity (db : Database) (id : string) (h : Holding.row) :
  holdings db !! id = Some h ->
  Holding.quantity h < 0 ->
  ~ quantities_nonneg db.
Proof.
  intros Hlook Hneg Hall. pose proof (Hall id h Hlook) as H0. cbn in H0. lra.
Qed.

Lemma portfolio_nonneg : quantities_nonneg portfolio /\ quantities_nonneg partial_harvest.
Proof.
  split; unfold quantities_nonneg; cbn [holdings portfolio partial_harvest];
    apply map_Forall_singleton; vm_compute; discriminate.
Qed.

(** C2, on the code.  The reversal of a buy subtracts the quantity bought
    with neither the deletion nor any guard that [executeRecommendation]
    has.  Reversing the purchase of 10 leaves the holding stored with
    quantity 0, and reversing it once more stores -10; reversing it after 4
    of the 10 were sold through a recommendation stores -4.  Every call
    succeeds. *)
Theorem reverseTransaction_buy_stores_negative :
  let reversal := Ok {| success := true; message := "Transaction reversed successfully" |} in
  let once := reverseTransaction "u1" "t0" 1000 portfolio in
  let twice := reverseTransaction "u1" "t0" 2000 (snd once) in
  let sold := snd (executeRecommendation "u1" "r1" 1000 "t1" partial_harvest) in
  let reversed := reverseTransaction "u1" "t0" 2000 sold in
  quantities_nonneg portfolio
  /\ fst once = reversal
  /\ (exists h, holdings (snd once) !! "h1" = Some h /\ Holding.quantity h == 0)
  /\ fst twice = reversal
  /\ (exists h, holdings (snd twice) !! "h1" = Some h /\ Holding.quantity h == -10)
  /\ ~ quantities_nonneg (snd twice)
  /\ quantities_nonneg partial_harvest
  /\ quantities_nonneg sold
  /\ fst reversed = reversal
  /\ (exists h, holdings (snd reversed) !! "h1" = Some h /\ Holding.quantity h == -4)
  /\ ~ quantities_nonneg (snd reversed).
Proof.
  intros reversal once twice sold reversed.
  assert (H10 : exists h, holdings (snd twice) !! "h1" = Some h
                          /\ Holding.quantity h == -10).
  { eexists. split; vm_compute; reflexivity. }
  assert (H4 : exists h, holdings (snd reversed) !! "h1" = Some h
                         /\ Holding.quantity h == -4).
  { eexists. split; vm_compute; reflexivity. }
  destruct portfolio_nonneg as [Hp Hq].
  repeat apply conj.
  - exact Hp.
  - vm_compute. reflexivity.
  - eexists. split; vm_compute; reflexivity.
  - vm_compute. reflexivity.
  - exact H10.
  - destruct H10 as (h & Hlook & Hneg).
    apply (negative_quantity _ "h1" h Hlook). lra.
  - exact Hq.
  - apply executeRecommendation_nonneg. exact Hq.
  - vm_compute. reflexivity.
  - exact H4.
  - destruct H4 as (h & Hlook & Hneg).
    apply (negative_quantity _ "h1" h Hlook). lra.
Qed.

(** *** Status of recommendations *)

(** [executeRecommendation] changes the status of a pending recommendation
    only: with no pending row under the id, the table is as before. *)
Lemma executeRecommendation_needs_pending (userId recommendationId : string)
    (now : Z) (newId : string) (db : Database) :
  not_pending recommendationId db ->
  tax_recommendations
    (snd (executeRecommendation userId recommendationId now newId db))
  = tax_recommendations db.
Proof.
  intros Hnp.
  rewrite (execute_without_pending userId recommendationId now newId db
             (select_pending_None _ _ _ Hnp)).
  reflexivity.
Qed.

(** [updateRecommendationStatus] looks at the id and the owner, never at the
    status the row has: it succeeds and writes the new status over any
    other. *)
Lemma updateRecommendationStatus_any_status (recommendationId userId : string)
    (newStatus : Status) (db : Database) (r : Recommendation.row) :
  tax_recommendations db !! recommendationId = Some r ->
  Recommendation.user_id r = userId ->
  exists db',
    Tax.updateRecommendationStatus recommendationId userId newStatus db = (None, db')
    /\ Recommendation.status <$> (tax_recommendations db' !! recommendationId)
       = Some newStatus
    /\ holdings db' = holdings db
    /\ transactions db' = transactions db.
Proof.
  intros Hr Hu. unfold Tax.updateRecommendationStatus. rewrite Hr.
  assert (He : String.eqb (Recommendation.user_id r) userId = true)
    by (apply String.eqb_eq; exact Hu).
  rewrite He. eexists. split; [reflexivity |].
  cbn [with_recommendations tax_recommendations holdings transactions].
  rewrite lookup_alter_eq, Hr. repeat split.
Qed.

(** C3, on the code.  The recommendation is executed, which leaves it
    accepted with its execution time; [updateRecommendationStatus] then
    succeeds on it and stores [rejected] (and would as well store [accepted]
    over [rejected]): the update has no condition on the current status. *)
Theorem updateRecommendationStatus_overwrites_accepted :
  let db1 := snd (executeRecommendation "u1" "r1" 1000 "t1" portfolio) in
  let '(error, db2) := Tax.updateRecommendationStatus "r1" "u1" rejected db1 in
  let '(error', db3) := Tax.updateRecommendationStatus "r1" "u1" accepted db2 in
  Recommendation.status <$> (tax_recommendations db1 !! "r1") = Some accepted
  /\ error = None
  /\ Recommendation.status <$> (tax_recommendations db2 !! "r1") = Some rejected
  /\ Recommendation.executed_at <$> (tax_recommendations db2 !! "r1")
     = Some (Some 1000%Z)
  /\ error' = None
  /\ Recommendation.status <$> (tax_recommendations db3 !! "r1") = Some accepted.
Proof.
  vm_compute. repeat split.
Qed.

End ExecutorProps.

(** ** Tax by asset category *)

Module MultiAssetProps.

Import Js JsFacts MultiAsset.
Local Open Scope Q_scope.

Ltac split_period :=
  repeat match goal with
    | |- context [Qgeb ?x ?y] =>
        let E := fresh "E" in
        unfold Qgeb at 1;
        destruct (Qle_bool y x) eqn:E;
        [ apply Qle_bool_iff in E | apply Qle_bool_gt in E ]
    end.

(** X1.  A gain is long-term exactly when the holding period reaches the period
    [getLTCGHoldingPeriod] gives for the category; crypto, whose period is
    infinite, is never long-term. *)
Theorem long_term_iff_holding_period
    (gain : Q) (category : AssetCategory) (holdingPeriodDays : Q) :
  gainType (calculateTaxByAssetCategory gain category holdingPeriodDays) = LONG_TERM
  <-> exists period, getLTCGHoldingPeriod category = Some period
                     /\ period <= holdingPeriodDays.
Proof.
  split.
  - destruct category; cbn [calculateTaxByAssetCategory getLTCGHoldingPeriod];
      split_period; cbn [gainType]; intros H; try discriminate H;
      eexists; (split; [reflexivity | assumption]).
  - intros (period & Hp & Hle).
    destruct category; cbn [getLTCGHoldingPeriod] in Hp; try discriminate Hp;
      injection Hp as <-;
      cbn [calculateTaxByAssetCategory]; split_period; cbn [gainType];
      try reflexivity; lra.
Qed.

(** X2.  For a gain that is not negative the tax is the rate applied to what
    exceeds the exemption; it is never negative and never above 30% of the
    gain. *)
Theorem category_tax_bounds
    (gain : Q) (category : AssetCategory) (holdingPeriodDays : Q) :
  0 <= gain ->
  let r := calculateTaxByAssetCategory gain category holdingPeriodDays in
  tax r == taxRate r * Qmax 0 (gain - exemption r)
  /\ 0 <= tax r
  /\ tax r <= 0.30 * gain.
Proof.
  intros Hg r. subst r.
  destruct category; cbn [calculateTaxByAssetCategory]; split_period;
    cbn [tax taxRate exemption]; split_order;
    repeat apply conj; lra.
Qed.

Lemma category_tax_bounds_witness :
  let r := calculateTaxByAssetCategory 200000 equity 400 in
  tax r == 12500 /\ 0 <= tax r /\ tax r <= 60000.
Proof.
  destruct (category_tax_bounds 200000 equity 400 ltac:(lra)) as (H1 & H2 & H3).
  repeat apply conj.
  - eapply Qeq_trans; [exact H1 | vm_compute; reflexivity].
  - exact H2.
  - eapply Qle_trans; [exact H3 | vm_compute; discriminate].
Defined.

(** The tax never decreases with the gain, and for a gain that is not
    negative it never increases with the holding period. *)
Lemma category_tax_monotone
    (category : AssetCategory) (g1 g2 d1 d2 : Q) :
  0 <= g1 -> g1 <= g2 -> d1 <= d2 ->
  tax (calculateTaxByAssetCategory g1 category d1)
  <= tax (calculateTaxByAssetCategory g2 category d1)
  /\ tax (calculateTaxByAssetCategory g1 category d2)
     <= tax (calculateTaxByAssetCategory g1 category d1).
Proof.
  intros Hg Hgg Hd.
  destruct category; cbn [calculateTaxByAssetCategory]; split_period;
    cbn [tax]; split_order; repeat apply conj; lra.
Qed.

Lemma category_tax_monotone_witness :
  tax (calculateTaxByAssetCategory 50000 gold_etf 1200)
  <= tax (calculateTaxByAssetCategory 50000 gold_etf 500).
Proof.
  destruct (category_tax_monotone gold_etf 50000 50000 500 1200
              ltac:(lra) ltac:(lra) ltac:(lra)) as (_ & H).
  exact H.
Defined.

End MultiAssetProps.

(** ** Wash-sale guard *)

Module WashSaleProps.

Import Js Db Txn Sql WashSale WashSaleTerms.
Local Open Scope Z_scope.

(** A statement that names an unknown column is rejected, whatever the
    rows of the table. *)
Lemma query_unknown_column (q : Select) (table : gmap string Transaction.row) :
  names_unknown_column q -> exists e, query q table = Err e.
Proof.
  intros (name & Hin & Hcol). unfold query.
  destruct (List.find _ (names q)) as [found |] eqn:Hfind.
  - eexists. reflexivity.
  - exfalso. apply (List.find_none _ _ Hfind) in Hin.
    rewrite Hcol in Hin. discriminate.
Qed.

(** A statement that is accepted returns rows of the table that satisfy
    its conditions. *)
Lemma query_rows (q : Select) (table : gmap string Transaction.row)
    (rows : list (string * Transaction.row)) (r : string * Transaction.row) :
  query q table = Ok rows ->
  In r rows ->
  table !! fst r = Some (snd r) /\ satisfies q r = true.
Proof.
  unfold query. destruct (List.find _ (names q)); [discriminate |].
  intros [= <-] Hin.
  assert (Hord : In r (ordered (order_by q)
                         (List.filter (satisfies q) (map_to_list table)))).
  { unfold limited in Hin. destruct (limit q) as [n |]; [| exact Hin].
    apply list_elem_of_In in Hin. apply list_elem_of_In.
    exact (subseteq_take n _ r Hin). }
  assert (Hfil : In r (List.filter (satisfies q) (map_to_list table))).
  { unfold ordered in Hord. destruct (order_by q) as [[name direction] |];
      [| exact Hord].
    revert Hord. generalize (List.filter (satisfies q) (map_to_list table)).
    induction l as [| x l IH]; cbn [foldr]; [trivial |].
    generalize dependent (foldr (insert_ordered name direction) [] l).
    intros sorted IH Hin'.
    assert (Hins : forall s, In r (insert_ordered name direction x s) ->
                             r = x \/ In r s).
    { induction s as [| y s IHs]; cbn [insert_ordered].
      - intros [<- | []]. left. reflexivity.
      - destruct (before _ _ _).
        + intros [<- | H]; [left; reflexivity | right; exact H].
        + intros [<- | H]; [right; left; reflexivity |].
          destruct (IHs H) as [-> | H']; [left; reflexivity | right; right; exact H']. }
    destruct (Hins _ Hin') as [-> | H]; [left; reflexivity | right; apply IH; exact H]. }
  apply filter_In in Hfil. destruct Hfil as [Hmem Hsat].
  split; [| exact Hsat].
  apply list_elem_of_In, elem_of_map_to_list' in Hmem. exact Hmem.
Qed.

(** Each statement of the service names column [type]; the table has
    [transaction_type]. *)
Lemma type_is_no_column :
  is_column "type" = false /\ is_column "transaction_type" = true.
Proof. split; reflexivity. Qed.

Lemma recent_sells_rejected (transactions : gmap string Transaction.row)
    (userId assetSymbol : string) (since upto : Z) :
  query (recent_sells userId assetSymbol since upto) transactions
  = Err "column does not exist: type".
Proof. reflexivity. Qed.

(** C8, on the code.  The user's only transaction in TCS is a sale on day
    0.  For a purchase proposed on day 15, where a wash sale with 15 days
    remaining is expected, and for one proposed on day 31, where none is,
    [checkWashSale] returns nothing: its statement filters on a column
    [type], table [transactions] has no such column (the column is
    [transaction_type]), the statement is rejected and the call throws
    'Failed to check wash sale'. *)
Theorem checkWashSale_day15_day31_throws :
  forall now : Z,
  let on_day (k : Z) :=
    checkWashSale tcs_history "user123" "TCS" (Some (add_days day0 k)) now in
  In "type" (names (recent_sells "user123" "TCS" (add_days day0 (15 - 30))
                      (add_days day0 15)))
  /\ is_column "type" = false
  /\ is_column "transaction_type" = true
  /\ on_day 15 = Err "Failed to check wash sale"
  /\ on_day 31 = Err "Failed to check wash sale".
Proof.
  intros now. cbv zeta. split; [cbn; tauto |]. repeat split.
Qed.

(** X3.  On the tables of the schema [checkWashSale] never answers: for
    every table content, user, symbol, proposed date and clock the
    statement is rejected for its column [type] and the call throws
    'Failed to check wash sale'. *)
Theorem checkWashSale_always_throws
    (transactions : gmap string Transaction.row) (userId assetSymbol : string)
    (proposedBuyDate : option Z) (now : Z) :
  names_unknown_column
    (recent_sells userId assetSymbol
       (add_days (default now proposedBuyDate) (- WASH_SALE_DAYS))
       (default now proposedBuyDate))
  /\ checkWashSale transactions userId assetSymbol proposedBuyDate now
     = Err "Failed to check wash sale".
Proof.
  split.
  - exists "type". split; [cbn; tauto | reflexivity].
  - unfold checkWashSale. cbv zeta. rewrite recent_sells_rejected. reflexivity.
Qed.

(** X4.  Likewise [checkReverseWashSale] never answers: its statement
    names column [type] too, and every call throws 'Failed to check reverse
    wash sale'. *)
Theorem checkReverseWashSale_always_throws
    (transactions : gmap string Transaction.row) (userId assetSymbol : string)
    (proposedSellDate : option Z) (now : Z) :
  names_unknown_column
    (recent_buys userId assetSymbol
       (add_days (default now proposedSellDate) (- WASH_SALE_DAYS))
       (default now proposedSellDate))
  /\ checkReverseWashSale transactions userId assetSymbol proposedSellDate now
     = Err "Failed to check reverse wash sale".
Proof.
  split.
  - exists "type". split; [cbn; tauto | reflexivity].
  - reflexivity.
Qed.

(** X5.  [getWashSaleHistory] reports no wash sale, whatever the
    transactions: its first statement names column [type], is rejected, and
    the error is caught and answered with the empty list. *)
Theorem getWashSaleHistory_always_empty
    (transactions : gmap string Transaction.row) (userId : string)
    (fyStart fyEnd : Z) :
  names_unknown_column (sells_of_year userId fyStart fyEnd)
  /\ getWashSaleHistory transactions userId fyStart fyEnd = [].
Proof.
  split.
  - exists "type". split; [cbn; tauto | reflexivity].
  - reflexivity.
Qed.

(** X6.  [getAllWashSaleWarnings] warns of nothing, whatever the
    transactions: its statement names column [type], is rejected, and the
    error is caught and answered with the empty list. *)
Theorem getAllWashSaleWarnings_always_empty
    (transactions : gmap string Transaction.row) (userId : string) (now : Z) :
  names_unknown_column (sold_lately userId now)
  /\ getAllWashSaleWarnings transactions userId now = [].
Proof.
  split.
  - exists "type". split; [cbn; tauto | reflexivity].
  - reflexivity.
Qed.

End WashSaleProps.

(** ** Regime comparison: further properties *)

Module RegimeProps.

Import Js JsFacts TaxComparison TaxComparisonTerms RegimeTerms TaxComparisonProps.
Local Open Scope Q_scope.

Lemma Qmin_left (x y : Q) : x <= y -> Qmin x y = x.
Proof. intros H. destruct (Qmin_cases x y) as [[_ E] | [Hlt _]]; [exact E | lra]. Qed.

Lemma Qmin_right (x y : Q) : y < x -> Qmin x y = y.
Proof. intros H. destruct (Qmin_cases x y) as [[Hle _] | [_ E]]; [lra | exact E]. Qed.

(** Settles every comparison of the goal that the context decides. *)
Ltac settle_order :=
  repeat match goal with
    | |- context [Qgtb ?x ?y] =>
        first [ rewrite (proj2 (Qgtb_gt x y)) by lra
              | rewrite (proj2 (Qgtb_le x y)) by lra ]
    | |- context [Qmin ?x ?y] =>
        first [ rewrite (Qmin_left x y) by lra
              | rewrite (Qmin_right x y) by lra ]
    end.

(** Unrolls [calculateSlabTax] over a table. *)
Ltac unroll_slabs :=
  unfold calculateSlabTax, OLD_REGIME_SLABS, NEW_REGIME_SLABS;
  cbn [fold_left]; unfold slab_step, min_with_max; cbn [min max rate].

(** Case analysis on the position of [x] among the bounds of both tables. *)
Ltac bands x :=
  destruct (Qlt_le_dec 0 x); [| unroll_slabs; settle_order; lra];
  destruct (Qlt_le_dec 250000 x); [| unroll_slabs; settle_order; lra];
  destruct (Qlt_le_dec 300000 x); [| unroll_slabs; settle_order; lra];
  destruct (Qlt_le_dec 500000 x); [| unroll_slabs; settle_order; lra];
  destruct (Qlt_le_dec 600000 x); [| unroll_slabs; settle_order; lra];
  destruct (Qlt_le_dec 900000 x); [| unroll_slabs; settle_order; lra];
  destruct (Qlt_le_dec 1000000 x); [| unroll_slabs; settle_order; lra];
  destruct (Qlt_le_dec 1200000 x); [| unroll_slabs; settle_order; lra];
  destruct (Qlt_le_dec 1500000 x); unroll_slabs; settle_order; lra.

(** X7.  The slab tax is nothing up to the first bound of the table, positive
    above it, and never more than 30% of the income. *)
Theorem calculateSlabTax_range (income : Q) :
  0 <= income ->
  calculateSlabTax income OLD_REGIME_SLABS <= 0.30 * income
  /\ calculateSlabTax income NEW_REGIME_SLABS <= 0.30 * income
  /\ (calculateSlabTax income OLD_REGIME_SLABS == 0 <-> income <= 250000)
  /\ (calculateSlabTax income NEW_REGIME_SLABS == 0 <-> income <= 300000).
Proof.
  intros H0. split; [| split; [| split]].
  - bands income.
  - bands income.
  - split; intros H.
    + destruct (Qlt_le_dec 250000 income) as [Hgt | Hle]; [| exact Hle].
      exfalso. revert H. bands income.
    + revert H. bands income.
  - split; intros H.
    + destruct (Qlt_le_dec 300000 income) as [Hgt | Hle]; [| exact Hle].
      exfalso. revert H. bands income.
    + revert H. bands income.
Qed.

Lemma calculateSlabTax_witness_range :
  calculateSlabTax 825000 OLD_REGIME_SLABS <= 0.30 * 825000.
Proof.
  destruct (calculateSlabTax_range 825000 ltac:(lra)) as (H & _). exact H.
Defined.

(** On every income the new table asks no more than the old one. *)
Lemma new_slabs_below_old (income : Q) :
  calculateSlabTax income NEW_REGIME_SLABS <= calculateSlabTax income OLD_REGIME_SLABS.
Proof.
  bands income.
Qed.

Lemma capital_gains_same (input : TaxRegimeInput) :
  capitalGainsTax (calculateOldRegime input) = capitalGainsTax (calculateNewRegime input).
Proof. reflexivity. Qed.

(** The total of a regime, from its income tax. *)
Lemma totalTax_old (input : TaxRegimeInput) :
  let t := incomeTax (calculateOldRegime input) in
  let i := totalIncome input + getTotalCapitalGains (capitalGains input) in
  totalTax (calculateOldRegime input)
  = t + calculateSurcharge t i + (t + calculateSurcharge t i) * 0.04
    + calculateCapitalGainsTax (capitalGains input).
Proof. reflexivity. Qed.

Lemma totalTax_new (input : TaxRegimeInput) :
  let t := incomeTax (calculateNewRegime input) in
  let i := totalIncome input + getTotalCapitalGains (capitalGains input) in
  totalTax (calculateNewRegime input)
  = t + calculateSurcharge t i + (t + calculateSurcharge t i) * 0.04
    + calculateCapitalGainsTax (capitalGains input).
Proof. reflexivity. Qed.

(** X8.  Without deductions the old regime is never the cheaper one, whatever
    the income and the capital gains: the recommendation is [NEW]. *)
Theorem no_deductions_recommends_new (input : TaxRegimeInput) :
  claimed (deductions input) <= 0 ->
  totalTax (calculateNewRegime input) <= totalTax (calculateOldRegime input)
  /\ recommendation (compareRegimes input) = NEW.
Proof.
  intros Hd.
  assert (Hle : totalTax (calculateNewRegime input)
                <= totalTax (calculateOldRegime input)).
  { rewrite totalTax_old, totalTax_new. cbv zeta.
    apply total_mono.
    - apply calculateSlabTax_nonneg, NEW_REGIME_SLABS_ok.
    - cbn [incomeTax calculateOldRegime calculateNewRegime].
      eapply Qle_trans; [apply new_slabs_below_old |].
      apply calculateSlabTax_mono; [apply OLD_REGIME_SLABS_ok |].
      unfold claimed in Hd. split_order; lra.
    - lra. }
  split; [exact Hle |].
  unfold compareRegimes. cbn [recommendation].
  rewrite (proj2 (Qltb_ge _ _)) by exact Hle. reflexivity.
Qed.

Lemma no_deductions_recommends_new_witness :
  recommendation
    (compareRegimes
       {| totalIncome := 1000000;
          deductions := {| section80C := 0; section80D := 0; homeLoanInterest := 0;
                           nps := 0; other := 0 |};
          capitalGains := {| shortTermEquity := 0; longTermEquity := 0;
                             shortTermCrypto := 0; longTermCrypto := 0 |} |})
  = NEW.
Proof.
  apply no_deductions_recommends_new. vm_compute. discriminate.
Defined.

(** The old-regime total as a function of the deductions. *)
Lemma old_total_antitone (income : Q) (gains : CapitalGains) (d1 d2 : Deductions) :
  Qmin (claimed d1) 350000 <= Qmin (claimed d2) 350000 ->
  totalTax (calculateOldRegime
              {| totalIncome := income; deductions := d2; capitalGains := gains |})
  <= totalTax (calculateOldRegime
                 {| totalIncome := income; deductions := d1; capitalGains := gains |}).
Proof.
  intros Hd. rewrite !totalTax_old. cbv zeta.
  cbn [totalIncome capitalGains].
  apply total_mono.
  - apply calculateSlabTax_nonneg, OLD_REGIME_SLABS_ok.
  - cbn [incomeTax calculateOldRegime totalIncome deductions].
    apply calculateSlabTax_mono; [apply OLD_REGIME_SLABS_ok |].
    unfold claimed in Hd.
    set (c1 := Qmin _ 350000) in *. set (c2 := Qmin _ 350000) in *.
    split_order; lra.
  - lra.
Qed.

(** X9.  Claiming more deductions never raises the old-regime total and never
    changes the new-regime total; past 350,000 claimed, more deductions
    change nothing. *)
Theorem deductions_effect (income : Q) (gains : CapitalGains) (d1 d2 : Deductions) :
  claimed d1 <= claimed d2 ->
  let input1 := {| totalIncome := income; deductions := d1; capitalGains := gains |} in
  let input2 := {| totalIncome := income; deductions := d2; capitalGains := gains |} in
  totalTax (calculateOldRegime input2) <= totalTax (calculateOldRegime input1)
  /\ calculateNewRegime input2 = calculateNewRegime input1
  /\ deductionsUsed (calculateOldRegime input2) <= 350000
  /\ (350000 <= claimed d1 ->
      totalTax (calculateOldRegime input2) == totalTax (calculateOldRegime input1)).
Proof.
  intros Hd input1 input2. subst input1 input2. repeat apply conj.
  - apply old_total_antitone. split_order; lra.
  - reflexivity.
  - cbn [deductionsUsed calculateOldRegime deductions]. split_order; lra.
  - intros Hcap. apply Qle_antisym; apply old_total_antitone; split_order; lra.
Qed.

Lemma deductions_effect_witness :
  let more := {| section80C := 150000; section80D := 25000; homeLoanInterest := 0;
                 nps := 0; other := 0 |} in
  let less := {| section80C := 150000; section80D := 0; homeLoanInterest := 0;
                 nps := 0; other := 0 |} in
  let gains := {| shortTermEquity := 0; longTermEquity := 0;
                  shortTermCrypto := 0; longTermCrypto := 0 |} in
  totalTax (calculateOldRegime
              {| totalIncome := 1000000; deductions := more; capitalGains := gains |})
  <= totalTax (calculateOldRegime
                 {| totalIncome := 1000000; deductions := less; capitalGains := gains |}).
Proof.
  intros more less gains.
  apply (deductions_effect 1000000 gains less more). vm_compute. discriminate.
Defined.

(** X10.  Whenever the two totals differ, the explanation names as better the
    regime that the recommendation does not: when the old regime costs
    more, [recommendation] is [NEW] and the explanation is the text 'Old
    Regime is better by ...', and conversely.  On equal totals the
    recommendation is [NEW] and the explanation says both are the same. *)
Theorem explanation_against_recommendation (input : TaxRegimeInput) :
  let c := compareRegimes input in
  let old := totalTax (oldRegime c) in
  let new := totalTax (newRegime c) in
  (new < old -> recommendation c = NEW /\ explanation c = OldRegimeIsBetter)
  /\ (old < new -> recommendation c = OLD /\ explanation c = NewRegimeIsBetter)
  /\ (old == new -> recommendation c = NEW /\ explanation c = BothRegimesSame
                    /\ savings c == 0).
Proof.
  cbv zeta. unfold compareRegimes.
  cbn [oldRegime newRegime recommendation explanation savings].
  set (old := totalTax (calculateOldRegime input)).
  set (new := totalTax (calculateNewRegime input)).
  unfold generateExplanation.
  repeat apply conj; intros H; split_order; try lra; repeat split.
  rewrite Qabs_pos by exact E1. lra.
Qed.

Lemma explanation_against_recommendation_witness :
  recommendation (compareRegimes high_deductions) = NEW
  /\ explanation (compareRegimes high_deductions) = OldRegimeIsBetter.
Proof.
  destruct (explanation_against_recommendation high_deductions) as (H & _).
  apply H. vm_compute. reflexivity.
Defined.

Lemma calculateSurcharge_nonneg (t i : Q) : 0 <= t -> 0 <= calculateSurcharge t i.
Proof.
  intros H. unfold calculateSurcharge. split_order; lra.
Qed.

Lemma calculateCapitalGainsTax_nonneg (g : CapitalGains) :
  gains_nonneg g -> 0 <= calculateCapitalGainsTax g.
Proof.
  intros (H1 & H2 & H3 & H4). unfold calculateCapitalGainsTax. split_order; lra.
Qed.

Lemma totals_nonneg (input : TaxRegimeInput) :
  gains_nonneg (capitalGains input) ->
  0 <= totalTax (calculateOldRegime input) /\ 0 <= totalTax (calculateNewRegime input).
Proof.
  intros Hg. rewrite totalTax_old, totalTax_new. cbv zeta.
  pose proof (calculateCapitalGainsTax_nonneg _ Hg) as Hc.
  split.
  - assert (Ht : 0 <= incomeTax (calculateOldRegime input))
      by apply calculateSlabTax_nonneg, OLD_REGIME_SLABS_ok.
    pose proof (calculateSurcharge_nonneg _
                  (totalIncome input + getTotalCapitalGains (capitalGains input)) Ht).
    lra.
  - assert (Ht : 0 <= incomeTax (calculateNewRegime input))
      by apply calculateSlabTax_nonneg, NEW_REGIME_SLABS_ok.
    pose proof (calculateSurcharge_nonneg _
                  (totalIncome input + getTotalCapitalGains (capitalGains input)) Ht).
    lra.
Qed.

(** X11.  With capital gains that are not negative, no total is negative, the
    savings are the distance between the two totals, and the savings
    percentage lies between 0 and 100; it is undefined only when both totals
    are 0. *)
Theorem savings_range (input : TaxRegimeInput) :
  gains_nonneg (capitalGains input) ->
  let c := compareRegimes input in
  let old := totalTax (oldRegime c) in
  let new := totalTax (newRegime c) in
  0 <= old /\ 0 <= new
  /\ savings c == Qmax old new - Qmin old new
  /\ match savingsPercentage c with
     | Some p => 0 <= p <= 100
     | None => old == 0 /\ new == 0
     end.
Proof.
  intros Hg. cbv zeta. unfold compareRegimes.
  cbn [oldRegime newRegime savings savingsPercentage].
  destruct (totals_nonneg input Hg) as [Ho Hn].
  set (old := totalTax (calculateOldRegime input)) in *.
  set (new := totalTax (calculateNewRegime input)) in *.
  assert (Habs : Qabs (old - new) == Qmax old new - Qmin old new).
  { destruct (Qlt_le_dec old new).
    - rewrite Qabs_neg by lra. split_order; lra.
    - rewrite Qabs_pos by lra. split_order; lra. }
  repeat apply conj; try assumption.
  unfold percent_of.
  destruct (Qeq_bool (Qmax old new) 0) eqn:E.
  - apply Qeq_bool_iff in E. revert E. split_order; lra.
  - assert (Hpos : 0 < Qmax old new).
    { destruct (Qlt_le_dec 0 (Qmax old new)) as [H | H]; [exact H |].
      assert (Hz : Qmax old new == 0) by (revert H; split_order; lra).
      apply Qeq_bool_iff in Hz. congruence. }
    assert (Hfrac : 0 <= Qabs (old - new) / Qmax old new <= 1).
    { split.
      - apply Qle_shift_div_l; [exact Hpos |]. rewrite Habs.
        split_order; lra.
      - apply Qle_shift_div_r; [exact Hpos |]. rewrite Habs.
        split_order; lra. }
    lra.
Qed.

Lemma savings_range_witness :
  savings (compareRegimes high_deductions) == 18200
  /\ 0 <= totalTax (oldRegime (compareRegimes high_deductions)).
Proof.
  assert (Hg : gains_nonneg (capitalGains high_deductions))
    by (repeat split; vm_compute; discriminate).
  destruct (savings_range high_deductions Hg) as (Ho & _ & Hs & _).
  split; [| exact Ho].
  eapply Qeq_trans; [exact Hs | vm_compute; reflexivity].
Defined.

End RegimeProps.

(** ** Fiscal years as text *)

Module FiscalYearProps.

Import Js CarryForward FiscalYear FiscalYearTerms.
Local Open Scope Z_scope.

(** Every fiscal year that starts in a four-digit year up to 9997, checked
    one by one. *)
Lemma fiscal_years_checked : forallb fiscal_year_ok (seqZ 1000 8998) = true.
Proof. vm_compute. reflexivity. Qed.

Lemma fiscal_year_checked (start : Z) :
  1000 <= start <= 9997 -> fiscal_year_ok start = true.
Proof.
  intros H. pose proof fiscal_years_checked as Hall.
  rewrite forallb_forall in Hall. apply Hall.
  apply list_elem_of_In, elem_of_seqZ. lia.
Qed.

Lemma before_April (year month : Z) :
  month < 4 -> getCurrentFinancialYear year month = fiscal_year (year - 1).
Proof.
  intros Hm. unfold fiscal_year, getCurrentFinancialYear.
  replace (4 <=? month) with false by (symmetry; apply Z.leb_gt; lia).
  cbn [Z.leb]. replace (year - 1 + 1) with year by lia. reflexivity.
Qed.

Lemma from_April (year month : Z) :
  4 <= month -> getCurrentFinancialYear year month = fiscal_year year.
Proof.
  intros Hm. unfold fiscal_year, getCurrentFinancialYear.
  replace (4 <=? month) with true by (symmetry; apply Z.leb_le; lia).
  reflexivity.
Qed.

(** X12.  The text of the current fiscal year reads back: for a day in a
    four-digit year, [parseInt] and [Number] of the part before the dash
    give the year the fiscal year started in, [getNextFinancialYear] gives
    the text of the following fiscal year, which is one year later for
    [calculateYearsDifference] and not before it in the order of texts. *)
Theorem fiscal_year_reads_back (year month : Z) :
  1001 <= year <= 9996 ->
  let fy := getCurrentFinancialYear year month in
  let start := if 4 <=? month then year else year - 1 in
  parseInt (before_dash fy) = Some start
  /\ Number (before_dash fy) = Some start
  /\ getNextFinancialYear fy = getCurrentFinancialYear (year + 1) month
  /\ calculateYearsDifference fy (getNextFinancialYear fy) = Some 1
  /\ String.leb fy (getNextFinancialYear fy) = true
  /\ getNextFinancialYear fy <> fy.
Proof.
  intros Hy fy start.
  assert (Hfy : fy = fiscal_year start
                /\ getCurrentFinancialYear (year + 1) month = fiscal_year (start + 1)).
  { subst fy start. destruct (4 <=? month) eqn:E.
    - apply Z.leb_le in E. rewrite !from_April by exact E. split; reflexivity.
    - apply Z.leb_gt in E. rewrite !before_April by exact E.
      replace (year + 1 - 1) with (year - 1 + 1) by lia. split; reflexivity. }
  destruct Hfy as [-> ->].
  assert (Hs : 1000 <= start <= 9996) by (unfold start; destruct (4 <=? month); lia).
  pose proof (fiscal_year_checked start ltac:(lia)) as H1.
  pose proof (fiscal_year_checked (start + 1) ltac:(lia)) as H2.
  unfold fiscal_year_ok in H1, H2.
  rewrite !andb_true_iff, !bool_decide_eq_true, !String.eqb_eq, negb_true_iff,
    String.eqb_neq in H1, H2.
  destruct H1 as (((((Hp & Hn) & Hnext) & _) & Hleb) & Hne).
  destruct H2 as (((((_ & Hn2) & _) & _) & _) & _).
  rewrite Hnext. repeat apply conj; try assumption; try reflexivity.
  - unfold calculateYearsDifference. rewrite Hn, Hn2. f_equal. lia.
  - congruence.
Qed.

Lemma fiscal_year_reads_back_witness :
  getCurrentFinancialYear 2026 2 = "2025-26"
  /\ getNextFinancialYear (getCurrentFinancialYear 2026 2) = "2026-27"
  /\ parseInt (before_dash (getCurrentFinancialYear 2026 2)) = Some 2025.
Proof.
  destruct (fiscal_year_reads_back 2026 2 ltac:(lia)) as (Hp & _ & Hnext & _).
  repeat apply conj; [reflexivity | | exact Hp].
  rewrite Hnext. reflexivity.
Defined.

End FiscalYearProps.

(** ** Carry-forward ledger: recording and using losses *)

Module LedgerProps.

Import Js JsFacts CarryForward CarryForwardTerms LedgerTerms CarryForwardProps.
Local Open Scope Q_scope.


Ltac run_applied :=
  cbv beta iota zeta delta
    [applyCarryForward apply_totals originalSTGain originalLTGain
     adjustedSTGain adjustedLTGain stLossUsed ltLossUsed totalLossUsed taxSaved];
  split_order;
  cbv beta iota zeta delta
    [apply_totals originalSTGain originalLTGain
     adjustedSTGain adjustedLTGain stLossUsed ltLossUsed totalLossUsed taxSaved].




(** X15.  A current short-term loss is not kept: with a positive short-term
    total carried forward and a negative short-term gain (and no long-term
    gain), the adjusted short-term gain is 0, the loss reported as used is
    the negative gain itself, and so is the sign of the tax reported as
    saved. *)
Theorem applyCarryForward_negative_gain
    (tax_reports : list TaxReportRow) (userId financialYear : string)
    (currentSTGain : Q) :
  0 < totalSTCarryForward (getAvailableCarryForward tax_reports userId financialYear) ->
  currentSTGain < 0 ->
  let r := applyCarryForward tax_reports userId financialYear currentSTGain 0 in
  adjustedSTGain r == 0
  /\ adjustedLTGain r == 0
  /\ stLossUsed r == currentSTGain
  /\ totalLossUsed r < 0
  /\ taxSaved r < 0.
Proof.
  cbv zeta. unfold applyCarryForward.
  generalize (totalSTCarryForward
                (getAvailableCarryForward tax_reports userId financialYear)).
  generalize (totalLTCarryForward
                (getAvailableCarryForward tax_reports userId financialYear)).
  intros lt st HT HG.
  split; [| split; [| split; [| split]]]; run_applied; lra.
Qed.

Lemma applyCarryForward_negative_gain_witness :
  let r := applyCarryForward ledger_2025 "u1" "2025-26" (-10000) 0 in
  adjustedSTGain r == 0 /\ taxSaved r < 0.
Proof.
  destruct (applyCarryForward_negative_gain ledger_2025 "u1" "2025-26" (-10000))
    as (H1 & _ & _ & _ & H5).
  - vm_compute. reflexivity.
  - lra.
  - cbv zeta. split; [exact H1 | exact H5].
Defined.

End LedgerProps.

(** ** The tax summary *)

Module SummaryProps.

Import Js JsFacts Db Tax TaxTerms SummaryTerms TaxProps.
Local Open Scope Q_scope.

Lemma sumQ_cons {A} (f : A -> Q) (x : A) (l : list A) :
  sumQ f (x :: l) = f x + sumQ f l.
Proof. reflexivity. Qed.

Lemma sumQ_nil {A} (f : A -> Q) : sumQ f [] = 0.
Proof. reflexivity. Qed.

Lemma sumQ_app {A} (f : A -> Q) (l l' : list A) :
  sumQ f (l ++ l') == sumQ f l + sumQ f l'.
Proof.
  induction l as [| x l IH]; cbn [app]; rewrite ?sumQ_cons, ?sumQ_nil; lra.
Qed.

Lemma sumQ_nonneg {A} (f : A -> Q) (l : list A) :
  (forall x, 0 <= f x) -> 0 <= sumQ f l.
Proof.
  intros Hf. induction l as [| x l IH]; rewrite ?sumQ_cons, ?sumQ_nil; [lra |].
  specialize (Hf x). lra.
Qed.

Lemma sumQ_filter {A} (f : A -> Q) (p : A -> bool) (l : list A) :
  (forall x, p x = false -> f x == 0) ->
  sumQ f (List.filter p l) == sumQ f l.
Proof.
  intros Hp. induction l as [| x l IH]; cbn [List.filter]; [reflexivity |].
  destruct (p x) eqn:E; rewrite ?sumQ_cons.
  - lra.
  - specialize (Hp x E). lra.
Qed.

Lemma fold_left_sum {A} (f : A -> Q) (l : list A) (a : Q) :
  fold_left (fun sum x => sum + f x) l a == a + sumQ f l.
Proof.
  revert a. induction l as [| x l IH]; intros a; cbn [fold_left];
    rewrite ?sumQ_cons, ?sumQ_nil.
  - lra.
  - rewrite IH. lra.
Qed.

(** The running totals of the loop, as sums over the holdings. *)
Lemma fold_step_totals (cfg : TaxConfig) (hs : list Holding) (acc : Totals) :
  let acc' := fold_left (calculateTax_step cfg) hs acc in
  acc_shortTermGains acc' == acc_shortTermGains acc + sumQ (gain_in true cfg) hs
  /\ acc_longTermGains acc' == acc_longTermGains acc + sumQ (gain_in false cfg) hs
  /\ acc_shortTermLosses acc' == acc_shortTermLosses acc + sumQ (loss_in true cfg) hs
  /\ acc_longTermLosses acc' == acc_longTermLosses acc + sumQ (loss_in false cfg) hs.
Proof.
  revert acc. induction hs as [| h hs IH]; intros acc; cbn [fold_left].
  - rewrite !sumQ_nil. repeat apply conj; lra.
  - destruct (IH (calculateTax_step cfg acc h)) as (H1 & H2 & H3 & H4).
    cbv zeta. rewrite !sumQ_cons.
    revert H1 H2 H3 H4.
    generalize (fold_left (calculateTax_step cfg) hs (calculateTax_step cfg acc h)).
    generalize (sumQ (gain_in true cfg) hs) (sumQ (gain_in false cfg) hs)
               (sumQ (loss_in true cfg) hs) (sumQ (loss_in false cfg) hs).
    intros g1 g2 l1 l2 acc' H1 H2 H3 H4.
    cbv beta zeta delta [calculateTax_step] in H1, H2, H3, H4.
    cbv beta zeta delta [gain_in loss_in].
    destruct (calc_isShortTerm (calculateHoldingTax h cfg));
      destruct (Qgtb (gainLoss (calculateHoldingTax h cfg)) 0);
      cbn [acc_shortTermGains acc_longTermGains acc_shortTermLosses
           acc_longTermLosses Bool.eqb andb negb] in *;
      repeat apply conj; lra.
Qed.

Lemma summary_sums (u fy : string) (hs : list Holding) (cfg : TaxConfig) :
  let s := calculateTax u fy hs cfg in
  totalShortTermGains s == sumQ (gain_in true cfg) hs
  /\ totalLongTermGains s == sumQ (gain_in false cfg) hs
  /\ totalShortTermLosses s == sumQ (loss_in true cfg) hs
  /\ totalLongTermLosses s == sumQ (loss_in false cfg) hs
  /\ totalTaxLiability s == sumQ (liability cfg) hs.
Proof.
  cbv zeta. unfold calculateTax.
  cbn [totalShortTermGains totalLongTermGains totalShortTermLosses
       totalLongTermLosses totalTaxLiability].
  destruct (fold_step_totals cfg hs
              {| acc_calculations := []; acc_shortTermGains := 0;
                 acc_longTermGains := 0; acc_shortTermLosses := 0;
                 acc_longTermLosses := 0 |}) as (H1 & H2 & H3 & H4).
  cbn [acc_shortTermGains acc_longTermGains acc_shortTermLosses
       acc_longTermLosses] in *.
  split; [| split; [| split; [| split]]]; try lra.
  rewrite fold_step_calculations. cbn [acc_calculations app].
  rewrite fold_left_sum.
  assert (E : forall l, sumQ taxLiability
                          (List.map (fun h => calculateHoldingTax h cfg) l)
                        == sumQ (liability cfg) l).
  { induction l as [| x l IH]; cbn [List.map]; [reflexivity |].
    rewrite !sumQ_cons. unfold liability at 1. lra. }
  rewrite E. lra.
Qed.

(** The last two steps of [calculateTax], from the totals. *)
Lemma summary_closing (u fy : string) (hs : list Holding) (cfg : TaxConfig) :
  let s := calculateTax u fy hs cfg in
  netShortTermGains s = Qmax 0 (totalShortTermGains s - totalShortTermLosses s)
  /\ netLongTermGains s = Qmax 0 (totalLongTermGains s - totalLongTermLosses s)
  /\ totalTaxWithSurchargeAndCess s
     = (let taxWithSurcharge :=
          if Qgtb (totalShortTermGains s + totalLongTermGains s)
               (surchargeThreshold cfg)
          then totalTaxLiability s + totalTaxLiability s * (surchargeRate cfg / 100)
          else totalTaxLiability s in
        taxWithSurcharge + taxWithSurcharge * (cessRate cfg / 100)).
Proof.
  cbv zeta. unfold calculateTax. repeat apply conj; reflexivity.
Qed.

Lemma closing_eq (a a' t t' thr sr cr : Q) :
  a == a' -> t == t' ->
  (let w := if Qgtb a thr then t + t * (sr / 100) else t in w + w * (cr / 100))
  == (let w := if Qgtb a' thr then t' + t' * (sr / 100) else t' in
      w + w * (cr / 100)).
Proof.
  intros Ha Ht. cbv zeta.
  destruct (Qgtb a thr) eqn:E, (Qgtb a' thr) eqn:E';
    try apply Qgtb_gt in E; try apply Qgtb_le in E;
    try apply Qgtb_gt in E'; try apply Qgtb_le in E'; try lra;
    rewrite Ht; reflexivity.
Qed.

Lemma gainLoss_calculateHoldingTax (h : Holding) (cfg : TaxConfig) :
  gainLoss (calculateHoldingTax h cfg) = num_or (profitLoss h) 0.
Proof.
  unfold calculateHoldingTax.
  destruct (Qgtb _ 0); [destruct (assetType h), (default false (isShortTerm h)) |];
    reflexivity.
Qed.

Lemma no_gain_no_liability (h : Holding) (cfg : TaxConfig) :
  has_gain h = false ->
  liability cfg h == 0 /\ gain_in true cfg h == 0 /\ gain_in false cfg h == 0.
Proof.
  unfold has_gain. intros E.
  unfold liability, gain_in. cbv zeta.
  rewrite gainLoss_calculateHoldingTax, E, !andb_false_r.
  split; [| split; reflexivity].
  unfold calculateHoldingTax. rewrite E. reflexivity.
Qed.

Lemma gain_no_loss (h : Holding) (cfg : TaxConfig) (short : bool) :
  has_gain h = true -> loss_in short cfg h == 0.
Proof.
  unfold has_gain, loss_in. intros E. cbv zeta.
  rewrite gainLoss_calculateHoldingTax, E. cbn [negb]. rewrite andb_false_r.
  reflexivity.
Qed.

Lemma sumQ_zero {A} (f : A -> Q) (l : list A) :
  (forall x, In x l -> f x == 0) -> sumQ f l == 0.
Proof.
  induction l as [| x l IH]; intros H; rewrite ?sumQ_cons, ?sumQ_nil;
    [reflexivity |].
  rewrite (H x) by (left; reflexivity).
  rewrite IH by (intros y Hy; apply H; right; exact Hy). lra.
Qed.

Lemma gain_in_nonneg (short : bool) (cfg : TaxConfig) (h : Holding) :
  0 <= gain_in short cfg h.
Proof.
  unfold gain_in. cbv zeta.
  destruct (Bool.eqb _ short); cbn [andb]; split_order; lra.
Qed.

Lemma loss_in_nonneg (short : bool) (cfg : TaxConfig) (h : Holding) :
  0 <= loss_in short cfg h.
Proof.
  unfold loss_in. cbv zeta.
  destruct (Bool.eqb _ short && negb _); [apply Qabs_nonneg | lra].
Qed.

Lemma liability_nonneg (cfg : TaxConfig) (h : Holding) :
  rates_nonneg cfg -> 0 <= liability cfg h.
Proof.
  intros (R1 & R2 & R3 & R4 & _). unfold liability, calculateHoldingTax.
  destruct (Qgtb (num_or (profitLoss h) 0) 0) eqn:E; [| cbn; lra].
  apply Qgtb_gt in E.
  destruct (assetType h), (default false (isShortTerm h)); cbn [taxLiability];
    (apply Qle_shift_div_l; [lra |]); rewrite Qmult_0_l;
    apply Qmult_le_0_compat; try assumption; try lra.
  split_order; lra.
Qed.

(** X17.  Tax is charged on the gains alone: the liability of a portfolio, also
    after surcharge and cess, is the liability of the same portfolio
    without its positions at a loss.  The losses only show in the net
    gains, which they lower. *)
Theorem calculateTax_charges_gains_alone
    (u fy : string) (hs : list Holding) (cfg : TaxConfig) :
  let s := calculateTax u fy hs cfg in
  let gains := calculateTax u fy (List.filter has_gain hs) cfg in
  totalTaxLiability s == totalTaxLiability gains
  /\ totalTaxWithSurchargeAndCess s == totalTaxWithSurchargeAndCess gains
  /\ totalShortTermGains s == totalShortTermGains gains
  /\ totalLongTermGains s == totalLongTermGains gains
  /\ totalShortTermLosses gains == 0
  /\ totalLongTermLosses gains == 0
  /\ netShortTermGains s <= netShortTermGains gains
  /\ netLongTermGains s <= netLongTermGains gains.
Proof.
  cbv zeta.
  destruct (summary_sums u fy hs cfg) as (A1 & A2 & A3 & A4 & A5).
  destruct (summary_sums u fy (List.filter has_gain hs) cfg)
    as (B1 & B2 & B3 & B4 & B5).
  destruct (summary_closing u fy hs cfg) as (C1 & C2 & C3).
  destruct (summary_closing u fy (List.filter has_gain hs) cfg) as (D1 & D2 & D3).
  assert (T : sumQ (liability cfg) (List.filter has_gain hs)
              == sumQ (liability cfg) hs).
  { apply sumQ_filter. intros h E. apply (no_gain_no_liability h cfg E). }
  assert (G1 : sumQ (gain_in true cfg) (List.filter has_gain hs)
               == sumQ (gain_in true cfg) hs).
  { apply sumQ_filter. intros h E. apply (no_gain_no_liability h cfg E). }
  assert (G2 : sumQ (gain_in false cfg) (List.filter has_gain hs)
               == sumQ (gain_in false cfg) hs).
  { apply sumQ_filter. intros h E. apply (no_gain_no_liability h cfg E). }
  assert (L : forall short,
             sumQ (loss_in short cfg) (List.filter has_gain hs) == 0).
  { intros short. apply sumQ_zero. intros h Hin.
    apply filter_In in Hin. apply gain_no_loss. apply Hin. }
  pose proof (L true) as L1. pose proof (L false) as L2.
  pose proof (sumQ_nonneg (loss_in true cfg) hs (loss_in_nonneg true cfg)) as N1.
  pose proof (sumQ_nonneg (loss_in false cfg) hs (loss_in_nonneg false cfg)) as N2.
  rewrite C1, C2, C3, D1, D2, D3.
  split; [| split; [| split; [| split; [| split; [| split; [| split]]]]]];
    try lra.
  - apply closing_eq; lra.
  - split_order; lra.
  - split_order; lra.
Qed.

(** Signs.  The four totals are never negative and each net gain lies
    between 0 and the gains of its term; when no rate of the configuration
    is negative, the liability is not negative either and surcharge and
    cess can only add to it. *)
Lemma calculateTax_signs
    (u fy : string) (hs : list Holding) (cfg : TaxConfig) :
  let s := calculateTax u fy hs cfg in
  0 <= totalShortTermGains s /\ 0 <= totalLongTermGains s
  /\ 0 <= totalShortTermLosses s /\ 0 <= totalLongTermLosses s
  /\ 0 <= netShortTermGains s <= totalShortTermGains s
  /\ 0 <= netLongTermGains s <= totalLongTermGains s
  /\ (rates_nonneg cfg ->
      0 <= totalTaxLiability s <= totalTaxWithSurchargeAndCess s).
Proof.
  cbv zeta.
  destruct (summary_sums u fy hs cfg) as (A1 & A2 & A3 & A4 & A5).
  destruct (summary_closing u fy hs cfg) as (C1 & C2 & C3).
  pose proof (sumQ_nonneg (gain_in true cfg) hs (gain_in_nonneg true cfg)) as G1.
  pose proof (sumQ_nonneg (gain_in false cfg) hs (gain_in_nonneg false cfg)) as G2.
  pose proof (sumQ_nonneg (loss_in true cfg) hs (loss_in_nonneg true cfg)) as N1.
  pose proof (sumQ_nonneg (loss_in false cfg) hs (loss_in_nonneg false cfg)) as N2.
  rewrite C1, C2, C3.
  split; [| split; [| split; [| split; [| split; [| split]]]]]; try lra.
  - split; split_order; lra.
  - split; split_order; lra.
  - intros R.
    pose proof (sumQ_nonneg (liability cfg) hs
                  (fun h => liability_nonneg cfg h R)) as T.
    destruct R as (_ & _ & _ & _ & R5 & R6).
    revert A5 T. generalize (totalTaxLiability (calculateTax u fy hs cfg)).
    intros t A5 T. assert (Ht : 0 <= t) by lra.
    split; [exact Ht |]. cbv zeta.
    assert (Hs : 0 <= t * (surchargeRate cfg / 100)).
    { apply Qmult_le_0_compat; [exact Ht |]. apply Qle_shift_div_l; lra. }
    assert (Hc : 0 <= cessRate cfg / 100) by (apply Qle_shift_div_l; lra).
    destruct (Qgtb _ (surchargeThreshold cfg)).
    + assert (0 <= (t + t * (surchargeRate cfg / 100)) * (cessRate cfg / 100))
        by (apply Qmult_le_0_compat; [lra | exact Hc]).
      lra.
    + assert (0 <= t * (cessRate cfg / 100))
        by (apply Qmult_le_0_compat; [lra | exact Hc]).
      lra.
Qed.

Lemma calculateTax_signs_witness :
  let s := calculateTax "u1" "2024-25" mixed_portfolio (getTaxConfig ∅ "2024-25") in
  0 <= totalTaxLiability s <= totalTaxWithSurchargeAndCess s.
Proof.
  cbv zeta.
  apply (calculateTax_signs "u1" "2024-25" mixed_portfolio (getTaxConfig ∅ "2024-25")).
  unfold rates_nonneg. repeat apply conj; vm_compute; discriminate.
Defined.

End SummaryProps.

(** ** The recommendations of a run *)

Module RecommendationProps.

Import Js JsFacts Db Tax TaxTerms SummaryTerms TaxProps SummaryProps.
Local Open Scope Q_scope.

Lemma insert_by_priority_sorted (r : TaxRecommendation) (l : list TaxRecommendation) :
  by_priority l -> by_priority (insert_by_priority r l).
Proof.
  induction l as [| x l IH]; cbn [insert_by_priority by_priority].
  - intros _. split; [constructor | exact I].
  - intros [Hx Hl].
    destruct (priorityScore x <=? priorityScore r)%Z eqn:E;
      cbn [by_priority].
    + apply Z.leb_le in E. split; [| split; assumption].
      constructor; [exact E |].
      eapply Forall_impl; [exact Hx |]. cbv beta. intros a Ha. lia.
    + apply Z.leb_gt in E. split; [| apply IH; exact Hl].
      rewrite insert_by_priority_perm.
      constructor; [lia | exact Hx].
Qed.

Lemma sort_by_priority_sorted (l : list TaxRecommendation) :
  by_priority (sort_by_priority l).
Proof.
  induction l as [| r l IH]; cbn [sort_by_priority foldr].
  - exact I.
  - apply insert_by_priority_sorted. exact IH.
Qed.

Lemma filter_map_length {A B} (f : A -> B) (p : B -> bool) (l : list A) :
  length (List.filter p (List.map f l)) = length (List.filter (fun x => p (f x)) l).
Proof.
  induction l as [| x l IH]; cbn [List.map List.filter]; [reflexivity |].
  destruct (p (f x)); cbn [length]; rewrite IH; reflexivity.
Qed.

(** The calculations at a loss are those of the holdings at a loss. *)
Lemma loss_calculations (cfg : TaxConfig) (hs : list Holding) :
  List.filter (fun calc => Qltb (gainLoss calc) 0)
    (List.map (fun h => calculateHoldingTax h cfg) hs)
  = List.map (fun h => calculateHoldingTax h cfg) (List.filter at_loss hs).
Proof.
  induction hs as [| h hs IH]; cbn [List.map List.filter]; [reflexivity |].
  rewrite gainLoss_calculateHoldingTax. unfold at_loss at 1.
  destruct (Qltb (num_or (profitLoss h) 0) 0); cbn [List.map]; rewrite IH;
    reflexivity.
Qed.

Section Run.

Variable notes_text : Q -> Q -> string.
Variables u fy : string.
Variable hs : list Holding.
Variable cfg : TaxConfig.

(** X18.  What a run returns is in order of priority, highest first, and
    has exactly one recommendation for each holding at a loss: the holdings
    the recommendations name are the holdings at a loss, each as often as it
    is held. *)
Theorem build_recommendations_ordered :
  by_priority (build_recommendations notes_text u fy hs cfg)
  /\ length (build_recommendations notes_text u fy hs cfg)
     = length (List.filter at_loss hs)
  /\ Permutation
       (List.map rec_holdingId (build_recommendations notes_text u fy hs cfg))
       (List.map holdingId (List.filter at_loss hs)).
Proof using Type.
  assert (Hp : Permutation
                 (List.map rec_holdingId
                    (build_recommendations notes_text u fy hs cfg))
                 (List.map holdingId (List.filter at_loss hs))).
  { unfold build_recommendations.
    rewrite (sort_by_priority_perm _), calculations_map.
    rewrite loss_calculations, !List.map_map.
    erewrite List.map_ext; [reflexivity |].
    intros h. cbv beta. unfold recommend. cbn [rec_holdingId].
    rewrite holding_calculateHoldingTax. reflexivity. }
  split; [apply sort_by_priority_sorted |]. split; [| exact Hp].
  rewrite <- (length_map rec_holdingId), (Permutation_length Hp), length_map.
  reflexivity.
Qed.

Lemma priorityScore_recommend (s : TaxSummary) (calc : TaxCalculation) :
  priorityScore (recommend notes_text u fy s calc)
  = Z.min 10
      (Qfloor (Qabs (num_or (profitLossPercentage (holding calc)) 0) / 5)
       + (if Qgtb (taxSavings (recommend notes_text u fy s calc)) 0 then 3 else 0))%Z.
Proof using Type. reflexivity. Qed.

(** Where a recommendation of a run comes from. *)
Lemma build_recommendations_from (r : TaxRecommendation) :
  In r (build_recommendations notes_text u fy hs cfg) ->
  exists h,
    In h hs
    /\ num_or (profitLoss h) 0 < 0
    /\ rec_holdingId r = holdingId h
    /\ rec_quantity r = quantity h
    /\ purchasePrice r = averageBuyPrice h
    /\ potentialLoss r == - num_or (profitLoss h) 0
    /\ taxSavings r == 0
    /\ priorityScore r
       = Z.min 10 (Qfloor (Qabs (num_or (profitLossPercentage h) 0) / 5))
    /\ (0 <= priorityScore r <= 10)%Z
    /\ status r = pending
    /\ recommendationType r = "harvest_loss"
    /\ rec_userId r = u.
Proof using Type.
  unfold build_recommendations. intros Hin.
  apply (Permutation_in _ (sort_by_priority_perm _)) in Hin.
  apply in_map_iff in Hin. destruct Hin as (calc & <- & Hcalc).
  apply filter_In in Hcalc. destruct Hcalc as [Hcalc Hloss].
  apply Qltb_lt in Hloss.
  destruct (taxSavings_of_loss_is_zero notes_text u fy hs cfg calc Hcalc Hloss)
    as [_ Hzero].
  destruct (recommend_taxSavings notes_text u fy (calculateTax u fy hs cfg) calc
              (bucket_nonneg u fy hs cfg calc) Hloss) as (Hp & _ & _).
  rewrite calculations_map in Hcalc. apply in_map_iff in Hcalc.
  destruct Hcalc as (h & <- & Hh).
  rewrite gainLoss_calculateHoldingTax in Hloss, Hp.
  exists h.
  assert (Hscore :
    priorityScore (recommend notes_text u fy (calculateTax u fy hs cfg)
                     (calculateHoldingTax h cfg))
    = Z.min 10 (Qfloor (Qabs (num_or (profitLossPercentage h) 0) / 5))).
  { rewrite priorityScore_recommend, holding_calculateHoldingTax.
    assert (E : Qgtb (taxSavings
                        (recommend notes_text u fy (calculateTax u fy hs cfg)
                           (calculateHoldingTax h cfg))) 0 = false)
      by (apply Qgtb_le; lra).
    rewrite E, Z.add_0_r. reflexivity. }
  split; [exact Hh |]. split; [exact Hloss |].
  unfold recommend at 1 2 3.
  cbn [rec_holdingId rec_quantity purchasePrice].
  rewrite holding_calculateHoldingTax.
  split; [reflexivity |]. split; [reflexivity |]. split; [reflexivity |].
  split; [exact Hp |]. split; [exact Hzero |]. split; [exact Hscore |].
  split; [| repeat split].
  rewrite Hscore.
  assert (0 <= Qfloor (Qabs (num_or (profitLossPercentage h) 0) / 5))%Z.
  { change 0%Z with (Qfloor 0). apply Qfloor_resp_le.
    apply Qle_shift_div_l; [lra |]. rewrite Qmult_0_l. apply Qabs_nonneg. }
  lia.
Qed.

(** X19.  Each recommendation of a run is for a holding at a loss, carries its
    id, quantity and loss, is pending and of type harvest_loss; its
    estimated saving is 0, since no rate is recorded for a loss, so that
    its priority is the loss percentage over 5, rounded down and capped at
    10, without the 3 points for a saving. *)
Theorem build_recommendations_each (r : TaxRecommendation) :
  In r (build_recommendations notes_text u fy hs cfg) ->
  exists h,
    In h hs
    /\ num_or (profitLoss h) 0 < 0
    /\ rec_holdingId r = holdingId h
    /\ rec_quantity r = quantity h
    /\ purchasePrice r = averageBuyPrice h
    /\ potentialLoss r == - num_or (profitLoss h) 0
    /\ taxSavings r == 0
    /\ priorityScore r
       = Z.min 10 (Qfloor (Qabs (num_or (profitLossPercentage h) 0) / 5))
    /\ (0 <= priorityScore r <= 10)%Z
    /\ status r = pending
    /\ recommendationType r = "harvest_loss"
    /\ rec_userId r = u.
Proof using Type.
  apply build_recommendations_from.
Qed.

End Run.

Lemma build_recommendations_each_witness :
  exists r,
    In r (build_recommendations (fun _ _ => EmptyString) "u1" "2024-25"
            mixed_portfolio (getTaxConfig ∅ "2024-25"))
    /\ rec_holdingId r = "INFY" /\ priorityScore r = 4%Z /\ taxSavings r == 0.
Proof.
  eexists. split; [left; reflexivity |].
  split; [reflexivity |].
  destruct (build_recommendations_each (fun _ _ => EmptyString) "u1" "2024-25"
              mixed_portfolio (getTaxConfig ∅ "2024-25") _
              (or_introl eq_refl)) as (h & _ & _ & _ & _ & _ & _ & Hz & _).
  split; [vm_compute; reflexivity | exact Hz].
Defined.

End RecommendationProps.

(** ** Holdings as the portfolio service enriches them *)

Module HoldingProps.

Import Js JsFacts Db Tax TaxTerms SummaryTerms HoldingTerms TaxProps SummaryProps.
Local Open Scope Q_scope.

Lemma floor_div_lt (x n : Z) :
  (floor_div x MS_PER_DAY <? n)%Z = true <-> (x < n * MS_PER_DAY)%Z.
Proof.
  unfold floor_div. rewrite Z.ltb_lt.
  assert (0 < MS_PER_DAY)%Z by (vm_compute; reflexivity).
  split; intros Hlt.
  - pose proof (Z.mul_succ_div_gt x MS_PER_DAY H). nia.
  - apply Z.div_lt_upper_bound; lia.
Qed.

(** The term of an enriched holding. *)
Lemma enrichHolding_term_cases (today : Z) (key : string) (row : Db.Holding.row) :
  let h := enrichHolding today key row in
  let elapsed := (today - Db.Holding.purchase_date row)%Z in
  let limit :=
    match Db.Holding.asset_type row with stock => 365%Z | crypto => 1095%Z end in
  (exists days,
     holdingPeriodDays h = Some days
     /\ (days * MS_PER_DAY <= elapsed < (days + 1) * MS_PER_DAY)%Z)
  /\ (isShortTerm h = Some true <-> (elapsed < limit * MS_PER_DAY)%Z)
  /\ (isShortTerm h = Some false <-> (limit * MS_PER_DAY <= elapsed)%Z).
Proof.
  cbv zeta. unfold enrichHolding. cbn [holdingPeriodDays isShortTerm].
  assert (Hd : (0 < MS_PER_DAY)%Z) by (vm_compute; reflexivity).
  split.
  - eexists. split; [reflexivity |]. unfold floor_div.
    pose proof (Z.mul_div_le (today - Holding.purchase_date row) MS_PER_DAY Hd).
    pose proof (Z.mul_succ_div_gt (today - Holding.purchase_date row) MS_PER_DAY Hd).
    lia.
  - destruct (Holding.asset_type row).
    + pose proof (floor_div_lt (today - Holding.purchase_date row) 365) as F.
      destruct (floor_div _ MS_PER_DAY <? 365)%Z.
      * split; split; intros H; try discriminate; try reflexivity.
        -- apply F. reflexivity.
        -- assert (today - Holding.purchase_date row < 365 * MS_PER_DAY)%Z
             by (apply F; reflexivity). lia.
      * split; split; intros H; try discriminate; try reflexivity.
        -- apply F in H. discriminate.
        -- destruct (Z_lt_le_dec (today - Holding.purchase_date row)
                       (365 * MS_PER_DAY)) as [L | L]; [| exact L].
           apply F in L. discriminate.
    + pose proof (floor_div_lt (today - Holding.purchase_date row) 1095) as F.
      destruct (floor_div _ MS_PER_DAY <? 1095)%Z.
      * split; split; intros H; try discriminate; try reflexivity.
        -- apply F. reflexivity.
        -- assert (today - Holding.purchase_date row < 1095 * MS_PER_DAY)%Z
             by (apply F; reflexivity). lia.
      * split; split; intros H; try discriminate; try reflexivity.
        -- apply F in H. discriminate.
        -- destruct (Z_lt_le_dec (today - Holding.purchase_date row)
                       (1095 * MS_PER_DAY)) as [L | L]; [| exact L].
           apply F in L. discriminate.
Qed.

(** X20.  The term of a holding: short-term exactly when less than 365 whole
    days (stock) or 1095 whole days (crypto) lie between the purchase and
    today; the period itself is the number of whole days. *)
Theorem enrichHolding_term (today : Z) (key : string) (row : Db.Holding.row) :
  let h := enrichHolding today key row in
  let elapsed := (today - Db.Holding.purchase_date row)%Z in
  let limit :=
    match Db.Holding.asset_type row with stock => 365%Z | crypto => 1095%Z end in
  (exists days,
     holdingPeriodDays h = Some days
     /\ (days * MS_PER_DAY <= elapsed < (days + 1) * MS_PER_DAY)%Z)
  /\ (isShortTerm h = Some true <-> (elapsed < limit * MS_PER_DAY)%Z)
  /\ (isShortTerm h = Some false <-> (limit * MS_PER_DAY <= elapsed)%Z).
Proof.
  apply enrichHolding_term_cases.
Qed.

(** X21.  The two calculators on crypto.  The tax service records a crypto
    holding bought at least 1095 days ago as long-term and taxes its gain
    at the long-term crypto rate of the configuration (20% by default);
    the calculator by asset category has no long-term period for crypto
    and charges 30% of any gain, whatever the holding period. *)
Theorem crypto_long_term_in_one_calculator
    (today : Z) (key : string) (row : Db.Holding.row) (cfg : TaxConfig) :
  Db.Holding.asset_type row = crypto ->
  (1095 * MS_PER_DAY <= today - Db.Holding.purchase_date row)%Z ->
  let calc := calculateHoldingTax (enrichHolding today key row) cfg in
  calc_isShortTerm calc = false
  /\ (0 < gainLoss calc ->
      taxRate calc = cryptoLongTermRate cfg
      /\ taxLiability calc == gainLoss calc * cryptoLongTermRate cfg / 100)
  /\ cryptoLongTermRate (getTaxConfig ∅ (financialYear cfg)) == 20
  /\ MultiAsset.getLTCGHoldingPeriod MultiAsset.crypto = None
  /\ (forall gain days,
        MultiAsset.gainType
          (MultiAsset.calculateTaxByAssetCategory gain MultiAsset.crypto days)
        = MultiAsset.SHORT_TERM
        /\ MultiAsset.tax
             (MultiAsset.calculateTaxByAssetCategory gain MultiAsset.crypto days)
           == gain * 30 / 100).
Proof.
  intros Hc Hd. cbv zeta.
  destruct (enrichHolding_term_cases today key row) as (_ & _ & Hlong).
  cbv zeta in Hlong. rewrite Hc in Hlong.
  apply Hlong in Hd. clear Hlong.
  assert (Ha : assetType (enrichHolding today key row) = crypto) by exact Hc.
  unfold calculateHoldingTax. rewrite Hd, Ha. cbn [default from_option id].
  split; [| split; [| split; [| split]]].
  - destruct (Qgtb _ 0); reflexivity.
  - destruct (Qgtb _ 0) eqn:E; cbn [gainLoss taxRate taxLiability].
    + intros _. split; reflexivity.
    + apply Qgtb_le in E. intros. lra.
  - unfold getTaxConfig. rewrite lookup_empty. reflexivity.
  - reflexivity.
  - intros gain days. split; [reflexivity |].
    cbn [MultiAsset.calculateTaxByAssetCategory MultiAsset.tax]. field.
Qed.

Lemma crypto_long_term_in_one_calculator_witness :
  let calc :=
    calculateHoldingTax (enrichHolding (1100 * MS_PER_DAY) "h2" bitcoin)
      (getTaxConfig ∅ "2024-25") in
  calc_isShortTerm calc = false
  /\ taxLiability calc == 100000
  /\ MultiAsset.tax
       (MultiAsset.calculateTaxByAssetCategory 500000 MultiAsset.crypto 1100)
     == 150000.
Proof.
  destruct (crypto_long_term_in_one_calculator (1100 * MS_PER_DAY) "h2" bitcoin
              (getTaxConfig ∅ "2024-25") eq_refl
              ltac:(vm_compute; discriminate)) as (H1 & H2 & _ & _ & H5).
  cbv zeta. split; [exact H1 |]. split.
  - destruct H2 as [_ H2]; [vm_compute; reflexivity |].
    etransitivity; [exact H2 | vm_compute; reflexivity].
  - etransitivity; [apply H5 | vm_compute; reflexivity].
Defined.

End HoldingProps.

(** ** Executing and reversing *)

Module WorkflowProps.

Import Js JsFacts Db Txn ExecutorTerms WorkflowTerms ExecutorProps.
Local Open Scope Q_scope.

Lemma select_pending_Some (recommendationId userId : string) (db : Database)
    (r : Recommendation.row) :
  select_pending recommendationId userId db = Some r
  <-> tax_recommendations db !! recommendationId = Some r
      /\ Recommendation.user_id r = userId
      /\ Recommendation.status r = pending.
Proof.
  unfold select_pending. split.
  - destruct (tax_recommendations db !! recommendationId) as [r0 |];
      [| discriminate].
    destruct (String.eqb_spec (Recommendation.user_id r0) userId) as [Hu | Hu];
      cbn [andb]; [| discriminate].
    destruct (Recommendation.status r0) eqn:Hs; cbn [Status_eqb];
      try discriminate.
    intros [= <-]. repeat split; assumption.
  - intros (-> & Hu & Hs). rewrite Hu, Hs, String.eqb_refl. reflexivity.
Qed.

Lemma select_holding_Some (o : option string) (userId : string) (db : Database)
    (holdingId : string) (h : Holding.row) :
  select_holding o userId db = Some (holdingId, h)
  <-> o = Some holdingId
      /\ holdings db !! holdingId = Some h
      /\ Holding.user_id h = userId.
Proof.
  unfold select_holding. split.
  - destruct o as [id' |]; [| discriminate].
    destruct (holdings db !! id') as [h0 |] eqn:Hh; [| discriminate].
    destruct (String.eqb_spec (Holding.user_id h0) userId) as [Hu | Hu];
      [| discriminate].
    intros [= <- <-]. repeat split; assumption.
  - intros (-> & -> & Hu). rewrite Hu, String.eqb_refl. reflexivity.
Qed.

(** The outcome of a call that goes through. *)
Lemma executeRecommendation_run (userId recommendationId : string) (now : Z)
    (newId : string) (db : Database)
    (r : Recommendation.row) (holdingId : string) (h : Holding.row) (q p : Q) :
  executable userId recommendationId newId db r holdingId h q p ->
  executeRecommendation userId recommendationId now newId db
  = (Ok {| ex_transaction := (newId, sale_of userId holdingId h r q p now);
           ex_recommendation :=
             set_status accepted (Some now) (Recommendation.updated_at r) r;
           ex_holding :=
             {| ho_asset_symbol := Holding.asset_symbol h;
                remaining_quantity := Holding.quantity h - q;
                fully_sold := Qle_bool (Holding.quantity h - q) 0 |} |},
     executed recommendationId holdingId newId now h q
       (sale_of userId holdingId h r q p now) db).
Proof.
  intros (Hr & Hu & Hs & Hid & Hh & Hhu & Hq & Hp & Hnew).
  assert (Hsel : select_pending recommendationId userId db = Some r)
    by (apply select_pending_Some; repeat split; assumption).
  assert (Hsel' : select_holding (Recommendation.holding_id r) userId db
                  = Some (holdingId, h))
    by (apply select_holding_Some; repeat split; assumption).
  unfold executeRecommendation. unfold_tx. rewrite Hsel, Hsel'.
  unfold insert_sell. unfold_tx. rewrite Hq, Hp, Hnew.
  cbn [default from_option id]. unfold executed, sale_of.
  destruct (Qle_bool (Holding.quantity h - q) 0); reflexivity.
Qed.

(** When a call goes through, and with what.  [executeRecommendation]
    returns a value exactly when the recommendation is pending and the
    user's, names a holding of the user, has a quantity and a price, and the
    key of the sale is free; the value and the database are then the ones
    of [executeRecommendation_run]. *)
Lemma executeRecommendation_succeeds_iff
    (userId recommendationId : string) (now : Z) (newId : string)
    (db db' : Database) (x : Execution) :
  executeRecommendation userId recommendationId now newId db = (Ok x, db')
  <-> exists r holdingId h q p,
        executable userId recommendationId newId db r holdingId h q p
        /\ x = {| ex_transaction := (newId, sale_of userId holdingId h r q p now);
                 ex_recommendation :=
                   set_status accepted (Some now) (Recommendation.updated_at r) r;
                 ex_holding :=
                   {| ho_asset_symbol := Holding.asset_symbol h;
                      remaining_quantity := Holding.quantity h - q;
                      fully_sold := Qle_bool (Holding.quantity h - q) 0 |} |}
        /\ db' = executed recommendationId holdingId newId now h q
                  (sale_of userId holdingId h r q p now) db.
Proof.
  split.
  - intros H. pose proof H as H0.
    unfold executeRecommendation in H. unfold_tx.
    destruct (select_pending recommendationId userId db) as [r |] eqn:Hr;
      [| discriminate].
    destruct (select_holding (Recommendation.holding_id r) userId db)
      as [[holdingId h] |] eqn:Hh; [| discriminate].
    unfold insert_sell in H. unfold_tx.
    destruct (Recommendation.quantity r) as [q |] eqn:Hq; [| discriminate].
    destruct (Recommendation.current_price r) as [p |] eqn:Hp; [| discriminate].
    destruct (transactions db !! newId) eqn:Hnew; [discriminate |].
    clear H.
    apply select_pending_Some in Hr. destruct Hr as (Hr & Hu & Hs).
    apply select_holding_Some in Hh. destruct Hh as (Hid & Hh & Hhu).
    assert (He : executable userId recommendationId newId db r holdingId h q p)
      by (repeat split; assumption).
    rewrite (executeRecommendation_run userId recommendationId now newId db
               r holdingId h q p He) in H0.
    injection H0 as <- <-.
    exists r, holdingId, h, q, p. repeat split; assumption.
  - intros (r & holdingId & h & q & p & He & -> & ->).
    apply executeRecommendation_run. exact He.
Qed.

(** X22.  Where a call fails.  The four errors come in this order: no pending
    recommendation of the user under the id; no holding of the user under
    the id the recommendation names (or none named any more); no quantity
    or no price in the recommendation; the key of the sale taken.  Each
    leaves the database as it was. *)
Theorem executeRecommendation_errors
    (userId recommendationId : string) (now : Z) (newId : string)
    (db db' : Database) (e : string) :
  executeRecommendation userId recommendationId now newId db = (Err e, db') ->
  db' = db
  /\ ((e = "Recommendation not found or already executed"
       /\ select_pending recommendationId userId db = None)
      \/ (exists r,
            select_pending recommendationId userId db = Some r
            /\ ((e = "Holding not found"
                 /\ select_holding (Recommendation.holding_id r) userId db = None)
                \/ (exists found,
                      select_holding (Recommendation.holding_id r) userId db
                      = Some found
                      /\ ((e = "null value violates not-null constraint"
                           /\ (Recommendation.quantity r = None
                               \/ Recommendation.current_price r = None))
                          \/ (e = "duplicate key value violates unique constraint"
                              /\ is_Some (Recommendation.quantity r)
                              /\ is_Some (Recommendation.current_price r)
                              /\ is_Some (transactions db !! newId))))))).
Proof.
  intros H. split; [exact (executeRecommendation_failure_rolls_back _ _ _ _ _ _ _ H) |].
  unfold executeRecommendation in H. unfold_tx.
  destruct (select_pending recommendationId userId db) as [r |] eqn:Hr.
  2:{ injection H as <- _. left. split; reflexivity. }
  right. exists r. split; [reflexivity |].
  destruct (select_holding (Recommendation.holding_id r) userId db)
    as [[holdingId h] |] eqn:Hh.
  2:{ injection H as <- _. left. split; reflexivity. }
  right. exists (holdingId, h). split; [reflexivity |].
  unfold insert_sell in H. unfold_tx.
  destruct (Recommendation.quantity r) as [q |] eqn:Hq.
  2:{ injection H as <- _. left. split; [reflexivity | left; reflexivity]. }
  destruct (Recommendation.current_price r) as [p |] eqn:Hp.
  2:{ injection H as <- _. left. split; [reflexivity | right; reflexivity]. }
  destruct (transactions db !! newId) eqn:Hnew.
  - injection H as <- _. right. repeat split; eexists; reflexivity.
  - destruct (Qle_bool _ 0); discriminate.
Qed.

Lemma executeRecommendation_errors_witness :
  executeRecommendation "u2" "r1" 1000 "t1" portfolio
  = (Err "Recommendation not found or already executed", portfolio).
Proof.
  destruct (executeRecommendation "u2" "r1" 1000 "t1" portfolio)
    as [[x | e] db'] eqn:E; [vm_compute in E; discriminate |].
  destruct (executeRecommendation_errors "u2" "r1" 1000 "t1" portfolio db' e E)
    as (-> & [[-> _] | (r & Hr & _)]).
  - reflexivity.
  - vm_compute in Hr. discriminate.
Defined.



Lemma linked_holding_Some (t : Transaction.row) (holdingId : string) :
  Transaction.holding_id t = Some holdingId ->
  holdingId <> EmptyString ->
  linked_holding t = Some holdingId.
Proof.
  intros Hid Hne. unfold linked_holding. rewrite Hid.
  destruct holdingId; [congruence | reflexivity].
Qed.


(** A reversal that finds the transaction: the database it leaves. *)
Lemma reverseTransaction_run (userId transactionId : string) (now : Z)
    (db : Database) (t : Transaction.row) :
  transactions db !! transactionId = Some t ->
  Transaction.user_id t = userId ->
  reverseTransaction userId transactionId now db
  = (Ok {| success := true; message := "Transaction reversed successfully" |},
     with_transactions (alter mark_reversed transactionId)
       (match linked_holding t with
        | Some holdingId =>
            match Transaction.transaction_type t with
            | sell =>
                match holdings db !! holdingId with
                | Some _ =>
                    with_holdings
                      (alter (add_quantity (Transaction.quantity t) now) holdingId) db
                | None =>
                    with_holdings
                      (insert holdingId
                         {| Holding.user_id := userId;
                            Holding.asset_type := Transaction.asset_type t;
                            Holding.asset_symbol := Transaction.asset_symbol t;
                            Holding.quantity := Transaction.quantity t;
                            Holding.average_buy_price := Transaction.price t;
                            Holding.current_price := Some (Transaction.price t);
                            Holding.purchase_date := Transaction.transaction_date t;
                            Holding.platform := Transaction.platform t;
                            Holding.created_at := now;
                            Holding.updated_at := now |}) db
                end
            | buy =>
                with_holdings
                  (alter (subtract_quantity (Transaction.quantity t) now) holdingId) db
            end
        | None => db
        end)).
Proof.
  intros Ht Hu. unfold reverseTransaction. unfold_tx.
  rewrite Ht, Hu, String.eqb_refl.
  destruct (Transaction.transaction_type t), (linked_holding t) as [holdingId |];
    try reflexivity.
  destruct (holdings db !! holdingId); reflexivity.
Qed.



Lemma mark_reversed_fields (t : Transaction.row) :
  Transaction.user_id (mark_reversed t) = Transaction.user_id t
  /\ Transaction.transaction_type (mark_reversed t) = Transaction.transaction_type t
  /\ Transaction.quantity (mark_reversed t) = Transaction.quantity t
  /\ linked_holding (mark_reversed t) = linked_holding t.
Proof. repeat split. Qed.

(** X25.  No guard against a second reversal.  A reversal leaves the transaction
    in place, with only its notes marked, so a second reversal goes through
    and applies the same change once more: for a transaction linked to a
    holding of the table, the quantity sold is added, or the quantity
    bought subtracted, twice. *)
Theorem reverseTransaction_twice
    (userId transactionId : string) (now later : Z) (db : Database)
    (t : Transaction.row) (holdingId : string) (h : Holding.row) :
  transactions db !! transactionId = Some t ->
  Transaction.user_id t = userId ->
  Transaction.holding_id t = Some holdingId ->
  holdingId <> EmptyString ->
  holdings db !! holdingId = Some h ->
  let reversal :=
    Ok {| success := true; message := "Transaction reversed successfully" |} in
  let once := reverseTransaction userId transactionId now db in
  let twice := reverseTransaction userId transactionId later (snd once) in
  let change :=
    match Transaction.transaction_type t with
    | sell => Transaction.quantity t
    | buy => - Transaction.quantity t
    end in
  fst once = reversal
  /\ fst twice = reversal
  /\ (exists h1, holdings (snd once) !! holdingId = Some h1
                 /\ Holding.quantity h1 == Holding.quantity h + change)
  /\ (exists h2, holdings (snd twice) !! holdingId = Some h2
                 /\ Holding.quantity h2 == Holding.quantity h + 2 * change)
  /\ (Transaction.notes <$> (transactions (snd twice) !! transactionId)
      = Some (Some (String.append
                      (String.append (default EmptyString (Transaction.notes t))
                         " [REVERSED]")
                      " [REVERSED]"))).
Proof.
  intros Ht Hu Hid Hne Hh. cbv zeta.
  pose proof (linked_holding_Some t holdingId Hid Hne) as Hl.
  rewrite (reverseTransaction_run userId transactionId now db t Ht Hu), Hl.
  cbn [fst snd].
  set (db1 := with_transactions _ _).
  assert (Ht1 : transactions db1 !! transactionId = Some (mark_reversed t)).
  { subst db1. cbn [with_transactions transactions].
    rewrite lookup_alter_eq.
    destruct (Transaction.transaction_type t); rewrite ?Hh;
      cbn [with_holdings transactions]; rewrite Ht; reflexivity. }
  assert (Hh1 : exists h1,
             holdings db1 !! holdingId = Some h1
             /\ Holding.quantity h1
                = Holding.quantity h
                  + match Transaction.transaction_type t with
                    | sell => Transaction.quantity t
                    | buy => - Transaction.quantity t
                    end).
  { subst db1. cbn [with_transactions holdings].
    destruct (Transaction.transaction_type t); rewrite ?Hh;
      cbn [with_holdings holdings]; rewrite lookup_alter_eq, Hh;
      eexists; (split; [reflexivity |]); reflexivity. }
  destruct Hh1 as (h1 & Hh1 & Hq1).
  rewrite (reverseTransaction_run userId transactionId later db1 (mark_reversed t)
             Ht1 Hu).
  change (linked_holding (mark_reversed t)) with (linked_holding t). rewrite Hl.
  change (Transaction.transaction_type (mark_reversed t))
    with (Transaction.transaction_type t).
  change (Transaction.quantity (mark_reversed t)) with (Transaction.quantity t).
  cbn [fst snd].
  split; [reflexivity |]. split; [reflexivity |].
  split; [exists h1; split; [exact Hh1 | rewrite Hq1; reflexivity] |].
  split.
  - cbn [with_transactions holdings].
    destruct (Transaction.transaction_type t); rewrite ?Hh1;
      cbn [with_holdings holdings]; rewrite lookup_alter_eq, Hh1;
      eexists; (split; [reflexivity |]); cbn; rewrite Hq1; ring.
  - cbn [with_transactions transactions]. rewrite lookup_alter_eq.
    destruct (Transaction.transaction_type t); rewrite ?Hh1;
      cbn [with_holdings transactions]; rewrite Ht1; reflexivity.
Qed.

Lemma reverseTransaction_twice_witness :
  let sold := snd (executeRecommendation "u1" "r1" 1000 "t1" partial_harvest) in
  let once := reverseTransaction "u1" "t1" 2000 sold in
  let twice := reverseTransaction "u1" "t1" 3000 (snd once) in
  exists h2, holdings (snd twice) !! "h1" = Some h2 /\ Holding.quantity h2 == 14.
Proof.
  cbv zeta.
  set (sold := snd (executeRecommendation "u1" "r1" 1000 "t1" partial_harvest)).
  assert (Ht : exists t,
             transactions sold !! "t1" = Some t
             /\ Transaction.user_id t = "u1"
             /\ Transaction.holding_id t = Some "h1"
             /\ Transaction.transaction_type t = sell
             /\ Transaction.quantity t = 4).
  { eexists. split; [vm_compute; reflexivity |]. repeat split. }
  destruct Ht as (t & Ht & Hu & Hid & Hty & Hq).
  assert (Hh : exists h, holdings sold !! "h1" = Some h /\ Holding.quantity h == 6).
  { eexists. split; [vm_compute; reflexivity |]. vm_compute. reflexivity. }
  destruct Hh as (h & Hh & Hq6).
  destruct (reverseTransaction_twice "u1" "t1" 2000 3000 sold t "h1" h Ht Hu Hid
              ltac:(discriminate) Hh) as (_ & _ & _ & (h2 & Hh2 & Hq2) & _).
  exists h2. split; [exact Hh2 |].
  rewrite Hq2, Hty, Hq, Hq6. reflexivity.
Defined.

End WorkflowProps.

(** ** The portfolio *)

Module PortfolioProps.

Import Js JsFacts Db Txn Tax Portfolio SummaryTerms ExecutorTerms WorkflowTerms
  PortfolioTerms SummaryProps ExecutorProps WorkflowProps.
Local Open Scope Q_scope.

Lemma insert_by_created_desc_perm (x : string * Holding.row)
    (l : list (string * Holding.row)) :
  Permutation (insert_by_created_desc x l) (x :: l).
Proof.
  induction l as [| y l IH]; cbn [insert_by_created_desc]; [reflexivity |].
  destruct (_ <=? _)%Z; [reflexivity |].
  rewrite IH. apply perm_swap.
Qed.

Lemma select_user_holdings_perm (userId : string) (db : Database) :
  Permutation (select_user_holdings userId db)
    (List.filter (fun kr => String.eqb (Holding.user_id (snd kr)) userId)
       (map_to_list (holdings db))).
Proof.
  unfold select_user_holdings.
  generalize (List.filter (fun kr => String.eqb (Holding.user_id (snd kr)) userId)
                (map_to_list (holdings db))).
  induction l as [| x l IH]; cbn [foldr]; [reflexivity |].
  rewrite insert_by_created_desc_perm. constructor. exact IH.
Qed.

(** What the query returns: the rows of the user, each once. *)
Lemma select_user_holdings_spec (userId : string) (db : Database)
    (key : string) (row : Holding.row) :
  In (key, row) (select_user_holdings userId db)
  <-> holdings db !! key = Some row /\ Holding.user_id row = userId.
Proof.
  rewrite <- list_elem_of_In, select_user_holdings_perm, list_elem_of_In.
  rewrite filter_In, <- list_elem_of_In, elem_of_map_to_list. cbn [snd].
  rewrite String.eqb_eq. reflexivity.
Qed.

Lemma fold_tally (hs : list Holding) (acc : Tally) :
  let acc' := fold_left tally_step hs acc in
  t_totalInvested acc'
  == t_totalInvested acc + sumQ (fun h => quantity h * averageBuyPrice h) hs
  /\ t_totalValue acc'
     == t_totalValue acc
        + sumQ (fun h => quantity h * num_or (currentPrice h) (averageBuyPrice h)) hs
  /\ (t_stocksCount acc' + t_cryptoCount acc'
      = t_stocksCount acc + t_cryptoCount acc + length hs)%nat
  /\ (t_gainersCount acc' + t_losersCount acc'
      <= t_gainersCount acc + t_losersCount acc + length hs)%nat
  /\ (t_losersCount acc'
      = t_losersCount acc
        + length (List.filter (fun h => Qltb (num_or (profitLoss h) 0) 0) hs))%nat.
Proof.
  revert acc. induction hs as [| h hs IH]; intros acc; cbn [fold_left].
  - cbv zeta. rewrite !sumQ_nil. cbn [length List.filter].
    repeat apply conj; try lra; lia.
  - destruct (IH (tally_step acc h)) as (H1 & H2 & H3 & H4 & H5).
    cbv zeta. rewrite !sumQ_cons. cbn [length List.filter].
    revert H1 H2 H3 H4 H5. generalize (fold_left tally_step hs (tally_step acc h)).
    intros acc' H1 H2 H3 H4 H5.
    cbn [tally_step t_totalInvested t_totalValue t_stocksCount t_cryptoCount
         t_gainersCount t_losersCount] in H1, H2, H3, H4, H5.
    split; [lra |]. split; [lra |]. split; [| split].
    + destruct (assetType h); lia.
    + destruct (Qgtb (num_or (profitLoss h) 0) 0) eqn:G,
               (Qltb (num_or (profitLoss h) 0) 0) eqn:L; try lia.
      apply Qgtb_gt in G. apply Qltb_lt in L. lra.
    + destruct (Qltb (num_or (profitLoss h) 0) 0); cbn [length]; lia.
Qed.

Lemma sumQ_map {A B} (f : B -> Q) (g : A -> B) (l : list A) :
  sumQ f (List.map g l) = sumQ (fun x => f (g x)) l.
Proof.
  induction l as [| x l IH]; cbn [List.map]; [reflexivity |].
  rewrite !sumQ_cons, IH. reflexivity.
Qed.

Lemma sumQ_ext {A} (f g : A -> Q) (l : list A) :
  (forall x, In x l -> f x == g x) -> sumQ f l == sumQ g l.
Proof.
  induction l as [| x l IH]; intros H; [reflexivity |].
  rewrite !sumQ_cons, (H x) by (left; reflexivity).
  rewrite IH by (intros y Hy; apply H; right; exact Hy). reflexivity.
Qed.

Lemma num_or_Some (x d : Q) : ~ x == 0 -> num_or (Some x) d = x.
Proof.
  intros H. unfold num_or. destruct (Qeq_bool x 0) eqn:E; [| reflexivity].
  apply Qeq_bool_iff in E. contradiction.
Qed.

(** The price the summary uses for an enriched row. *)
Lemma summary_price_enriched (today : Z) (key : string) (row : Holding.row) :
  num_or (currentPrice (enrichHolding today key row))
    (averageBuyPrice (enrichHolding today key row))
  == summary_price row.
Proof.
  unfold enrichHolding, summary_price. cbn [currentPrice averageBuyPrice].
  destruct (Holding.current_price row) as [p |]; cbn [default from_option id];
    unfold num_or.
  - reflexivity.
  - destruct (Qeq_bool _ 0) eqn:E; reflexivity.
Qed.

(** The counts and the sums of the summary.  Every holding of the user is
    counted once, as stock or as crypto; gainers and losers together are at
    most all of them; the amount invested is the sum of quantity times
    purchase price, and the value the sum of quantity times the price of
    the summary. *)
Lemma getPortfolioSummary_totals (today : Z) (userId : string) (db : Database) :
  let s := getPortfolioSummary today userId db in
  let rows := select_user_holdings userId db in
  totalHoldings s = length rows
  /\ (stocksCount s + cryptoCount s = totalHoldings s)%nat
  /\ (gainersCount s + losersCount s <= totalHoldings s)%nat
  /\ totalInvested s == sumQ (fun kr => invested (snd kr)) rows
  /\ totalValue s
     == sumQ (fun kr => Holding.quantity (snd kr) * summary_price (snd kr)) rows
  /\ totalProfitLoss s == totalValue s - totalInvested s
  /\ (forall key row,
        holdings db !! key = Some row -> Holding.user_id row = userId ->
        In (key, row) rows).
Proof.
  cbv zeta. unfold getPortfolioSummary, getUserHoldings, summarise.
  cbn [totalHoldings stocksCount cryptoCount gainersCount losersCount
       totalInvested totalValue totalProfitLoss].
  set (rows := select_user_holdings userId db).
  set (hs := List.map _ rows).
  destruct (fold_tally hs
              {| t_totalValue := 0; t_totalInvested := 0; t_stocksCount := 0;
                 t_cryptoCount := 0; t_gainersCount := 0; t_losersCount := 0 |})
    as (H1 & H2 & H3 & H4 & _).
  cbn [t_totalValue t_totalInvested t_stocksCount t_cryptoCount t_gainersCount
       t_losersCount] in H1, H2, H3, H4.
  split; [subst hs; apply length_map |].
  split; [lia |]. split; [lia |].
  split; [| split; [| split]].
  - rewrite H1. subst hs. rewrite sumQ_map.
    rewrite (sumQ_ext _ (fun kr => invested (snd kr)))
      by (intros [key row] _; reflexivity).
    lra.
  - rewrite H2. subst hs. rewrite sumQ_map.
    rewrite (sumQ_ext _ (fun kr => Holding.quantity (snd kr) * summary_price (snd kr))).
    + lra.
    + intros [key row] _. cbn [fst snd].
      rewrite summary_price_enriched. reflexivity.
  - reflexivity.
  - intros key row Hk Hu. subst rows. apply select_user_holdings_spec.
    split; assumption.
Qed.

Lemma worthless_enriched (today : Z) (key : string) (row : Holding.row) :
  worthless row ->
  Qltb (num_or (profitLoss (enrichHolding today key row)) 0) 0 = true
  /\ summary_price row == Holding.average_buy_price row
  /\ exists pl, profitLoss (enrichHolding today key row) = Some pl
                /\ pl == - invested row.
Proof.
  intros (Hq & Ha & p & Hp & Hz).
  assert (Hinv : 0 < Holding.quantity row * Holding.average_buy_price row)
    by (apply Qmult_lt_0_compat; assumption).
  unfold enrichHolding, summary_price, invested. cbn [profitLoss].
  rewrite Hp. cbn [default from_option id].
  assert (Hpl : Holding.quantity row * p
                - Holding.quantity row * Holding.average_buy_price row
                == - (Holding.quantity row * Holding.average_buy_price row))
    by (rewrite Hz; ring).
  split; [| split].
  - apply Qltb_lt. unfold num_or.
    destruct (Qeq_bool _ 0) eqn:E.
    + apply Qeq_bool_iff in E. lra.
    + lra.
  - unfold num_or. destruct (Qeq_bool p 0) eqn:E; [reflexivity |].
    apply Qeq_bool_neq in E. contradiction.
  - eexists. split; [reflexivity | exact Hpl].
Qed.

(** X26.  A price of 0 in the summary.  When every position of the user was
    bought for something and is now priced at 0, each holding is returned
    with its whole cost as a loss and the summary counts each as a loser;
    but it values each at its purchase price, since a price of 0 selects the
    fallback there ([enrichHolding] tests the column, which arrives as
    text, the summary the number), and so reports a value equal to the
    amount invested and a profit and loss of 0. *)
Theorem getPortfolioSummary_zero_price (today : Z) (userId : string) (db : Database) :
  (forall key row,
     holdings db !! key = Some row -> Holding.user_id row = userId ->
     worthless row) ->
  let s := getPortfolioSummary today userId db in
  totalValue s == totalInvested s
  /\ totalProfitLoss s == 0
  /\ totalProfitLossPercentage s == 0
  /\ losersCount s = totalHoldings s
  /\ gainersCount s = 0%nat
  /\ (forall h, In h (getUserHoldings today userId db) ->
        exists pl, profitLoss h = Some pl
                   /\ pl == - (quantity h * averageBuyPrice h)
                   /\ pl < 0).
Proof.
  intros Hall.
  destruct (getPortfolioSummary_totals today userId db)
    as (T1 & T2 & T3 & T4 & T5 & T6 & _).
  cbv zeta in *.
  assert (Hrows : forall kr, In kr (select_user_holdings userId db) ->
                             worthless (snd kr)).
  { intros [key row] Hin. apply select_user_holdings_spec in Hin.
    apply (Hall key row); apply Hin. }
  assert (Hval : totalValue (getPortfolioSummary today userId db)
                 == totalInvested (getPortfolioSummary today userId db)).
  { rewrite T4, T5. apply sumQ_ext. intros [key row] Hin. cbn [snd].
    destruct (worthless_enriched today key row (Hrows _ Hin)) as (_ & -> & _).
    reflexivity. }
  assert (Hlosers : losersCount (getPortfolioSummary today userId db)
                    = totalHoldings (getPortfolioSummary today userId db)).
  { unfold getPortfolioSummary, summarise.
    cbn [losersCount totalHoldings].
    destruct (fold_tally (getUserHoldings today userId db)
                {| t_totalValue := 0; t_totalInvested := 0; t_stocksCount := 0;
                   t_cryptoCount := 0; t_gainersCount := 0; t_losersCount := 0 |})
      as (_ & _ & _ & _ & H5).
    cbv zeta in H5. rewrite H5. cbn [t_losersCount plus]. f_equal.
    apply forallb_filter_id. apply forallb_forall. intros h Hin.
    unfold getUserHoldings in Hin. apply in_map_iff in Hin.
    destruct Hin as ([key row] & <- & Hin). cbn [fst snd].
    apply (worthless_enriched today key row (Hrows _ Hin)). }
  split; [exact Hval |]. split; [lra |]. split; [| split; [exact Hlosers |]].
  - unfold getPortfolioSummary, summarise in *.
    cbn [totalProfitLossPercentage totalValue totalInvested] in *.
    destruct (Qgtb _ 0) eqn:E; [| reflexivity].
    apply Qgtb_gt in E. rewrite Hval. field. lra.
  - split; [lia |].
    intros h Hin. unfold getUserHoldings in Hin. apply in_map_iff in Hin.
    destruct Hin as ([key row] & <- & Hin). cbn [fst snd].
    destruct (worthless_enriched today key row (Hrows _ Hin))
      as (_ & _ & pl & Hpl & Heq).
    exists pl. split; [exact Hpl |].
    destruct (Hrows _ Hin) as (Hq & Ha & _). cbn [snd] in Hq, Ha.
    assert (0 < invested row) by (apply Qmult_lt_0_compat; assumption).
    split; [exact Heq | lra].
Qed.

Lemma getPortfolioSummary_zero_price_witness :
  let s := getPortfolioSummary 1000 "u1" written_off in
  totalProfitLoss s == 0 /\ losersCount s = 1%nat.
Proof.
  assert (Hall : forall key row,
             holdings written_off !! key = Some row ->
             Holding.user_id row = "u1" -> worthless row).
  { intros key row Hk _. cbn [written_off holdings] in Hk.
    apply lookup_singleton_Some in Hk. destruct Hk as [_ <-].
    unfold worthless. split; [reflexivity |]. split; [reflexivity |].
    exists 0. split; reflexivity. }
  destruct (getPortfolioSummary_zero_price 1000 "u1" written_off Hall)
    as (_ & Hpl & _ & Hl & _).
  cbv zeta. split; [exact Hpl |]. rewrite Hl. vm_compute. reflexivity.
Defined.

(** X27.  Deleting a holding.  The call goes through exactly for a holding of
    the user; the holding is then gone, the other holdings are as before,
    and a pending recommendation that named the holding can no longer be
    executed: it lost its reference with the deletion, and the execution
    fails with "Holding not found", changing nothing.  A call that does not
    go through is a 404 and changes nothing. *)
Theorem deleteHolding_blocks_execution
    (holdingId userId : string) (db : Database) :
  let '(error, db') := deleteHolding holdingId userId db in
  (error = None
   <-> exists h, holdings db !! holdingId = Some h /\ Holding.user_id h = userId)
  /\ (error <> None -> error = Some not_found /\ db' = db)
  /\ (error = None ->
      (forall today, getHoldingById today holdingId userId db' = None)
      /\ (forall k, k <> holdingId -> holdings db' !! k = holdings db !! k)
      /\ (forall recommendationId r now newId,
            select_pending recommendationId userId db = Some r ->
            Recommendation.holding_id r = Some holdingId ->
            executeRecommendation userId recommendationId now newId db'
            = (Err "Holding not found", db'))).
Proof.
  unfold deleteHolding.
  destruct (holdings db !! holdingId) as [h |] eqn:Hh.
  2:{ split; [| split].
      - split; [discriminate | intros (h & Hh' & _); discriminate].
      - intros _. split; reflexivity.
      - discriminate. }
  destruct (String.eqb_spec (Holding.user_id h) userId) as [Hu | Hu].
  2:{ split; [| split].
      - split; [discriminate | intros (h' & [= <-] & Hu'); contradiction].
      - intros _. split; reflexivity.
      - discriminate. }
  split; [| split].
  - split; [intros _; exists h; split; [reflexivity | exact Hu] | reflexivity].
  - intros H. contradiction.
  - intros _. split; [| split].
    + intros today. unfold getHoldingById, delete_holding. cbn [holdings].
      rewrite lookup_delete_eq. reflexivity.
    + intros k Hk. unfold delete_holding. cbn [holdings].
      apply lookup_delete_ne. congruence.
    + intros recommendationId r now newId Hr Hid.
      apply select_pending_Some in Hr. destruct Hr as (Hr & Hru & Hs).
      assert (Hr' : select_pending recommendationId userId
                      (delete_holding holdingId db)
                    = Some (unlink_recommendation holdingId r)).
      { apply select_pending_Some. unfold delete_holding.
        cbn [tax_recommendations]. rewrite lookup_fmap, Hr.
        split; [reflexivity |].
        rewrite unlink_recommendation_status.
        split; [| exact Hs].
        unfold unlink_recommendation. case_decide; exact Hru. }
      unfold executeRecommendation. unfold_tx. rewrite Hr'.
      unfold unlink_recommendation at 1. rewrite decide_True by exact Hid.
      reflexivity.
Qed.

Lemma deleteHolding_blocks_execution_witness :
  executeRecommendation "u1" "r1" 1000 "t1" (snd (deleteHolding "h1" "u1" portfolio))
  = (Err "Holding not found", snd (deleteHolding "h1" "u1" portfolio)).
Proof.
  pose proof (deleteHolding_blocks_execution "h1" "u1" portfolio) as H.
  destruct (deleteHolding "h1" "u1" portfolio) as [error db'] eqn:E.
  destruct H as (_ & _ & H).
  assert (He : error = None) by (vm_compute in E; congruence).
  destruct (H He) as (_ & _ & Hexec).
  cbn [snd]. apply (Hexec "r1" (harvest 10 2000)); reflexivity.
Defined.


(** The outcome of [updateHolding], from the fields given and the row
    found. *)
Lemma updateHolding_cases
    (now : Z) (holdingId userId : string) (data : HoldingUpdate) (db : Database) :
  updateHolding now holdingId userId data db
  = if bool_decide (upd_quantity data = None /\ upd_averageBuyPrice data = None
                    /\ upd_currentPrice data = None)
    then (refused {| statusCode := 400;
                     api_message := "No valid update fields provided" |}, db)
    else if fits 20 8 (upd_quantity data) && fits 20 2 (upd_averageBuyPrice data)
            && fits 20 2 (upd_currentPrice data)
    then match holdings db !! holdingId with
         | Some h =>
             if String.eqb (Holding.user_id h) userId
             then (updated (enrichHolding now holdingId (apply_update data now h)),
                   with_holdings (insert holdingId (apply_update data now h)) db)
             else (refused not_found, db)
         | None => (refused not_found, db)
         end
    else (failed "numeric field overflow", db).
Proof.
  unfold updateHolding.
  destruct (upd_quantity data), (upd_averageBuyPrice data), (upd_currentPrice data);
    try (rewrite bool_decide_eq_false_2
           by (intros (H1 & H2 & H3); discriminate); reflexivity).
  rewrite bool_decide_eq_true_2 by (repeat split). reflexivity.
Qed.



End PortfolioProps.

(** ** From a recommendation to its execution *)

Module LifecycleProps.

Import Js JsFacts Db Txn Tax Portfolio SummaryTerms ExecutorTerms WorkflowTerms
  PortfolioTerms TaxProps SummaryProps RecommendationProps ExecutorProps
  WorkflowProps PortfolioProps.
Local Open Scope Q_scope.

Lemma save_all_other (now : Z) (fresh : nat -> string) (recs : list TaxRecommendation)
    (n : nat) (table : gmap string Recommendation.row) (key : string) :
  (forall j, (n <= j)%nat -> fresh j <> key) ->
  save_all now fresh n recs table !! key = table !! key.
Proof.
  revert n table. induction recs as [| r recs IH]; intros n table Hkey;
    cbn [save_all]; [reflexivity |].
  rewrite IH by (intros j Hj; apply Hkey; lia).
  apply lookup_insert_ne. apply Hkey. lia.
Qed.

Lemma save_all_lookup (now : Z) (fresh : nat -> string)
    (recs : list TaxRecommendation) (n : nat)
    (table : gmap string Recommendation.row) (i : nat) (r : TaxRecommendation) :
  (forall a b, fresh a = fresh b -> a = b) ->
  recs !! i = Some r ->
  save_all now fresh n recs table !! fresh (n + i)%nat = Some (row_of now r).
Proof.
  intros Hinj. revert n table i.
  induction recs as [| r0 recs IH]; intros n table i Hi; [discriminate |].
  cbn [save_all]. destruct i as [| i].
  - injection Hi as ->. rewrite Nat.add_0_r.
    rewrite save_all_other.
    + apply lookup_insert_eq.
    + intros j Hj Heq. apply Hinj in Heq. lia.
  - rewrite Nat.add_succ_r. apply (IH (S n)). exact Hi.
Qed.

Lemma getUserHoldings_In (today : Z) (userId : string) (db : Database) (h : Holding) :
  In h (getUserHoldings today userId db) ->
  exists row,
    holdings db !! holdingId h = Some row
    /\ Holding.user_id row = userId
    /\ h = enrichHolding today (holdingId h) row.
Proof.
  unfold getUserHoldings. intros Hin. apply in_map_iff in Hin.
  destruct Hin as ([key row] & <- & Hin). cbn [fst snd].
  apply select_user_holdings_spec in Hin. destruct Hin as [Hk Hu].
  exists row. repeat split; assumption.
Qed.

(** X29.  Executing a recommendation as generated.  A recommendation of a run
    over the holdings of the user, executed before anything else changes,
    goes through and sells the whole position: it was written for the full
    quantity held, so the holding is deleted and nothing of it remains.
    The sale is at the price and for the quantity of the recommendation. *)
Theorem generated_recommendation_sells_all
    (notes_text : Q -> Q -> string) (userId fy : string) (cfg : TaxConfig)
    (now : Z) (fresh : nat -> string) (db : Database)
    (i : nat) (later : Z) (newId : string) :
  (forall a b, fresh a = fresh b -> a = b) ->
  transactions db !! newId = None ->
  let generated :=
    generateRecommendations notes_text userId fy
      (getUserHoldings now userId db) cfg now fresh db in
  forall r,
    fst generated !! i = Some r ->
    exists x db2,
      executeRecommendation userId (fresh i) later newId (snd generated)
      = (Ok x, db2)
      /\ fully_sold (ex_holding x) = true
      /\ remaining_quantity (ex_holding x) == 0
      /\ holdings db2 !! rec_holdingId r = None
      /\ Transaction.holding_id (snd (ex_transaction x)) = Some (rec_holdingId r)
      /\ Transaction.quantity (snd (ex_transaction x)) = rec_quantity r
      /\ Transaction.price (snd (ex_transaction x)) = rec_currentPrice r.
Proof.
  intros Hinj Hnew generated r Hi. subst generated.
  unfold generateRecommendations in *. cbn [fst snd] in *.
  set (hs := getUserHoldings now userId db) in *.
  set (recs := build_recommendations notes_text userId fy hs cfg) in *.
  assert (Hin : In r recs).
  { apply list_elem_of_In. eapply list_elem_of_lookup_2. exact Hi. }
  destruct (build_recommendations_from notes_text userId fy hs cfg r Hin)
    as (h & Hh & _ & Hid & Hq & _ & _ & _ & _ & _ & Hst & _ & Hu).
  destruct (getUserHoldings_In now userId db h Hh) as (row & Hrow & Hru & Henr).
  assert (Hquant : rec_quantity r = Holding.quantity row).
  { rewrite Hq, Henr. reflexivity. }
  set (db1 := with_recommendations (save_all now fresh 0 recs) db).
  assert (He : executable userId (fresh i) newId db1 (row_of now r)
                 (rec_holdingId r) row (rec_quantity r) (rec_currentPrice r)).
  { unfold executable. subst db1.
    cbn [with_recommendations tax_recommendations holdings transactions].
    split; [apply (save_all_lookup now fresh recs 0 _ i r Hinj Hi) |].
    cbn [row_of Recommendation.user_id Recommendation.status
         Recommendation.holding_id Recommendation.quantity
         Recommendation.current_price].
    rewrite Hid.
    repeat split; assumption. }
  rewrite (executeRecommendation_run userId (fresh i) later newId db1 _ _ _ _ _ He).
  eexists. eexists. split; [reflexivity |].
  cbn [ex_holding ex_transaction fully_sold remaining_quantity snd sale_of
       Transaction.holding_id Transaction.quantity Transaction.price].
  assert (Hle : Qle_bool (Holding.quantity row - rec_quantity r) 0 = true).
  { apply Qle_bool_iff. rewrite Hquant. lra. }
  split; [exact Hle |]. split; [rewrite Hquant; ring |].
  split; [| repeat split].
  unfold executed. rewrite Hle.
  cbn [with_recommendations delete_holding holdings].
  apply lookup_delete_eq.
Qed.

Lemma generated_recommendation_sells_all_witness :
  let generated :=
    generateRecommendations (fun _ _ => EmptyString) "u1" "2024-25"
      (getUserHoldings 1000 "u1" portfolio) (getTaxConfig ∅ "2024-25")
      1000 pretty portfolio in
  exists x db2,
    executeRecommendation "u1" (pretty 0%nat) 2000 "t1" (snd generated) = (Ok x, db2)
    /\ fully_sold (ex_holding x) = true.
Proof.
  intros generated.
  destruct (fst generated !! 0%nat) as [r |] eqn:Hi;
    [| vm_compute in Hi; discriminate].
  destruct (generated_recommendation_sells_all (fun _ _ => EmptyString) "u1"
              "2024-25" (getTaxConfig ∅ "2024-25") 1000 pretty portfolio 0 2000 "t1"
              (fun a b H => inj pretty a b H) eq_refl r Hi)
    as (x & db2 & Hrun & Hfull & _).
  exists x, db2. split; [exact Hrun | exact Hfull].
Defined.

(** *** The references between the tables *)

Lemma insert_transaction_valid (key : string) (t : Transaction.row) (db : Database) :
  references_valid db ->
  (forall id, Transaction.holding_id t = Some id -> is_Some (holdings db !! id)) ->
  references_valid (with_transactions (insert key t) db).
Proof.
  intros [Ht Hr] Hnew. split; cbn [with_transactions transactions holdings
                                     tax_recommendations].
  - intros k t' id Hk Hid. apply lookup_insert_Some in Hk.
    destruct Hk as [[_ <-] | [_ Hk]]; [apply Hnew; exact Hid |].
    exact (Ht k t' id Hk Hid).
  - exact Hr.
Qed.

Lemma insert_recommendation_valid (key : string) (r : Recommendation.row)
    (db : Database) :
  references_valid db ->
  (forall id, Recommendation.holding_id r = Some id -> is_Some (holdings db !! id)) ->
  references_valid (with_recommendations (insert key r) db).
Proof.
  intros [Ht Hr] Hnew. split; cbn [with_recommendations transactions holdings
                                     tax_recommendations].
  - exact Ht.
  - intros k r' id Hk Hid. apply lookup_insert_Some in Hk.
    destruct Hk as [[_ <-] | [_ Hk]]; [apply Hnew; exact Hid |].
    exact (Hr k r' id Hk Hid).
Qed.

Lemma alter_holding_valid (f : Holding.row -> Holding.row) (key : string)
    (db : Database) :
  references_valid db -> references_valid (with_holdings (alter f key) db).
Proof.
  intros [Ht Hr].
  assert (Hdom : forall id, is_Some (holdings db !! id) ->
                            is_Some (alter f key (holdings db) !! id)).
  { intros id [h Hh]. rewrite lookup_alter. case_decide.
    - subst. rewrite Hh. eexists. reflexivity.
    - rewrite Hh. eexists. reflexivity. }
  split; cbn [with_holdings transactions holdings tax_recommendations].
  - intros k t id Hk Hid. apply Hdom. exact (Ht k t id Hk Hid).
  - intros k r id Hk Hid. apply Hdom. exact (Hr k r id Hk Hid).
Qed.

Lemma insert_holding_valid (key : string) (h : Holding.row) (db : Database) :
  references_valid db -> references_valid (with_holdings (insert key h) db).
Proof.
  intros [Ht Hr].
  assert (Hdom : forall id, is_Some (holdings db !! id) ->
                            is_Some (<[key := h]> (holdings db) !! id)).
  { intros id Hid. destruct (decide (key = id)) as [-> | Hne].
    - rewrite lookup_insert_eq. eexists. reflexivity.
    - rewrite lookup_insert_ne by exact Hne. exact Hid. }
  split; cbn [with_holdings transactions holdings tax_recommendations].
  - intros k t id Hk Hid. apply Hdom. exact (Ht k t id Hk Hid).
  - intros k r id Hk Hid. apply Hdom. exact (Hr k r id Hk Hid).
Qed.

Lemma alter_transaction_valid (f : Transaction.row -> Transaction.row)
    (key : string) (db : Database) :
  (forall t, Transaction.holding_id (f t) = Transaction.holding_id t) ->
  references_valid db -> references_valid (with_transactions (alter f key) db).
Proof.
  intros Hf [Ht Hr].
  split; cbn [with_transactions transactions holdings tax_recommendations];
    [| exact Hr].
  intros k t id Hk Hid. rewrite lookup_alter in Hk. case_decide.
  - subst k. destruct (transactions db !! key) as [t0 |] eqn:Hk0; [| discriminate].
    cbn in Hk. injection Hk as <-. rewrite Hf in Hid.
    exact (Ht key t0 id Hk0 Hid).
  - exact (Ht k t id Hk Hid).
Qed.

Lemma alter_recommendation_valid (f : Recommendation.row -> Recommendation.row)
    (key : string) (db : Database) :
  (forall r, Recommendation.holding_id (f r) = Recommendation.holding_id r) ->
  references_valid db -> references_valid (with_recommendations (alter f key) db).
Proof.
  intros Hf [Ht Hr].
  split; cbn [with_recommendations transactions holdings tax_recommendations];
    [exact Ht |].
  intros k r id Hk Hid. rewrite lookup_alter in Hk. case_decide.
  - subst k. destruct (tax_recommendations db !! key) as [r0 |] eqn:Hk0;
      [| discriminate].
    cbn in Hk. injection Hk as <-. rewrite Hf in Hid.
    exact (Hr key r0 id Hk0 Hid).
  - exact (Hr k r id Hk Hid).
Qed.

Lemma delete_holding_valid (key : string) (db : Database) :
  references_valid db -> references_valid (delete_holding key db).
Proof.
  intros [Ht Hr].
  split; cbn [delete_holding transactions holdings tax_recommendations].
  - intros k t id Hk Hid. rewrite lookup_fmap in Hk.
    destruct (transactions db !! k) as [t0 |] eqn:Hk0; [| discriminate].
    cbn in Hk. injection Hk as <-.
    unfold unlink_transaction in Hid. case_decide as Hd; [discriminate |].
    rewrite lookup_delete_ne by congruence. exact (Ht k t0 id Hk0 Hid).
  - intros k r id Hk Hid. rewrite lookup_fmap in Hk.
    destruct (tax_recommendations db !! k) as [r0 |] eqn:Hk0; [| discriminate].
    cbn in Hk. injection Hk as <-.
    unfold unlink_recommendation in Hid. case_decide as Hd; [discriminate |].
    rewrite lookup_delete_ne by congruence. exact (Hr k r0 id Hk0 Hid).
Qed.

Lemma executed_valid (recommendationId holdingId newId : string) (now : Z)
    (h : Holding.row) (q : Q) (sale : Transaction.row) (db : Database) :
  references_valid db ->
  holdings db !! holdingId = Some h ->
  Transaction.holding_id sale = Some holdingId ->
  references_valid (executed recommendationId holdingId newId now h q sale db).
Proof.
  intros Hv Hh Hsale. unfold executed.
  apply alter_recommendation_valid; [reflexivity |].
  assert (H1 : references_valid (with_transactions (insert newId sale) db)).
  { apply insert_transaction_valid; [exact Hv |].
    intros id Hid. rewrite Hsale in Hid. injection Hid as <-.
    rewrite Hh. eexists. reflexivity. }
  destruct (Qle_bool _ 0).
  - apply delete_holding_valid. exact H1.
  - apply alter_holding_valid. exact H1.
Qed.

Lemma linked_holding_inv (t : Transaction.row) (holdingId : string) :
  linked_holding t = Some holdingId -> Transaction.holding_id t = Some holdingId.
Proof.
  unfold linked_holding. destruct (str_truthy _); [trivial | discriminate].
Qed.

Lemma save_all_valid (now : Z) (fresh : nat -> string)
    (recs : list TaxRecommendation) (n : nat) (db : Database) :
  references_valid db ->
  (forall r, In r recs -> is_Some (holdings db !! rec_holdingId r)) ->
  references_valid (with_recommendations (save_all now fresh n recs) db).
Proof.
  revert n db. induction recs as [| r recs IH]; intros n db Hv Hrecs;
    cbn [save_all].
  - destruct db, Hv. split; assumption.
  - specialize (IH (S n) (with_recommendations (insert (fresh n) (row_of now r)) db)).
    cbn [with_recommendations tax_recommendations holdings transactions] in IH.
    apply IH.
    + apply insert_recommendation_valid; [exact Hv |].
      intros id [= <-]. apply Hrecs. left. reflexivity.
    + intros r' Hr'. apply Hrecs. right. exact Hr'.
Qed.

(** X30.  The foreign keys hold throughout.  When every transaction and every
    recommendation that names a holding names one of the table, the same is
    true after an execution, a reversal, a deletion or an update of a
    holding, a change of status and a run of the recommendations.  A
    reversal then never recreates a holding: the holdings after it are the
    holdings before it. *)
Theorem references_stay_valid
    (notes_text : Q -> Q -> string) (userId key newId fy : string)
    (now : Z) (status : Status) (data : HoldingUpdate) (cfg : TaxConfig)
    (fresh : nat -> string) (db : Database) :
  references_valid db ->
  references_valid (snd (executeRecommendation userId key now newId db))
  /\ references_valid (snd (reverseTransaction userId key now db))
  /\ (forall k, is_Some (holdings (snd (reverseTransaction userId key now db)) !! k)
                <-> is_Some (holdings db !! k))
  /\ references_valid (snd (deleteHolding key userId db))
  /\ references_valid (snd (updateHolding now key userId data db))
  /\ references_valid (snd (updateRecommendationStatus key userId status db))
  /\ references_valid
       (snd (generateRecommendations notes_text userId fy
               (getUserHoldings now userId db) cfg now fresh db)).
Proof.
  intros Hv.
  assert (Hrev : references_valid (snd (reverseTransaction userId key now db))
                 /\ forall k,
                      is_Some (holdings (snd (reverseTransaction userId key now db)) !! k)
                      <-> is_Some (holdings db !! k)).
  { destruct (transactions db !! key) as [t |] eqn:Ht.
    2:{ unfold reverseTransaction. unfold_tx. rewrite Ht. cbn [snd].
        split; [exact Hv | reflexivity]. }
    destruct (String.eqb_spec (Transaction.user_id t) userId) as [Hu | Hu].
    2:{ unfold reverseTransaction. unfold_tx. rewrite Ht.
        apply String.eqb_neq in Hu. rewrite Hu. cbn [snd].
        split; [exact Hv | reflexivity]. }
    rewrite (reverseTransaction_run userId key now db t Ht Hu). cbn [snd].
    destruct (linked_holding t) as [holdingId |] eqn:Hl.
    2:{ split; [apply alter_transaction_valid; [reflexivity | exact Hv] |].
        reflexivity. }
    apply linked_holding_inv in Hl.
    destruct Hv as [Hvt Hvr]. destruct (Hvt key t holdingId Ht Hl) as [h Hh].
    rewrite Hh.
    assert (Hdom : forall (f : Holding.row -> Holding.row) k,
               is_Some (alter f holdingId (holdings db) !! k)
               <-> is_Some (holdings db !! k)).
    { intros f k. rewrite lookup_alter. case_decide.
      - subst. rewrite Hh. split; intros _; eexists; reflexivity.
      - reflexivity. }
    destruct (Transaction.transaction_type t).
    - split; [apply alter_transaction_valid; [reflexivity |];
              apply alter_holding_valid; split; assumption |].
      intros k. cbn [with_transactions with_holdings holdings]. apply Hdom.
    - split; [apply alter_transaction_valid; [reflexivity |];
              apply alter_holding_valid; split; assumption |].
      intros k. cbn [with_transactions with_holdings holdings]. apply Hdom. }
  split; [| split; [apply Hrev | split; [apply Hrev |
          split; [| split; [| split]]]]].
  - destruct (executeRecommendation userId key now newId db)
      as [[x | e] db'] eqn:E; cbn [snd].
    + apply executeRecommendation_succeeds_iff in E.
      destruct E as (r & holdingId & h & q & p & He & _ & ->).
      destruct He as (_ & _ & _ & _ & Hh & _).
      apply (executed_valid key holdingId newId now h q _ db Hv Hh). reflexivity.
    + apply executeRecommendation_failure_rolls_back in E. subst db'. exact Hv.
  - unfold deleteHolding.
    destruct (holdings db !! key) as [h |]; [| exact Hv].
    destruct (String.eqb _ userId); [| exact Hv].
    cbn [snd]. apply delete_holding_valid. exact Hv.
  - rewrite updateHolding_cases.
    case_bool_decide; [exact Hv |].
    destruct (fits 20 8 _ && fits 20 2 _ && fits 20 2 _); [| exact Hv].
    destruct (holdings db !! key) as [h |]; [| exact Hv].
    destruct (String.eqb _ userId); [| exact Hv].
    cbn [snd]. apply insert_holding_valid. exact Hv.
  - unfold updateRecommendationStatus.
    destruct (tax_recommendations db !! key) as [r |]; [| exact Hv].
    destruct (String.eqb _ userId); [| exact Hv].
    cbn [snd]. apply alter_recommendation_valid; [reflexivity | exact Hv].
  - unfold generateRecommendations. cbn [snd].
    apply save_all_valid; [exact Hv |].
    intros r Hr.
    destruct (build_recommendations_from notes_text userId fy _ cfg r Hr)
      as (h & Hh & _ & Hid & _).
    destruct (getUserHoldings_In now userId db h Hh) as (row & Hrow & _).
    rewrite Hid, Hrow. eexists. reflexivity.
Qed.

Lemma references_stay_valid_witness :
  references_valid (snd (executeRecommendation "u1" "r1" 1000 "t1" portfolio))
  /\ references_valid (snd (reverseTransaction "u1" "t0" 1000 portfolio)).
Proof.
  assert (Hv : references_valid portfolio).
  { split.
    - intros k t id Hk Hid. cbn [portfolio transactions] in Hk.
      apply lookup_singleton_Some in Hk. destruct Hk as [_ <-].
      injection Hid as <-. eexists. reflexivity.
    - intros k r id Hk Hid. cbn [portfolio tax_recommendations] in Hk.
      apply lookup_singleton_Some in Hk. destruct Hk as [_ <-].
      injection Hid as <-. eexists. reflexivity. }
  destruct (references_stay_valid (fun _ _ => EmptyString) "u1" "r1" "t1" "2024-25"
              1000 accepted
              {| upd_quantity := None; upd_averageBuyPrice := None;
                 upd_currentPrice := None |}
              (getTaxConfig ∅ "2024-25") pretty portfolio Hv) as (H1 & _).
  destruct (references_stay_valid (fun _ _ => EmptyString) "u1" "t0" "t1" "2024-25"
              1000 accepted
              {| upd_quantity := None; upd_averageBuyPrice := None;
                 upd_currentPrice := None |}
              (getTaxConfig ∅ "2024-25") pretty portfolio Hv) as (_ & H2 & _).
  split; assumption.
Defined.

End LifecycleProps.
